(** * oauth2-cli: a shallow embedding of the authorization-code flow

    The program drives a three-legged OAuth2 flow from the command line:
    [loadConfig] merges built-in defaults, the JSON defaults file and the
    command-line flags; [main] derives the redirect URL, draws the state
    (and the optional OIDC nonce) with [randString], prints the URL to
    visit and serves exactly one callback request, whose handler exchanges
    the code for a token and, in nonce mode, runs [checkNonce].

    Go strings are byte strings: they are modelled by [string] (a list of
    8-bit [ascii]); a [[]byte] buffer is a [list byte]; Go's [int] and
    [uint] values are [Z] and [N].  The parts of the Go libraries that
    decide what the program does ([flag], [strconv], [encoding/base64],
    [net/url], the query values of [oauth2]) are modelled after their
    sources; the calls whose results the program only passes on (the
    token endpoint, the JSON codec, [strconv.Quote], the authority
    parser of [net/url], the default mux of [net/http]) are variables of
    the sections that use them. *)

From Stdlib Require Import NArith ZArith Lia Bool List.
From Stdlib Require Import String Ascii DecimalString.
From Stdlib.Strings Require Import Byte.
Import ListNotations.

Local Open Scope string_scope.

(** ** Package [strings] *)

Module strings.

(** [strings.HasPrefix]. *)
Definition HasPrefix (s p : string) : bool := String.prefix p s.

(** [strings.Index] for a one-byte separator: the position of the
    first occurrence of [c], if any. *)
Fixpoint IndexByte (s : string) (c : ascii) : option nat :=
  match s with
  | EmptyString => None
  | String a rest =>
      if Ascii.eqb a c then Some O
      else option_map S (IndexByte rest c)
  end.

Definition ContainsByte (s : string) (c : ascii) : bool :=
  match IndexByte s c with Some _ => true | None => false end.

(** [strings.Cut] for a one-byte separator: the text before and after
    the first occurrence of [c], and whether [c] was found. *)
Fixpoint Cut (s : string) (c : ascii) : string * string * bool :=
  match s with
  | EmptyString => (EmptyString, EmptyString, false)
  | String a rest =>
      if Ascii.eqb a c then (EmptyString, rest, true)
      else let '(before, after, found) := Cut rest c in
           (String a before, after, found)
  end.

(** [strings.SplitN(s, sep, n)] for a one-byte separator and [n > 0]:
    at most [n] substrings, the last one being the unsplit remainder. *)
Fixpoint SplitN (s : string) (c : ascii) (n : nat) : list string :=
  match n with
  | O => []
  | S O => [s]
  | S n' =>
      match Cut s c with
      | (before, after, true) => before :: SplitN after c n'
      | (_, _, false) => [s]
      end
  end.

(** [strings.Join]. *)
Fixpoint Join (elems : list string) (sep : string) : string :=
  match elems with
  | [] => EmptyString
  | [e] => e
  | e :: rest => e ++ sep ++ Join rest sep
  end.

Definition lower (c : ascii) : ascii :=
  let n := N_of_ascii c in
  if ((65 <=? n) && (n <=? 90))%N then ascii_of_N (n + 32) else c.

(** [strings.ToLower] on ASCII text. *)
Fixpoint ToLower (s : string) : string :=
  match s with
  | EmptyString => EmptyString
  | String a rest => String (lower a) (ToLower rest)
  end.

End strings.

(** ** Package [encoding/base64] *)

Module base64.

Local Open Scope N_scope.

Definition encodeStd : string :=
  "ABCDEFGHIJKLMNOPQRSTUVWXYZabcdefghijklmnopqrstuvwxyz0123456789+/".
Definition encodeURL : string :=
  "ABCDEFGHIJKLMNOPQRSTUVWXYZabcdefghijklmnopqrstuvwxyz0123456789-_".

(** An [Encoding]: the 64-character alphabet and the padding character
    ([None] is [NoPadding]). *)
Record Encoding : Type := NewEncoding {
  encode : string;
  padChar : option ascii
}.

Definition StdEncoding : Encoding :=
  {| encode := encodeStd; padChar := Some "="%char |}.
Definition RawURLEncoding : Encoding :=
  {| encode := encodeURL; padChar := None |}.

(** [enc.encode[i]]; every index the encoder uses is masked by 0x3F. *)
Definition encodeAt (enc : Encoding) (i : N) : ascii :=
  match String.get (N.to_nat i) (encode enc) with
  | Some c => c
  | None => zero
  end.

(** [enc.decodeMap[c]]: the index of [c] in the alphabet, 0xFF when
    [c] is not in it. *)
Definition decodeMap (enc : Encoding) (c : ascii) : N :=
  match strings.IndexByte (encode enc) c with
  | Some i => N.of_nat i
  | None => 255
  end.

Definition pad (enc : Encoding) (n : nat) : string :=
  match padChar enc with
  | Some p => string_of_list_ascii (repeat p n)
  | None => EmptyString
  end.

(** [enc.EncodeToString(src)]: three source bytes give four characters;
    a remainder of one or two bytes gives two or three characters and,
    when the encoding pads, the padding that fills the quantum. *)
Fixpoint EncodeToString (enc : Encoding) (src : list byte) : string :=
  match src with
  | [] => EmptyString
  | [b0] =>
      let val := N.shiftl (to_N b0) 16 in
      String (encodeAt enc (N.land (N.shiftr val 18) 63))
        (String (encodeAt enc (N.land (N.shiftr val 12) 63))
           (pad enc 2))
  | [b0; b1] =>
      let val := N.lor (N.shiftl (to_N b0) 16) (N.shiftl (to_N b1) 8) in
      String (encodeAt enc (N.land (N.shiftr val 18) 63))
        (String (encodeAt enc (N.land (N.shiftr val 12) 63))
           (String (encodeAt enc (N.land (N.shiftr val 6) 63))
              (pad enc 1)))
  | b0 :: b1 :: b2 :: rest =>
      let val := N.lor (N.lor (N.shiftl (to_N b0) 16)
                              (N.shiftl (to_N b1) 8)) (to_N b2) in
      String (encodeAt enc (N.land (N.shiftr val 18) 63))
        (String (encodeAt enc (N.land (N.shiftr val 12) 63))
           (String (encodeAt enc (N.land (N.shiftr val 6) 63))
              (String (encodeAt enc (N.land val 63))
                 (EncodeToString enc rest))))
  end.

(** [CorruptInputError(offset)]. *)
Definition CorruptInputError : Type := nat.

(** The three output bytes of a full quantum of four 6-bit values;
    a final quantum of [dlen] values keeps the first [dlen - 1]. *)
Definition quantumBytes (d0 d1 d2 d3 : N) (dlen : nat) : list byte :=
  let val := N.lor (N.lor (N.lor (N.shiftl d0 18) (N.shiftl d1 12))
                          (N.shiftl d2 6)) d3 in
  let byte_of (n : N) : byte :=
    match of_N (N.land n 255) with Some b => b | None => x00 end in
  firstn (dlen - 1)
    [byte_of (N.shiftr val 16); byte_of (N.shiftr val 8); byte_of val].

(** The decoding loop of an encoding without padding, not strict:
    [si] is the offset of the next input byte, [dbuf] the 6-bit values
    of the quantum read so far (at most three).  Line feeds and
    carriage returns are skipped; any other byte outside the alphabet
    is corrupt input at its own offset; input that ends after a single
    value of a quantum is corrupt at [si - 1]. *)
Fixpoint decodeRaw (enc : Encoding) (src : string) (si : nat)
         (dbuf : list N) : CorruptInputError + list byte :=
  match src with
  | EmptyString =>
      match dbuf with
      | [] => inr []
      | [_] => inl (si - 1)%nat
      | [d0; d1] => inr (quantumBytes d0 d1 0 0 2)
      | d0 :: d1 :: d2 :: _ => inr (quantumBytes d0 d1 d2 0 3)
      end
  | String c rest =>
      let out := decodeMap enc c in
      if out =? 255 then
        if (Ascii.eqb c "010" || Ascii.eqb c "013")%bool
        then decodeRaw enc rest (S si) dbuf
        else inl si
      else
        match dbuf with
        | [d0; d1; d2] =>
            match decodeRaw enc rest (S si) [] with
            | inl e => inl e
            | inr tl => inr (quantumBytes d0 d1 d2 out 4 ++ tl)%list
            end
        | _ => decodeRaw enc rest (S si) (dbuf ++ [out])%list
        end
  end.

(** [enc.DecodeString(s)] for an encoding with [NoPadding]. *)
Definition DecodeString (enc : Encoding) (s : string)
  : CorruptInputError + list byte :=
  decodeRaw enc s 0 [].

End base64.

(** ** Package [strconv] *)

Module strconv.

Local Open Scope N_scope.

(** [lower(c)] of strconv: [c | ('x' - 'X')]. *)
Definition lower (c : ascii) : N := N.lor (N_of_ascii c) 32.

Definition isDigit (c : ascii) : bool :=
  (48 <=? N_of_ascii c) && (N_of_ascii c <=? 57).

(** The digits of [ParseUint] after the base prefix: underscores are
    skipped when the base was given as 0, a byte that is no digit of
    [base] is a syntax error.  The value is accumulated without bound;
    [ParseInt] checks the range. *)
Fixpoint digits (base : N) (s : string) (n : N) : option N :=
  match s with
  | EmptyString => Some n
  | String c rest =>
      if Ascii.eqb c "_" then digits base rest n
      else
        let d :=
          if isDigit c then Some (N_of_ascii c - 48)
          else if (97 <=? lower c) && (lower c <=? 122)
               then Some (lower c - 97 + 10)
               else None in
        match d with
        | Some d => if d <? base then digits base rest (n * base + d)
                    else None
        | None => None
        end
  end.

(** [underscoreOK]: underscores appear only between digits or between
    a base prefix and a digit.  [saw] is the class of the last byte:
    ["^"] at the beginning, ["0"] a digit or the base prefix, ["_"] an
    underscore, ["!"] anything else. *)
Fixpoint underscoreLoop (hex : bool) (s : string) (saw : ascii) : bool :=
  match s with
  | EmptyString => negb (Ascii.eqb saw "_")
  | String c rest =>
      if isDigit c || (hex && (97 <=? lower c) && (lower c <=? 102))
      then underscoreLoop hex rest "0"
      else if Ascii.eqb c "_"
      then if Ascii.eqb saw "0" then underscoreLoop hex rest "_"
           else false
      else if Ascii.eqb saw "_" then false
      else underscoreLoop hex rest "!"
  end.

Definition stripSign (s : string) : bool * string :=
  match s with
  | String "+" rest => (false, rest)
  | String "-" rest => (true, rest)
  | _ => (false, s)
  end.

Definition underscoreOK (s : string) : bool :=
  let s := snd (stripSign s) in
  match s with
  | String "0" (String p rest) =>
      if (lower p =? 98) || (lower p =? 111) || (lower p =? 120)
      then underscoreLoop (lower p =? 120) rest "0"
      else underscoreLoop false s "^"
  | _ => underscoreLoop false s "^"
  end.

(** [ParseUint(s, 0, 64)], before the range check. *)
Definition ParseUint0 (s : string) : option N :=
  match s with
  | EmptyString => None
  | String "0" rest =>
      match rest with
      | String p (String c rest') =>
          if lower p =? 98 then digits 2 (String c rest') 0
          else if lower p =? 111 then digits 8 (String c rest') 0
          else if lower p =? 120 then digits 16 (String c rest') 0
          else digits 8 rest 0
      | _ => digits 8 rest 0
      end
  | _ => digits 10 s 0
  end.

(** [ParseInt(s, 0, 64)]: [None] when it returns an error (syntax or
    range). *)
Definition ParseInt (s : string) : option Z :=
  match s with
  | EmptyString => None
  | _ =>
      let '(neg, s1) := stripSign s in
      match ParseUint0 s1 with
      | None => None
      | Some un =>
          if strings.ContainsByte s1 "_" && negb (underscoreOK s)
          then None
          else if negb neg && (2 ^ 63 <=? un) then None
          else if neg && (2 ^ 63 <? un) then None
          else Some (if neg then Z.opp (Z.of_N un) else Z.of_N un)
      end
  end.

(** [ParseBool]. *)
Definition ParseBool (s : string) : option bool :=
  if existsb (String.eqb s) ["1"; "t"; "T"; "TRUE"; "true"; "True"]
  then Some true
  else if existsb (String.eqb s) ["0"; "f"; "F"; "FALSE"; "false"; "False"]
  then Some false
  else None.

(** [Itoa], the [%d] verb of [fmt]. *)
Definition Itoa (i : Z) : string :=
  match i with
  | Z0 => "0"
  | Zpos p => DecimalString.NilEmpty.string_of_uint (Pos.to_uint p)
  | Zneg p => "-" ++ DecimalString.NilEmpty.string_of_uint (Pos.to_uint p)
  end.

End strconv.

(** ** Process outcomes *)

(** A Go function either returns, or the process exits ([os.Exit], which
    [log.Fatalf] and the [flag] package call), or the goroutine panics,
    or it blocks for ever. *)
Inductive outcome (E A : Type) : Type :=
| Return (a : A)
| Exit (status : Z) (reason : E)
| Panic (msg : string)
| Blocked.
Arguments Return {E A} a.
Arguments Exit {E A} status reason.
Arguments Panic {E A} msg.
Arguments Blocked {E A}.

Definition bind {E A B : Type} (m : outcome E A) (k : A -> outcome E B)
  : outcome E B :=
  match m with
  | Return a => k a
  | Exit status reason => Exit status reason
  | Panic msg => Panic msg
  | Blocked => Blocked
  end.

Declare Scope outcome_scope.
Delimit Scope outcome_scope with outcome.
Notation "x <- m ;; k" := (bind m (fun x => k))
  (at level 61, m at next level, right associativity) : outcome_scope.
Notation "m ;; k" := (bind m (fun _ => k))
  (at level 61, right associativity) : outcome_scope.

(** ** Package [flag] *)

Module flag.

(** What [parseOne] can fail with. *)
Inductive Error : Type :=
| ErrHelp
| ErrBadSyntax (arg : string)
| ErrNotDefined (name : string)
| ErrInvalidBoolean (value name : string)
| ErrNeedsArgument (name : string)
| ErrInvalidValue (value name : string).

Section FlagSet.

(** The struct whose fields the flag variables point to.  A pointer
    [&conf.Field] is the function that stores into that field. *)
Context {C : Type}.

(** The [Value] interface with its three implementations. *)
Inductive Value : Type :=
| stringValue (p : string -> C -> C)
| intValue (p : Z -> C -> C)
| boolValue (p : bool -> C -> C).

(** [Value.Set]: [None] when the text does not parse. *)
Definition Set_ (v : Value) (s : string) (c : C) : option C :=
  match v with
  | stringValue p => Some (p s c)
  | intValue p => option_map (fun i => p i c) (strconv.ParseInt s)
  | boolValue p => option_map (fun b => p b c) (strconv.ParseBool s)
  end.

Definition IsBoolFlag (v : Value) : bool :=
  match v with boolValue _ => true | _ => false end.

Record Flag : Type := { Name : string; Val : Value }.

(** The flag set: the variables, the defined flags ([formal]) and the
    names of the flags that the command line set ([actual]). *)
Record FlagSet : Type := {
  vars : C;
  formal : list Flag;
  actual : list string;
  args : list string
}.

Definition NewFlagSet (c : C) : FlagSet :=
  {| vars := c; formal := []; actual := []; args := [] |}.

(** [f.Var(value, name, usage)]. *)
Definition Var (v : Value) (name : string) (f : FlagSet) : FlagSet :=
  {| vars := vars f;
     formal := (formal f ++ [{| Name := name; Val := v |}])%list;
     actual := actual f;
     args := args f |}.

Definition store (c : C) (f : FlagSet) : FlagSet :=
  {| vars := c; formal := formal f; actual := actual f; args := args f |}.

(** [StringVar(p, name, value, usage)]: [newStringValue] stores the
    default [value] through [p], then the flag is defined.  [IntVar]
    and [BoolVar] alike. *)
Definition StringVar (p : string -> C -> C) (name value : string)
           (f : FlagSet) : FlagSet :=
  Var (stringValue p) name (store (p value (vars f)) f).

Definition IntVar (p : Z -> C -> C) (name : string) (value : Z)
           (f : FlagSet) : FlagSet :=
  Var (intValue p) name (store (p value (vars f)) f).

Definition BoolVar (p : bool -> C -> C) (name : string) (value : bool)
           (f : FlagSet) : FlagSet :=
  Var (boolValue p) name (store (p value (vars f)) f).

Fixpoint lookup (name : string) (fl : list Flag) : option Flag :=
  match fl with
  | [] => None
  | x :: rest => if String.eqb (Name x) name then Some x
                 else lookup name rest
  end.

(** The name of a flag argument after its one or two minus signs. *)
Definition flagName (s : string) : string :=
  match s with
  | String "-" (String "-" name) => name
  | String "-" name => name
  | _ => s
  end.

(** [name=value]: the split at the first equals sign, which cannot
    be the first byte of the name. *)
Definition splitValue (name : string) : string * string * bool :=
  match name with
  | EmptyString => (EmptyString, EmptyString, false)
  | String a rest =>
      let '(before, after, found) := strings.Cut rest "=" in
      if found then (String a before, after, true)
      else (name, EmptyString, false)
  end.

(** The loop of [f.Parse]: [parseOne] until the arguments are used
    up, a non-flag argument or ["--"] is met, or an error occurs. *)
Fixpoint parseArgs (fl : list Flag) (arguments : list string) (c : C)
         (act : list string) : Error + (C * list string * list string) :=
  match arguments with
  | [] => inr (c, act, [])
  | s :: rest =>
      match s with
      | String "-" (String _ _) =>
          if String.eqb s "--" then inr (c, act, rest)
          else
            let name := flagName s in
            match name with
            | EmptyString | String "-" _ | String "=" _ =>
                inl (ErrBadSyntax s)
            | _ =>
                let '(name, value, hasValue) := splitValue name in
                match lookup name fl with
                | None =>
                    if String.eqb name "help" || String.eqb name "h"
                    then inl ErrHelp
                    else inl (ErrNotDefined name)
                | Some fg =>
                    if IsBoolFlag (Val fg) then
                      match Set_ (Val fg)
                              (if hasValue then value else "true") c with
                      | None => inl (ErrInvalidBoolean value name)
                      | Some c' => parseArgs fl rest c' (act ++ [name])%list
                      end
                    else if hasValue then
                      match Set_ (Val fg) value c with
                      | None => inl (ErrInvalidValue value name)
                      | Some c' => parseArgs fl rest c' (act ++ [name])%list
                      end
                    else
                      match rest with
                      | [] => inl (ErrNeedsArgument name)
                      | value :: rest' =>
                          match Set_ (Val fg) value c with
                          | None => inl (ErrInvalidValue value name)
                          | Some c' =>
                              parseArgs fl rest' c' (act ++ [name])%list
                          end
                      end
                end
            end
      | _ => inr (c, act, arguments)
      end
  end.

(** [flag.Parse()] on the command line [arguments].  The command-line
    flag set uses [ExitOnError]: [ErrHelp] exits with status 0, any
    other error with status 2. *)
Definition Parse (arguments : list string) (f : FlagSet)
  : outcome Error FlagSet :=
  match parseArgs (formal f) arguments (vars f) (actual f) with
  | inl ErrHelp => Exit 0 ErrHelp
  | inl e => Exit 2 e
  | inr (c, act, rest) =>
      Return {| vars := c; formal := formal f; actual := act;
                args := rest |}
  end.

End FlagSet.

Arguments Value : clear implicits.
Arguments Flag : clear implicits.
Arguments FlagSet : clear implicits.

End flag.

(** ** Package [net/url] *)

Module url.

Local Open Scope N_scope.
Local Open Scope bool_scope.

Inductive encoding : Type :=
| encodePath
| encodeUserPassword
| encodeHost
| encodeQueryComponent
| encodeFragment.

Definition isAlnum (c : ascii) : bool :=
  let n := N_of_ascii c in
  ((97 <=? n) && (n <=? 122)) || ((65 <=? n) && (n <=? 90))
  || ((48 <=? n) && (n <=? 57)).

Definition oneOf (c : ascii) (set : string) : bool :=
  strings.ContainsByte set c.

(** [shouldEscape(c, mode)]. *)
Definition shouldEscape (c : ascii) (mode : encoding) : bool :=
  if isAlnum c then false
  else if (match mode with encodeHost => true | _ => false end)
          && (oneOf c "!$&'()*+,;=:[]<>" || Ascii.eqb c "034")
  then false
  else if oneOf c "-_.~" then false
  else if oneOf c "$&+,/:;=?@" then
    match mode with
    | encodePath => Ascii.eqb c "?"
    | encodeUserPassword => oneOf c "@/?:"
    | encodeQueryComponent => true
    | encodeFragment => false
    | encodeHost => true
    end
  else if (match mode with encodeFragment => true | _ => false end)
          && oneOf c "!()*"
  then false
  else true.

Definition upperhex (n : N) : ascii :=
  match String.get (N.to_nat n) "0123456789ABCDEF" with
  | Some c => c
  | None => zero
  end.

(** [escape(s, mode)]. *)
Fixpoint escape (s : string) (mode : encoding) : string :=
  match s with
  | EmptyString => EmptyString
  | String c rest =>
      if Ascii.eqb c " "
         && (match mode with encodeQueryComponent => true | _ => false end)
      then String "+" (escape rest mode)
      else if shouldEscape c mode
      then String "%" (String (upperhex (N.shiftr (N_of_ascii c) 4))
                         (String (upperhex (N.land (N_of_ascii c) 15))
                            (escape rest mode)))
      else String c (escape rest mode)
  end.

Definition QueryEscape (s : string) : string :=
  escape s encodeQueryComponent.

Definition ishex (c : ascii) : bool :=
  let n := N_of_ascii c in
  ((48 <=? n) && (n <=? 57)) || ((97 <=? n) && (n <=? 102))
  || ((65 <=? n) && (n <=? 70)).

Definition unhex (c : ascii) : N :=
  let n := N_of_ascii c in
  if (48 <=? n) && (n <=? 57) then n - 48
  else if (97 <=? n) && (n <=? 102) then n - 97 + 10
  else if (65 <=? n) && (n <=? 70) then n - 65 + 10
  else 0.

(** [unescape(s, mode)] in the path and fragment modes: every [%XX]
    is replaced by its byte; [None] is an [EscapeError]. *)
Fixpoint unescape (s : string) : option string :=
  match s with
  | EmptyString => Some EmptyString
  | String "%" rest =>
      match rest with
      | String h1 (String h2 rest') =>
          if ishex h1 && ishex h2 then
            option_map
              (String (ascii_of_N (N.lor (N.shiftl (unhex h1) 4) (unhex h2))))
              (unescape rest')
          else None
      | _ => None
      end
  | String c rest => option_map (String c) (unescape rest)
  end.

(** [validEncoded(s, mode)]. *)
Fixpoint validEncoded (s : string) (mode : encoding) : bool :=
  match s with
  | EmptyString => true
  | String c rest =>
      (oneOf c "!$&'()*+,;=:@[]%" || negb (shouldEscape c mode))
      && validEncoded rest mode
  end.

Record Userinfo : Type := {
  username : string;
  password : string;
  passwordSet : bool
}.

Record URL : Type := {
  Scheme : string;
  Opaque : string;
  User : option Userinfo;
  Host : string;
  Path : string;
  RawPath : string;
  OmitHost : bool;
  ForceQuery : bool;
  RawQuery : string;
  Fragment : string;
  RawFragment : string
}.

Definition empty : URL :=
  {| Scheme := ""; Opaque := ""; User := None; Host := ""; Path := "";
     RawPath := ""; OmitHost := false; ForceQuery := false;
     RawQuery := ""; Fragment := ""; RawFragment := "" |}.

(** The assignments [u.Scheme = v] and [u.Host = v]. *)
Definition set_Scheme (v : string) (u : URL) : URL :=
  {| Scheme := v; Opaque := Opaque u; User := User u; Host := Host u;
     Path := Path u; RawPath := RawPath u; OmitHost := OmitHost u;
     ForceQuery := ForceQuery u; RawQuery := RawQuery u;
     Fragment := Fragment u; RawFragment := RawFragment u |}.
Definition set_Host (v : string) (u : URL) : URL :=
  {| Scheme := Scheme u; Opaque := Opaque u; User := User u; Host := v;
     Path := Path u; RawPath := RawPath u; OmitHost := OmitHost u;
     ForceQuery := ForceQuery u; RawQuery := RawQuery u;
     Fragment := Fragment u; RawFragment := RawFragment u |}.

Inductive Error : Type :=
| ErrControlCharacter
| ErrMissingScheme
| ErrColonInFirstSegment
| ErrAuthority (detail : string)
| ErrEscape.

Definition isCTL (c : ascii) : bool :=
  (N_of_ascii c <? 32) || (N_of_ascii c =? 127).

Fixpoint stringContainsCTLByte (s : string) : bool :=
  match s with
  | EmptyString => false
  | String c rest => isCTL c || stringContainsCTLByte rest
  end.

Definition isAlpha (c : ascii) : bool :=
  let n := N_of_ascii c in
  ((97 <=? n) && (n <=? 122)) || ((65 <=? n) && (n <=? 90)).

(** [getScheme(rawURL)]: [i] is [true] past the first byte, [acc] the
    bytes read so far in reverse. *)
Fixpoint schemeLoop (rawURL s : string) (i : bool) (acc : string)
  : Error + (string * string) :=
  match s with
  | EmptyString => inr (EmptyString, rawURL)
  | String c rest =>
      if isAlpha c then schemeLoop rawURL rest true (acc ++ String c "")
      else if ((48 <=? N_of_ascii c) && (N_of_ascii c <=? 57))
              || oneOf c "+-."
      then if i then schemeLoop rawURL rest true (acc ++ String c "")
           else inr (EmptyString, rawURL)
      else if Ascii.eqb c ":"
      then if i then inr (acc, rest) else inl ErrMissingScheme
      else inr (EmptyString, rawURL)
  end.

Definition getScheme (rawURL : string) : Error + (string * string) :=
  schemeLoop rawURL rawURL false EmptyString.

Fixpoint countByte (s : string) (c : ascii) : nat :=
  match s with
  | EmptyString => O
  | String a rest =>
      ((if Ascii.eqb a c then 1 else 0) + countByte rest c)%nat
  end.

Fixpoint dropLast (s : string) : string :=
  match s with
  | EmptyString => EmptyString
  | String _ EmptyString => EmptyString
  | String c rest => String c (dropLast rest)
  end.

Definition HasSuffixByte (s : string) (c : ascii) : bool :=
  match String.get (String.length s - 1) s with
  | Some a => negb (String.eqb s "") && Ascii.eqb a c
  | None => false
  end.

Section Parse.

(** [parseAuthority(authority)]: user information and host of the
    text between ["//"] and the path; [inl] is its error. *)
Variable parseAuthority : string -> string + (option Userinfo * string).

(** [u.setPath(p)] and [u.setFragment(f)]: the raw form is kept only
    when it differs from the default escaping of the decoded one. *)
Definition setPath (p : string) (u : URL) : Error + URL :=
  match unescape p with
  | None => inl ErrEscape
  | Some path =>
      inr {| Scheme := Scheme u; Opaque := Opaque u; User := User u;
             Host := Host u; Path := path;
             RawPath := if String.eqb p (escape path encodePath)
                        then "" else p;
             OmitHost := OmitHost u; ForceQuery := ForceQuery u;
             RawQuery := RawQuery u; Fragment := Fragment u;
             RawFragment := RawFragment u |}
  end.

Definition setFragment (f : string) (u : URL) : Error + URL :=
  match unescape f with
  | None => inl ErrEscape
  | Some frag =>
      inr {| Scheme := Scheme u; Opaque := Opaque u; User := User u;
             Host := Host u; Path := Path u; RawPath := RawPath u;
             OmitHost := OmitHost u; ForceQuery := ForceQuery u;
             RawQuery := RawQuery u; Fragment := frag;
             RawFragment := if String.eqb f (escape frag encodeFragment)
                            then "" else f |}
  end.

(** [parse(rawURL, false)]. *)
Definition parse (rawURL : string) : Error + URL :=
  if stringContainsCTLByte rawURL then inl ErrControlCharacter
  else if String.eqb rawURL "*" then
    inr {| Scheme := ""; Opaque := ""; User := None; Host := "";
           Path := "*"; RawPath := ""; OmitHost := false;
           ForceQuery := false; RawQuery := ""; Fragment := "";
           RawFragment := "" |}
  else
    match getScheme rawURL with
    | inl e => inl e
    | inr (scheme, rest) =>
        let scheme := strings.ToLower scheme in
        let '(rest, rawQuery, forceQuery) :=
          if HasSuffixByte rest "?" && Nat.eqb (countByte rest "?") 1
          then (dropLast rest, EmptyString, true)
          else let '(before, after, _) := strings.Cut rest "?" in
               (before, after, false) in
        let u := {| Scheme := scheme; Opaque := ""; User := None;
                    Host := ""; Path := ""; RawPath := "";
                    OmitHost := false; ForceQuery := forceQuery;
                    RawQuery := rawQuery; Fragment := "";
                    RawFragment := "" |} in
        if negb (strings.HasPrefix rest "/")
           && negb (String.eqb scheme "")
        then
          inr {| Scheme := scheme; Opaque := rest; User := None;
                 Host := ""; Path := ""; RawPath := "";
                 OmitHost := false; ForceQuery := forceQuery;
                 RawQuery := rawQuery; Fragment := "";
                 RawFragment := "" |}
        else if negb (strings.HasPrefix rest "/")
                && (let '(segment, _, _) := strings.Cut rest "/" in
                    strings.ContainsByte segment ":")
        then inl ErrColonInFirstSegment
        else if (negb (String.eqb scheme "")
                 || negb (strings.HasPrefix rest "///"))
                && strings.HasPrefix rest "//"
        then
          let rest2 := String.substring 2 (String.length rest - 2) rest in
          let '(authority, rest3) :=
            match strings.IndexByte rest2 "/" with
            | Some i =>
                (String.substring 0 i rest2,
                 String.substring i (String.length rest2 - i) rest2)
            | None => (rest2, EmptyString)
            end in
          match parseAuthority authority with
          | inl e => inl (ErrAuthority e)
          | inr (user, host) =>
              setPath rest3
                {| Scheme := scheme; Opaque := ""; User := user;
                   Host := host; Path := ""; RawPath := "";
                   OmitHost := false; ForceQuery := forceQuery;
                   RawQuery := rawQuery; Fragment := "";
                   RawFragment := "" |}
          end
        else
          setPath rest
            {| Scheme := scheme; Opaque := ""; User := None;
               Host := ""; Path := ""; RawPath := "";
               OmitHost := negb (String.eqb scheme "")
                           && strings.HasPrefix rest "/";
               ForceQuery := forceQuery;
               RawQuery := rawQuery; Fragment := "";
               RawFragment := "" |}
    end.

(** [url.Parse(rawURL)]: the fragment is cut off, the rest parsed,
    the fragment set when it is not empty. *)
Definition Parse (rawURL : string) : Error + URL :=
  let '(u, frag, _) := strings.Cut rawURL "#" in
  match parse u with
  | inl e => inl e
  | inr url =>
      if String.eqb frag "" then inr url else setFragment frag url
  end.

End Parse.

(** [u.EscapedPath()] and [u.EscapedFragment()]. *)
Definition EscapedPath (u : URL) : string :=
  if negb (String.eqb (RawPath u) "")
     && validEncoded (RawPath u) encodePath
     && (match unescape (RawPath u) with
         | Some p => String.eqb p (Path u)
         | None => false
         end)
  then RawPath u
  else if String.eqb (Path u) "*" then "*"
  else escape (Path u) encodePath.

Definition EscapedFragment (u : URL) : string :=
  if negb (String.eqb (RawFragment u) "")
     && validEncoded (RawFragment u) encodeFragment
     && (match unescape (RawFragment u) with
         | Some f => String.eqb f (Fragment u)
         | None => false
         end)
  then RawFragment u
  else escape (Fragment u) encodeFragment.

Definition Userinfo_String (ui : Userinfo) : string :=
  escape (username ui) encodeUserPassword
  ++ (if passwordSet ui
      then ":" ++ escape (password ui) encodeUserPassword
      else "").

Definition isSome {A : Type} (o : option A) : bool :=
  match o with Some _ => true | None => false end.

(** [u.String()]. *)
Definition String_ (u : URL) : string :=
  let buf := if String.eqb (Scheme u) "" then "" else Scheme u ++ ":" in
  let buf :=
    if negb (String.eqb (Opaque u) "") then buf ++ Opaque u
    else
      let buf :=
        if negb (String.eqb (Scheme u) "")
           || negb (String.eqb (Host u) "") || isSome (User u)
        then
          if OmitHost u && String.eqb (Host u) ""
             && negb (isSome (User u))
          then buf
          else
            let buf :=
              if negb (String.eqb (Host u) "")
                 || negb (String.eqb (Path u) "") || isSome (User u)
              then buf ++ "//" else buf in
            let buf :=
              match User u with
              | Some ui => buf ++ Userinfo_String ui ++ "@"
              | None => buf
              end in
            if negb (String.eqb (Host u) "")
            then buf ++ escape (Host u) encodeHost
            else buf
        else buf in
      let path := EscapedPath u in
      let buf :=
        match path with
        | String c _ =>
            if negb (Ascii.eqb c "/") && negb (String.eqb (Host u) "")
            then buf ++ "/" else buf
        | EmptyString => buf
        end in
      let buf :=
        if String.eqb buf ""
           && (let '(segment, _, _) := strings.Cut path "/" in
               strings.ContainsByte segment ":")
        then buf ++ "./" else buf in
      buf ++ path in
  let buf :=
    if ForceQuery u || negb (String.eqb (RawQuery u) "")
    then buf ++ "?" ++ RawQuery u else buf in
  if negb (String.eqb (Fragment u) "")
  then buf ++ "#" ++ EscapedFragment u
  else buf.

(** [Values]: a map from keys to lists of values, kept as a list of
    bindings in increasing order of the keys, without repetition (the
    order in which [Encode] writes them). *)
Definition Values : Type := list (string * list string).

(** [v.Get(key)]: the first value of [key], [""] without one. *)
Fixpoint Get (v : Values) (key : string) : string :=
  match v with
  | [] => ""
  | (k, vs) :: rest =>
      if String.eqb k key then hd "" vs else Get rest key
  end.

(** [v.Set(key, value)]. *)
Fixpoint Set_ (key value : string) (v : Values) : Values :=
  match v with
  | [] => [(key, [value])]
  | (k, vs) :: rest =>
      if String.eqb k key then (key, [value]) :: rest
      else if String.ltb key k then (key, [value]) :: v
      else (k, vs) :: Set_ key value rest
  end.

(** [v.Encode()]: [key=value] pairs, both query-escaped, joined by
    ["&"], sorted by key. *)
Definition Encode (v : Values) : string :=
  strings.Join
    (flat_map (fun kv => map (fun x => QueryEscape (fst kv) ++ "="
                                      ++ QueryEscape x) (snd kv)) v)
    "&".

End url.

(** ** The configuration and [loadConfig] *)

Definition configDefaults : string := "/etc/oauth2-cli.json".

Record config : Type := {
  Interface : string;
  Port : Z;
  Callback : string;
  ClientID : string;
  ClientSecret : string;
  AuthURL : string;
  TokenURL : string;
  CodeParam : string;
  Scope : string;
  OIDCNonce : bool;
  Verbose : bool
}.

(** Stores through the pointers [&conf.Interface], ..., [&conf.Verbose]. *)
Definition set_Interface (v : string) (c : config) : config :=
  {| Interface := v; Port := Port c; Callback := Callback c;
     ClientID := ClientID c; ClientSecret := ClientSecret c;
     AuthURL := AuthURL c; TokenURL := TokenURL c;
     CodeParam := CodeParam c; Scope := Scope c;
     OIDCNonce := OIDCNonce c; Verbose := Verbose c |}.
Definition set_Port (v : Z) (c : config) : config :=
  {| Interface := Interface c; Port := v; Callback := Callback c;
     ClientID := ClientID c; ClientSecret := ClientSecret c;
     AuthURL := AuthURL c; TokenURL := TokenURL c;
     CodeParam := CodeParam c; Scope := Scope c;
     OIDCNonce := OIDCNonce c; Verbose := Verbose c |}.
Definition set_Callback (v : string) (c : config) : config :=
  {| Interface := Interface c; Port := Port c; Callback := v;
     ClientID := ClientID c; ClientSecret := ClientSecret c;
     AuthURL := AuthURL c; TokenURL := TokenURL c;
     CodeParam := CodeParam c; Scope := Scope c;
     OIDCNonce := OIDCNonce c; Verbose := Verbose c |}.
Definition set_ClientID (v : string) (c : config) : config :=
  {| Interface := Interface c; Port := Port c; Callback := Callback c;
     ClientID := v; ClientSecret := ClientSecret c;
     AuthURL := AuthURL c; TokenURL := TokenURL c;
     CodeParam := CodeParam c; Scope := Scope c;
     OIDCNonce := OIDCNonce c; Verbose := Verbose c |}.
Definition set_ClientSecret (v : string) (c : config) : config :=
  {| Interface := Interface c; Port := Port c; Callback := Callback c;
     ClientID := ClientID c; ClientSecret := v;
     AuthURL := AuthURL c; TokenURL := TokenURL c;
     CodeParam := CodeParam c; Scope := Scope c;
     OIDCNonce := OIDCNonce c; Verbose := Verbose c |}.
Definition set_AuthURL (v : string) (c : config) : config :=
  {| Interface := Interface c; Port := Port c; Callback := Callback c;
     ClientID := ClientID c; ClientSecret := ClientSecret c;
     AuthURL := v; TokenURL := TokenURL c;
     CodeParam := CodeParam c; Scope := Scope c;
     OIDCNonce := OIDCNonce c; Verbose := Verbose c |}.
Definition set_TokenURL (v : string) (c : config) : config :=
  {| Interface := Interface c; Port := Port c; Callback := Callback c;
     ClientID := ClientID c; ClientSecret := ClientSecret c;
     AuthURL := AuthURL c; TokenURL := v;
     CodeParam := CodeParam c; Scope := Scope c;
     OIDCNonce := OIDCNonce c; Verbose := Verbose c |}.
Definition set_CodeParam (v : string) (c : config) : config :=
  {| Interface := Interface c; Port := Port c; Callback := Callback c;
     ClientID := ClientID c; ClientSecret := ClientSecret c;
     AuthURL := AuthURL c; TokenURL := TokenURL c;
     CodeParam := v; Scope := Scope c;
     OIDCNonce := OIDCNonce c; Verbose := Verbose c |}.
Definition set_Scope (v : string) (c : config) : config :=
  {| Interface := Interface c; Port := Port c; Callback := Callback c;
     ClientID := ClientID c; ClientSecret := ClientSecret c;
     AuthURL := AuthURL c; TokenURL := TokenURL c;
     CodeParam := CodeParam c; Scope := v;
     OIDCNonce := OIDCNonce c; Verbose := Verbose c |}.
Definition set_OIDCNonce (v : bool) (c : config) : config :=
  {| Interface := Interface c; Port := Port c; Callback := Callback c;
     ClientID := ClientID c; ClientSecret := ClientSecret c;
     AuthURL := AuthURL c; TokenURL := TokenURL c;
     CodeParam := CodeParam c; Scope := Scope c;
     OIDCNonce := v; Verbose := Verbose c |}.
Definition set_Verbose (v : bool) (c : config) : config :=
  {| Interface := Interface c; Port := Port c; Callback := Callback c;
     ClientID := ClientID c; ClientSecret := ClientSecret c;
     AuthURL := AuthURL c; TokenURL := TokenURL c;
     CodeParam := CodeParam c; Scope := Scope c;
     OIDCNonce := OIDCNonce c; Verbose := v |}.

(** The keys that the JSON object of the defaults file holds, by their
    struct tags; [None] is a key that the object does not have. *)
Record fileValues : Type := {
  json_interface : option string;
  json_port : option Z;
  json_callback : option string;
  json_client_id : option string;
  json_client_secret : option string;
  json_auth_url : option string;
  json_token_url : option string;
  json_code_param : option string;
  json_scopes : option string;
  json_nonce : option bool;
  json_verbose : option bool
}.

Definition noValues : fileValues :=
  {| json_interface := None; json_port := None; json_callback := None;
     json_client_id := None; json_client_secret := None;
     json_auth_url := None; json_token_url := None;
     json_code_param := None; json_scopes := None;
     json_nonce := None; json_verbose := None |}.

(** What [os.Open(configDefaults)] and the JSON decoder find. *)
Inductive defaultsFile : Type :=
| NotExist                        (* [os.IsNotExist(err)] *)
| OpenError (err : string)        (* any other error of [os.Open] *)
| DecodeError (err : string)      (* [Decode] returns an error *)
| Decoded (v : fileValues).       (* [Decode] succeeds *)

Definition orElse {A : Type} (o : option A) (d : A) : A :=
  match o with Some a => a | None => d end.

(** [json.NewDecoder(defaultsFile).Decode(&conf)] when it succeeds: a
    key of the object overwrites its field, the other fields are kept. *)
Definition Decode (v : fileValues) (c : config) : config :=
  {| Interface := orElse (json_interface v) (Interface c);
     Port := orElse (json_port v) (Port c);
     Callback := orElse (json_callback v) (Callback c);
     ClientID := orElse (json_client_id v) (ClientID c);
     ClientSecret := orElse (json_client_secret v) (ClientSecret c);
     AuthURL := orElse (json_auth_url v) (AuthURL c);
     TokenURL := orElse (json_token_url v) (TokenURL c);
     CodeParam := orElse (json_code_param v) (CodeParam c);
     Scope := orElse (json_scopes v) (Scope c);
     OIDCNonce := orElse (json_nonce v) (OIDCNonce c);
     Verbose := orElse (json_verbose v) (Verbose c) |}.

(** Why the process exits. *)
Inductive fatal : Type :=
| FailedToOpen (path err : string)
| FailedToParse (path err : string)
| FlagError (e : flag.Error)
| RequiredFlag (name : string)
| BadCallback (e : url.Error)
| RandomReadFailed (err : string)
| ListenFailed (err : string)
| ShutdownFailed (err : string).

Local Open Scope outcome_scope.

(** [required(flag, value)]. *)
Definition required (flag value : string) : outcome fatal unit :=
  if String.eqb value "" then Exit 1 (RequiredFlag flag)
  else Return tt.

(** The literal that [loadConfig] starts from. *)
Definition builtin : config :=
  {| Interface := "127.0.0.1"; Port := 8081; Callback := "/oauth/callback";
     ClientID := ""; ClientSecret := ""; AuthURL := ""; TokenURL := "";
     CodeParam := "code"; Scope := ""; OIDCNonce := false;
     Verbose := false |}.

(** The defaults file read into [conf]. *)
Definition readDefaults (file : defaultsFile) (conf : config)
  : outcome fatal config :=
  match file with
  | NotExist => Return conf
  | OpenError err => Exit 1 (FailedToOpen configDefaults err)
  | DecodeError err => Exit 1 (FailedToParse configDefaults err)
  | Decoded v => Return (Decode v conf)
  end.

(** The eleven flag definitions, in the order of the source.  Each
    default is read from [conf] when its flag is defined; the ["token"]
    flag takes its default from [conf.AuthURL]. *)
Definition defineFlags (conf : config) : flag.FlagSet config :=
  let f := flag.NewFlagSet conf in
  let f := flag.StringVar set_Interface "interface" (Interface (flag.vars f)) f in
  let f := flag.IntVar set_Port "port" (Port (flag.vars f)) f in
  let f := flag.StringVar set_Callback "callback" (Callback (flag.vars f)) f in
  let f := flag.StringVar set_ClientID "id" (ClientID (flag.vars f)) f in
  let f := flag.StringVar set_ClientSecret "secret" (ClientSecret (flag.vars f)) f in
  let f := flag.StringVar set_AuthURL "auth" (AuthURL (flag.vars f)) f in
  let f := flag.StringVar set_TokenURL "token" (AuthURL (flag.vars f)) f in
  let f := flag.StringVar set_CodeParam "code" (CodeParam (flag.vars f)) f in
  let f := flag.StringVar set_Scope "scope" (Scope (flag.vars f)) f in
  let f := flag.BoolVar set_OIDCNonce "oidc-nonce" (OIDCNonce (flag.vars f)) f in
  let f := flag.BoolVar set_Verbose "verbose" (Verbose (flag.vars f)) f in
  f.

Definition parseFlags (arguments : list string) (f : flag.FlagSet config)
  : outcome fatal (flag.FlagSet config) :=
  match flag.Parse arguments f with
  | Return f' => Return f'
  | Exit status e => Exit status (FlagError e)
  | Panic msg => Panic msg
  | Blocked => Blocked
  end.

(** The four [required] calls. *)
Definition checkRequired (conf : config) : outcome fatal unit :=
  required "auth" (AuthURL conf) ;;
  required "token" (TokenURL conf) ;;
  required "id" (ClientID conf) ;;
  required "secret" (ClientSecret conf).

(** [loadConfig()], for the state of the defaults file and the command
    line of the process. *)
Definition loadConfig (file : defaultsFile) (arguments : list string)
  : outcome fatal config :=
  conf <- readDefaults file builtin ;;
  f <- parseFlags arguments (defineFlags conf) ;;
  let conf := flag.vars f in
  checkRequired conf ;;
  Return conf.

(** ** The variant of the program without code parameter and nonce

    The second [main.go] of the repository has no [CodeParam] and no
    [OIDCNonce]: its [loadConfig] defines nine flags, and [randString],
    [required] and the rest of [loadConfig] are the same text. *)

Module plain.

Record config : Type := {
  Interface : string;
  Port : Z;
  Callback : string;
  ClientID : string;
  ClientSecret : string;
  AuthURL : string;
  TokenURL : string;
  Scope : string;
  Verbose : bool
}.

Definition set_Interface (v : string) (c : config) : config :=
  {| Interface := v; Port := Port c; Callback := Callback c;
     ClientID := ClientID c; ClientSecret := ClientSecret c;
     AuthURL := AuthURL c; TokenURL := TokenURL c; Scope := Scope c;
     Verbose := Verbose c |}.
Definition set_Port (v : Z) (c : config) : config :=
  {| Interface := Interface c; Port := v; Callback := Callback c;
     ClientID := ClientID c; ClientSecret := ClientSecret c;
     AuthURL := AuthURL c; TokenURL := TokenURL c; Scope := Scope c;
     Verbose := Verbose c |}.
Definition set_Callback (v : string) (c : config) : config :=
  {| Interface := Interface c; Port := Port c; Callback := v;
     ClientID := ClientID c; ClientSecret := ClientSecret c;
     AuthURL := AuthURL c; TokenURL := TokenURL c; Scope := Scope c;
     Verbose := Verbose c |}.
Definition set_ClientID (v : string) (c : config) : config :=
  {| Interface := Interface c; Port := Port c; Callback := Callback c;
     ClientID := v; ClientSecret := ClientSecret c;
     AuthURL := AuthURL c; TokenURL := TokenURL c; Scope := Scope c;
     Verbose := Verbose c |}.
Definition set_ClientSecret (v : string) (c : config) : config :=
  {| Interface := Interface c; Port := Port c; Callback := Callback c;
     ClientID := ClientID c; ClientSecret := v;
     AuthURL := AuthURL c; TokenURL := TokenURL c; Scope := Scope c;
     Verbose := Verbose c |}.
Definition set_AuthURL (v : string) (c : config) : config :=
  {| Interface := Interface c; Port := Port c; Callback := Callback c;
     ClientID := ClientID c; ClientSecret := ClientSecret c;
     AuthURL := v; TokenURL := TokenURL c; Scope := Scope c;
     Verbose := Verbose c |}.
Definition set_TokenURL (v : string) (c : config) : config :=
  {| Interface := Interface c; Port := Port c; Callback := Callback c;
     ClientID := ClientID c; ClientSecret := ClientSecret c;
     AuthURL := AuthURL c; TokenURL := v; Scope := Scope c;
     Verbose := Verbose c |}.
Definition set_Scope (v : string) (c : config) : config :=
  {| Interface := Interface c; Port := Port c; Callback := Callback c;
     ClientID := ClientID c; ClientSecret := ClientSecret c;
     AuthURL := AuthURL c; TokenURL := TokenURL c; Scope := v;
     Verbose := Verbose c |}.
Definition set_Verbose (v : bool) (c : config) : config :=
  {| Interface := Interface c; Port := Port c; Callback := Callback c;
     ClientID := ClientID c; ClientSecret := ClientSecret c;
     AuthURL := AuthURL c; TokenURL := TokenURL c; Scope := Scope c;
     Verbose := v |}.

(** The decoder finds no field for the keys [code_param] and [nonce]
    and skips them, whatever their values. *)
Definition Decode (v : fileValues) (c : config) : config :=
  {| Interface := orElse (json_interface v) (Interface c);
     Port := orElse (json_port v) (Port c);
     Callback := orElse (json_callback v) (Callback c);
     ClientID := orElse (json_client_id v) (ClientID c);
     ClientSecret := orElse (json_client_secret v) (ClientSecret c);
     AuthURL := orElse (json_auth_url v) (AuthURL c);
     TokenURL := orElse (json_token_url v) (TokenURL c);
     Scope := orElse (json_scopes v) (Scope c);
     Verbose := orElse (json_verbose v) (Verbose c) |}.

Definition builtin : config :=
  {| Interface := "127.0.0.1"; Port := 8081; Callback := "/oauth/callback";
     ClientID := ""; ClientSecret := ""; AuthURL := ""; TokenURL := "";
     Scope := ""; Verbose := false |}.

(** The defaults file read into [conf]; [file] is what [os.Open] and
    the JSON decoder find for the struct of the variant. *)
Definition readDefaults (file : defaultsFile) (conf : config)
  : outcome fatal config :=
  match file with
  | NotExist => Return conf
  | OpenError err => Exit 1 (FailedToOpen configDefaults err)
  | DecodeError err => Exit 1 (FailedToParse configDefaults err)
  | Decoded v => Return (Decode v conf)
  end.

(** The nine flag definitions; the ["token"] flag takes its default
    from [conf.AuthURL] here too. *)
Definition defineFlags (conf : config) : flag.FlagSet config :=
  let f := flag.NewFlagSet conf in
  let f := flag.StringVar set_Interface "interface" (Interface (flag.vars f)) f in
  let f := flag.IntVar set_Port "port" (Port (flag.vars f)) f in
  let f := flag.StringVar set_Callback "callback" (Callback (flag.vars f)) f in
  let f := flag.StringVar set_ClientID "id" (ClientID (flag.vars f)) f in
  let f := flag.StringVar set_ClientSecret "secret" (ClientSecret (flag.vars f)) f in
  let f := flag.StringVar set_AuthURL "auth" (AuthURL (flag.vars f)) f in
  let f := flag.StringVar set_TokenURL "token" (AuthURL (flag.vars f)) f in
  let f := flag.StringVar set_Scope "scope" (Scope (flag.vars f)) f in
  let f := flag.BoolVar set_Verbose "verbose" (Verbose (flag.vars f)) f in
  f.

Definition parseFlags (arguments : list string) (f : flag.FlagSet config)
  : outcome fatal (flag.FlagSet config) :=
  match flag.Parse arguments f with
  | Return f' => Return f'
  | Exit status e => Exit status (FlagError e)
  | Panic msg => Panic msg
  | Blocked => Blocked
  end.

Definition checkRequired (conf : config) : outcome fatal unit :=
  required "auth" (AuthURL conf) ;;
  required "token" (TokenURL conf) ;;
  required "id" (ClientID conf) ;;
  required "secret" (ClientSecret conf).

Definition loadConfig (file : defaultsFile) (arguments : list string)
  : outcome fatal config :=
  conf <- readDefaults file builtin ;;
  f <- parseFlags arguments (defineFlags conf) ;;
  let conf := flag.vars f in
  checkRequired conf ;;
  Return conf.

End plain.

(** ** Package [golang.org/x/oauth2] *)

Module oauth2.

Record Endpoint : Type := { AuthURL : string; TokenURL : string }.

Record Config : Type := {
  ClientID : string;
  ClientSecret : string;
  Endpoint_ : Endpoint;
  RedirectURL : string;
  Scopes : list string
}.

(** An [AuthCodeOption]: the parameter that [SetAuthURLParam(key,
    value)] sets. *)
Definition AuthCodeOption : Type := (string * string)%type.
Definition SetAuthURLParam (key value : string) : AuthCodeOption :=
  (key, value).
Definition AccessTypeOffline : AuthCodeOption :=
  SetAuthURLParam "access_type" "offline".

(** The query values of [c.AuthCodeURL(state, opts...)]. *)
Definition authValues (c : Config) (state : string)
           (opts : list AuthCodeOption) : url.Values :=
  let v := url.Set_ "client_id" (ClientID c)
             (url.Set_ "response_type" "code" []) in
  let v := if String.eqb (RedirectURL c) "" then v
           else url.Set_ "redirect_uri" (RedirectURL c) v in
  let v := match Scopes c with
           | [] => v
           | _ => url.Set_ "scope" (strings.Join (Scopes c) " ") v
           end in
  let v := if String.eqb state "" then v else url.Set_ "state" state v in
  fold_left (fun v opt => url.Set_ (fst opt) (snd opt) v) opts v.

(** [c.AuthCodeURL(state, opts...)]. *)
Definition AuthCodeURL (c : Config) (state : string)
           (opts : list AuthCodeOption) : string :=
  AuthURL (Endpoint_ c)
  ++ (if strings.ContainsByte (AuthURL (Endpoint_ c)) "?" then "&" else "?")
  ++ url.Encode (authValues c state opts).

(** The dynamic value of an [interface{}], as far as the type
    assertion [.(string)] tells values apart. *)
Inductive any : Type :=
| nil
| str (s : string)
| other.

(** A [Token]; [Extra] is the method [t.Extra(key)]. *)
Record Token : Type := {
  AccessToken : string;
  TokenType : string;
  RefreshToken : string;
  Extra : string -> any
}.

End oauth2.

(** ** Package [crypto/rand] *)

Module rand.

(** What one call of [rand.Read] finds: the bytes that the random
    source delivers, the error that it returns once they are used up,
    and whether the [crypto/rand] of the Go release lets a failed read
    end the process (Go 1.24 and later) or returns its error (the
    releases before). *)
Record reading : Type := {
  delivered : list byte;
  err : string;
  crash : bool
}.

(** [io.ReadFull(Reader, buf)]: the buffer is filled when the source
    delivers enough bytes, and the error is [nil] then; else the bytes
    delivered overwrite the beginning of [buf] and the error of the
    source is returned.  The buffer keeps its length. *)
Definition ReadFull (r : reading) (buf : list byte)
  : list byte * option string :=
  if (List.length buf <=? List.length (delivered r))%nat
  then (firstn (List.length buf) (delivered r), None)
  else ((delivered r ++ skipn (List.length (delivered r)) buf)%list,
        Some (err r)).

(** [rand.Read(buf)].  Before Go 1.24 it is [io.ReadFull(Reader, buf)];
    from Go 1.24 on an error of [io.ReadFull] is fatal: the runtime
    prints the message and the process exits with status 2. *)
Definition Read (r : reading) (buf : list byte)
  : outcome fatal (list byte * option string) :=
  match ReadFull r buf with
  | (buf', Some e) =>
      if crash r then Exit 2 (RandomReadFailed e)
      else Return (buf', Some e)
  | (buf', None) => Return (buf', None)
  end.

(** The random source of the process: the [n]-th call of [Read] finds
    [source n]. *)
Definition source : Type := nat -> reading.

End rand.

(** ** The flow *)

(** [randString()]: the buffer of 32 zero bytes, read into from the
    random source with the error dropped, in standard base64.  [n] counts
    the reads made so far. *)
Definition randString (src : rand.source) (n : nat)
  : outcome fatal (string * nat) :=
  let buf := repeat x00 32 in
  r <- rand.Read (src n) buf ;;
  let '(buf, _) := r in
  Return (base64.EncodeToString base64.StdEncoding buf, S n).

(** The calls by which [main] and the callback handler act on their
    collaborators: the logger, the response writer and the default
    transport, the token exchanger, the JSON encoder, the wait group and
    the server. *)
Inductive event : Type :=
| log_Printf (text : string)
| set_DefaultTransport
| http_Error (body : string) (code : Z)
| config_Exchange (code : string)
| json_MarshalIndent
| w_Write (body : string)
| http_HandleFunc (pattern : string)
| server_ListenAndServe (addr : string)
| wg_Add (delta : Z)
| wg_Done
| wg_Wait
| server_Shutdown.

(** A computation with its trace of calls. *)
Definition io (A : Type) : Type := (list event * outcome fatal A)%type.

Definition ret {A : Type} (a : A) : io A := ([], Return a).
Definition emit (e : event) : io unit := ([e], Return tt).
Definition lift {A : Type} (m : outcome fatal A) : io A := ([], m).
Definition panic {A : Type} (msg : string) : io A := ([], Panic msg).

Definition io_bind {A B : Type} (m : io A) (k : A -> io B) : io B :=
  match m with
  | (tr, Return a) => let '(tr', r) := k a in ((tr ++ tr')%list, r)
  | (tr, Exit status reason) => (tr, Exit status reason)
  | (tr, Panic msg) => (tr, Panic msg)
  | (tr, Blocked) => (tr, Blocked)
  end.

(** [defer f()]: [f] runs when the function returns and when it panics;
    the panic then goes on. *)
Definition defer {A : Type} (f : list event) (body : io A) : io A :=
  match body with
  | (tr, Return a) => ((tr ++ f)%list, Return a)
  | (tr, Panic msg) => ((tr ++ f)%list, Panic msg)
  | (tr, r) => (tr, r)
  end.

Declare Scope io_scope.
Delimit Scope io_scope with io.
Notation "x <- m ;; k" := (io_bind m (fun x => k))
  (at level 61, m at next level, right associativity) : io_scope.
Notation "m ;; k" := (io_bind m (fun _ => k))
  (at level 61, right associativity) : io_scope.

(** The errors of [checkNonce]. *)
Inductive nonceError : Type :=
| MissingIDToken
| PayloadDecodeBase64 (e : base64.CorruptInputError)
| PayloadDecodeJSON (e : string)
| NonceMismatch (got want : string).

(** An incoming request: [r.URL.RequestURI()] and [r.URL.Query()]. *)
Record Request : Type := {
  RequestURI : string;
  Query : url.Values
}.

(** What the listener meets: the error of [server.ListenAndServe] other
    than [http.ErrServerClosed], and the error of [server.Shutdown]. *)
Record server : Type := {
  listenErr : option string;
  shutdownErr : option string
}.

Definition StatusUnauthorized : Z := 401.
Definition StatusServiceUnavailable : Z := 503.

(** [http.HandleFunc(pattern, handler)] on the default mux: the message
    of the panic that it ends in, if any.  It panics on the empty
    pattern; [rejected] gives the message for any other pattern that the
    mux of the Go release does not accept (from Go 1.22 on, a pattern
    without a slash, for one). *)
Definition HandleFunc (rejected : string -> option string)
           (pattern : string) : option string :=
  if String.eqb pattern "" then Some "http: invalid pattern"
  else rejected pattern.

Section Flow.

(** [parseAuthority] of [net/url]. *)
Variable parseAuthority
  : string -> string + (option url.Userinfo * string).
(** [strconv.Quote], the [%q] verb. *)
Variable Quote : string -> string.
(** [config.Exchange(ctx, code)]: the error text or the token of the
    provider's token endpoint. *)
Variable Exchange : oauth2.Config -> string -> string + oauth2.Token.
(** [json.MarshalIndent(token, "", "  ")]: the error text or the JSON. *)
Variable MarshalIndent : oauth2.Token -> string + string.
(** [json.Unmarshal(payload, &decodeToken)]: the error text or the
    field [decodeToken.Nonce] after decoding. *)
Variable Unmarshal : list byte -> string + string.
(** The default mux of [net/http]: the patterns other than the empty one
    that [http.HandleFunc] panics on, and whether the mux, with the
    handler registered under the pattern, calls it for the request (the
    path of the request matches the pattern); it answers a request that
    it does not dispatch by itself. *)
Variable rejected : string -> option string.
Variable dispatched : string -> Request -> bool.

Local Open Scope outcome_scope.

(** The callback URL of [main]: the parsed [conf.Callback] with the
    scheme and the host defaulted. *)
Definition defaultScheme (u : url.URL) : url.URL :=
  if String.eqb (url.Scheme u) "" then url.set_Scheme "http" u else u.

Definition defaultHost (conf : config) (u : url.URL) : url.URL :=
  if String.eqb (url.Host u) ""
  then url.set_Host (Interface conf ++ ":" ++ strconv.Itoa (Port conf)) u
  else u.

Definition callbackURL (conf : config) : outcome fatal url.URL :=
  match url.Parse parseAuthority (Callback conf) with
  | inl e => Exit 1 (BadCallback e)
  | inr u => Return (defaultHost conf (defaultScheme u))
  end.

(** The [oauth2.Config] of [main]. *)
Definition oauthConfig (conf : config) (u : url.URL) : oauth2.Config :=
  {| oauth2.ClientID := ClientID conf;
     oauth2.ClientSecret := ClientSecret conf;
     oauth2.Scopes := [Scope conf];
     oauth2.RedirectURL := url.String_ u;
     oauth2.Endpoint_ := {| oauth2.AuthURL := AuthURL conf;
                            oauth2.TokenURL := TokenURL conf |} |}.

(** The nonce, the options and the state of [main]: the nonce is drawn
    first, and only in nonce mode. *)
Definition secrets (conf : config) (src : rand.source)
  : outcome fatal (string * list oauth2.AuthCodeOption * string) :=
  let opts := [oauth2.AccessTypeOffline] in
  made <- (if OIDCNonce conf then
             d <- randString src 0 ;;
             let '(nonce, n) := d in
             Return (nonce,
                     (opts ++ [oauth2.SetAuthURLParam "nonce" nonce])%list,
                     n)
           else Return ("", opts, O)) ;;
  let '(nonce, opts, n) := made in
  d <- randString src n ;;
  let '(state, _) := d in
  Return (nonce, opts, state).

Definition nonceError_Error (e : nonceError) : string :=
  match e with
  | MissingIDToken => "missing OIDC id_token"
  | PayloadDecodeBase64 off =>
      "id_token payload decode: illegal base64 data at input byte "
      ++ strconv.Itoa (Z.of_nat off)
  | PayloadDecodeJSON msg => "id_token payload decode: " ++ msg
  | NonceMismatch got want => Quote got ++ " != " ++ Quote want
  end.

Local Open Scope io_scope.

(** [checkNonce(nonce, token)]: [None] is the [nil] error. *)
Definition checkNonce (nonce : string) (token : oauth2.Token)
  : io (option nonceError) :=
  match oauth2.Extra token "id_token" with
  | oauth2.str idToken =>
      let splitToken := strings.SplitN idToken "." 3 in
      match nth_error splitToken 1 with
      | None =>
          panic ("runtime error: index out of range [1] with length "
                 ++ strconv.Itoa (Z.of_nat (List.length splitToken)))
      | Some segment =>
          emit (log_Printf (Quote segment)) ;;
          match base64.DecodeString base64.RawURLEncoding segment with
          | inl e => ret (Some (PayloadDecodeBase64 e))
          | inr payload =>
              match Unmarshal payload with
              | inl e => ret (Some (PayloadDecodeJSON e))
              | inr decoded =>
                  if negb (String.eqb decoded nonce)
                  then ret (Some (NonceMismatch decoded nonce))
                  else ret None
              end
          end
      end
  | _ => ret (Some MissingIDToken)
  end.

(** What the handler logs and swaps in verbose mode. *)
Definition verbose (conf : config) (r : Request) : io unit :=
  if Verbose conf then
    emit (log_Printf ("Got callback: " ++ RequestURI r ++ "
")) ;;
    emit set_DefaultTransport
  else ret tt.

(** The handler that [main] registers, after its [defer] statement,
    with the variables it closes over. *)
Definition handlerBody (conf : config) (cfg : oauth2.Config)
           (state nonce : string) (r : Request) : io unit :=
  verbose conf r ;;
  let query := Query r in
  let s := url.Get query "state" in
  if negb (String.eqb s state) then
    emit (http_Error ("Invalid state: " ++ s) StatusUnauthorized)
  else
    let code := url.Get query (CodeParam conf) in
    emit (config_Exchange code) ;;
    match Exchange cfg code with
    | inl err =>
        emit (http_Error ("Exchange error: " ++ err)
                         StatusServiceUnavailable)
    | inr token =>
        failed <- (if negb (String.eqb nonce "")
                   then checkNonce nonce token
                   else ret None) ;;
        match failed with
        | Some err =>
            emit (http_Error ("OIDC nonce error: " ++ nonceError_Error err)
                             StatusUnauthorized)
        | None =>
            emit json_MarshalIndent ;;
            match MarshalIndent token with
            | inl err =>
                emit (http_Error ("Token parse error: " ++ err)
                                 StatusServiceUnavailable)
            | inr tokenJSON =>
                emit (log_Printf ("result:
" ++ tokenJSON ++ "
")) ;;
                emit (w_Write tokenJSON)
            end
        end
    end.

(** The handler: [defer wg.Done()], then the body. *)
Definition handler (conf : config) (cfg : oauth2.Config)
           (state nonce : string) (r : Request) : io unit :=
  defer [wg_Done] (handlerBody conf cfg state nonce r).

(** The counter of the wait group after a trace. *)
Definition wg_counter (tr : list event) : Z :=
  fold_left (fun n e => match e with
                        | wg_Add delta => (n + delta)%Z
                        | wg_Done => (n - 1)%Z
                        | _ => n
                        end) tr 0%Z.

(** [wg.Wait()] returns once the counter is zero. *)
Definition Wait (tr : list event) : io unit :=
  if Z.eqb (wg_counter tr) 0 then emit wg_Wait else ([], Blocked).

(** What a panicking handler leaves behind: the server recovers the
    panic of the goroutine that serves the connection. *)
Definition served (m : io unit) : io unit :=
  match m with
  | (tr, Panic _) => (tr, Return tt)
  | _ => m
  end.

(** [main] from [wg.Add(1)] on, for the one request [r] that arrives.
    Registering the handler panics when the mux does not accept the path
    of the callback URL as a pattern.  Else the server is started; when
    it cannot listen the process exits.  When the mux dispatches the
    request to the handler, it is served while [main] waits, and the
    server is shut down; when it does not, the handler does not run and
    [main] goes on waiting. *)
Definition serve (srv : server) (conf : config) (cfg : oauth2.Config)
           (u : url.URL) (state nonce : string) (r : Request) : io unit :=
  match HandleFunc rejected (url.Path u) with
  | Some msg => ([wg_Add 1; http_HandleFunc (url.Path u)], Panic msg)
  | None =>
      let started :=
        [wg_Add 1; http_HandleFunc (url.Path u);
         server_ListenAndServe
           (Interface conf ++ ":" ++ strconv.Itoa (Port conf))] in
      match listenErr srv with
      | Some err => (started, Exit 1 (ListenFailed err))
      | None =>
          if dispatched (url.Path u) r then
            let '(tr, res) := served (handler conf cfg state nonce r) in
            let tr := (started ++ tr)%list in
            match res with
            | Return _ =>
                (tr, Return tt) ;;
                Wait tr ;;
                emit server_Shutdown ;;
                match shutdownErr srv with
                | Some err => lift (Exit 1 (ShutdownFailed err))
                | None => ret tt
                end
            | _ => (tr, res)
            end
          else (started, Blocked)
      end
  end.

(** [main()]. *)
Definition main (file : defaultsFile) (arguments : list string)
           (src : rand.source) (srv : server) (r : Request) : io unit :=
  conf <- lift (loadConfig file arguments) ;;
  u <- lift (callbackURL conf) ;;
  let cfg := oauthConfig conf u in
  made <- lift (secrets conf src) ;;
  let '(nonce, opts, state) := made in
  let visitURL := oauth2.AuthCodeURL cfg state opts in
  emit (log_Printf ("Visit this URL in your browser:
" ++ visitURL ++ "

")) ;;
  serve srv conf cfg u state nonce r.

End Flow.

(** ** The logging transport ([http.go]) *)

Module transport.

(** A body ([io.ReadCloser]): the bytes not read yet, and the error
    that reading meets after them ([None] is [io.EOF]). *)
Record Body : Type := {
  unread : string;
  readErr : option string
}.

(** [ioutil.ReadAll(b)]: the bytes read and the error. *)
Definition ReadAll (b : Body) : string * option string :=
  (unread b, readErr b).

(** [ioutil.NopCloser(bytes.NewReader(data))]. *)
Definition NewReader (data : string) : Body :=
  {| unread := data; readErr := None |}.

(** The outgoing request as the transport sees it.  [Header] lists the
    header map in the order in which [range] visits it; a [nil] body is
    [None]. *)
Record Request : Type := {
  Method : string;
  URL : url.URL;
  Header : list (string * list string);
  Body_ : option Body
}.

Record Response : Type := {
  StatusCode : Z;
  ResBody : Body
}.

(** The assignments [r.Body = b] and [res.Body = b]. *)
Definition set_Body (b : Body) (r : Request) : Request :=
  {| Method := Method r; URL := URL r; Header := Header r;
     Body_ := Some b |}.
Definition set_ResBody (b : Body) (res : Response) : Response :=
  {| StatusCode := StatusCode res; ResBody := b |}.

(** The interface [http.RoundTripper]: the calls that a round trip
    makes, and the pair [(res, err)] it returns. *)
Definition RoundTripper : Type :=
  Request -> io (option Response * option string).

Record loggingTransport : Type := { Transport : RoundTripper }.

(** The panic of a method call on a [nil] reader or a [nil] response. *)
Definition nilDereference : string :=
  "runtime error: invalid memory address or nil pointer dereference".

(** The text of the request line in the two versions of the file: the
    second one lists the headers, each as [key: [values]]. *)
Definition requestText (r : Request) (reqBody : string) : string :=
  "request: " ++ Method r ++ " " ++ url.String_ (URL r) ++ "
body:
" ++ reqBody ++ "
".

Definition headersText (h : list (string * list string)) : string :=
  String.concat ""
    (map (fun kv => fst kv ++ ": [" ++ strings.Join (snd kv) " " ++ "]
") h).

Definition requestTextWithHeaders (r : Request) (reqBody : string)
  : string :=
  "request: " ++ Method r ++ " " ++ url.String_ (URL r) ++ "
" ++ headersText (Header r) ++ "
body:
" ++ reqBody ++ "
".

Section RoundTrip.

(** [time.Since(start)], as [%s] prints it. *)
Variable duration : string.
(** The request line of the version. *)
Variable requestLine : Request -> string -> string.

Local Open Scope io_scope.

(** [l.RoundTrip(r)]. *)
Definition roundTrip (l : loggingTransport) (r : Request)
  : io (option Response * option string) :=
  match Body_ r with
  | None => panic nilDereference
  | Some body =>
      let '(reqBody, err) := ReadAll body in
      match err with
      | Some e => ret (None, Some e)
      | None =>
          let r := set_Body (NewReader reqBody) r in
          emit (log_Printf (requestLine r reqBody)) ;;
          out <- Transport l r ;;
          match out with
          | (res, Some e) =>
              emit (log_Printf ("error: " ++ e ++ " in " ++ duration ++ "
")) ;;
              ret (res, Some e)
          | (None, None) => panic nilDereference
          | (Some res, None) =>
              let '(resBody, err) := ReadAll (ResBody res) in
              match err with
              | Some e => ret (None, Some e)
              | None =>
                  let res := set_ResBody (NewReader resBody) res in
                  emit (log_Printf
                          ("response: " ++ strconv.Itoa (StatusCode res)
                           ++ " in " ++ duration ++ "
body:
" ++ resBody ++ "
")) ;;
                  ret (Some res, None)
              end
          end
      end
  end.

End RoundTrip.

(** [RoundTrip] of the two versions of the file. *)
Definition RoundTrip (duration : string) : loggingTransport -> RoundTripper :=
  roundTrip duration requestText.
Definition RoundTripWithHeaders (duration : string)
  : loggingTransport -> RoundTripper :=
  roundTrip duration requestTextWithHeaders.

End transport.

(** ** The flow of the variant without code parameter and nonce *)

Module plain_flow.

Section Flow.

Variable parseAuthority
  : string -> string + (option url.Userinfo * string).
Variable Exchange : oauth2.Config -> string -> string + oauth2.Token.
Variable MarshalIndent : oauth2.Token -> string + string.
Variable rejected : string -> option string.
Variable dispatched : string -> Request -> bool.

Definition defaultHost (conf : plain.config) (u : url.URL) : url.URL :=
  if String.eqb (url.Host u) ""
  then url.set_Host (plain.Interface conf ++ ":"
                     ++ strconv.Itoa (plain.Port conf)) u
  else u.

Definition callbackURL (conf : plain.config) : outcome fatal url.URL :=
  match url.Parse parseAuthority (plain.Callback conf) with
  | inl e => Exit 1 (BadCallback e)
  | inr u => Return (defaultHost conf (defaultScheme u))
  end.

Definition oauthConfig (conf : plain.config) (u : url.URL)
  : oauth2.Config :=
  {| oauth2.ClientID := plain.ClientID conf;
     oauth2.ClientSecret := plain.ClientSecret conf;
     oauth2.Scopes := [plain.Scope conf];
     oauth2.RedirectURL := url.String_ u;
     oauth2.Endpoint_ := {| oauth2.AuthURL := plain.AuthURL conf;
                            oauth2.TokenURL := plain.TokenURL conf |} |}.

Local Open Scope io_scope.

Definition verbose (conf : plain.config) (r : Request) : io unit :=
  if plain.Verbose conf then
    emit (log_Printf ("Got callback: " ++ RequestURI r ++ "
")) ;;
    emit set_DefaultTransport
  else ret tt.

(** The handler after its [defer] statement: the code is read from the
    parameter ["code"], and no nonce is checked. *)
Definition handlerBody (conf : plain.config) (cfg : oauth2.Config)
           (state : string) (r : Request) : io unit :=
  verbose conf r ;;
  let s := url.Get (Query r) "state" in
  if negb (String.eqb s state) then
    emit (http_Error ("Invalid state: " ++ s) StatusUnauthorized)
  else
    let code := url.Get (Query r) "code" in
    emit (config_Exchange code) ;;
    match Exchange cfg code with
    | inl err =>
        emit (http_Error ("Exchange error: " ++ err)
                         StatusServiceUnavailable)
    | inr token =>
        emit json_MarshalIndent ;;
        match MarshalIndent token with
        | inl err =>
            emit (http_Error ("Token parse error: " ++ err)
                             StatusServiceUnavailable)
        | inr tokenJSON =>
            emit (log_Printf ("result:
" ++ tokenJSON ++ "
")) ;;
            emit (w_Write tokenJSON)
        end
    end.

Definition handler (conf : plain.config) (cfg : oauth2.Config)
           (state : string) (r : Request) : io unit :=
  defer [wg_Done] (handlerBody conf cfg state r).

Definition serve (srv : server) (conf : plain.config)
           (cfg : oauth2.Config) (u : url.URL) (state : string)
           (r : Request) : io unit :=
  match HandleFunc rejected (url.Path u) with
  | Some msg => ([wg_Add 1; http_HandleFunc (url.Path u)], Panic msg)
  | None =>
      let started :=
        [wg_Add 1; http_HandleFunc (url.Path u);
         server_ListenAndServe
           (plain.Interface conf ++ ":"
            ++ strconv.Itoa (plain.Port conf))] in
      match listenErr srv with
      | Some err => (started, Exit 1 (ListenFailed err))
      | None =>
          if dispatched (url.Path u) r then
            let '(tr, res) := served (handler conf cfg state r) in
            let tr := (started ++ tr)%list in
            match res with
            | Return _ =>
                (tr, Return tt) ;;
                Wait tr ;;
                emit server_Shutdown ;;
                match shutdownErr srv with
                | Some err => lift (Exit 1 (ShutdownFailed err))
                | None => ret tt
                end
            | _ => (tr, res)
            end
          else (started, Blocked)
      end
  end.

(** [main()] of the variant: one draw, for the state. *)
Definition main (file : defaultsFile) (arguments : list string)
           (src : rand.source) (srv : server) (r : Request) : io unit :=
  conf <- lift (plain.loadConfig file arguments) ;;
  u <- lift (callbackURL conf) ;;
  let cfg := oauthConfig conf u in
  made <- lift (randString src 0) ;;
  let '(state, _) := made in
  let visitURL := oauth2.AuthCodeURL cfg state [oauth2.AccessTypeOffline] in
  emit (log_Printf ("Visit this URL in your browser:
" ++ visitURL ++ "

")) ;;
  serve srv conf cfg u state r.

End Flow.

End plain_flow.

(** * Auxiliary definitions *)

(** ** Quanta of the base64 encoder *)

Local Open Scope N_scope.

(** The value of a quantum of three, two and one source bytes. *)
Definition val3 (b0 b1 b2 : byte) : N :=
  N.lor (N.lor (N.shiftl (to_N b0) 16) (N.shiftl (to_N b1) 8)) (to_N b2).

(** The character at bit offset [k] of a quantum. *)
Definition sextet (enc : base64.Encoding) (val k : N) : ascii :=
  base64.encodeAt enc (N.land (N.shiftr val k) 63).

Local Close Scope N_scope.

(** ** The draws of a run *)

(** The draw that gives the state: the second one in nonce mode. *)
Definition stateDraw (conf : config) : nat :=
  if OIDCNonce conf then 1%nat else 0%nat.

(** The text that [randString] returns for a reading, when it returns,
    and whether it does: unless the read fails and the failure is
    fatal. *)
Definition drawn (r : rand.reading) : string :=
  base64.EncodeToString base64.StdEncoding
    (fst (rand.ReadFull r (repeat x00 32))).
Definition returns (r : rand.reading) : bool :=
  negb (rand.crash r) || (32 <=? List.length (rand.delivered r))%nat.

(** The nonce, the state and the options of a run in which the reads
    return: the nonce is the first draw, in nonce mode. *)
Definition nonceOf (conf : config) (src : rand.source) : string :=
  if OIDCNonce conf then drawn (src 0%nat) else "".
Definition stateOf (conf : config) (src : rand.source) : string :=
  drawn (src (stateDraw conf)).

Definition optsOf (conf : config) (src : rand.source)
  : list oauth2.AuthCodeOption :=
  if OIDCNonce conf
  then [oauth2.AccessTypeOffline;
        oauth2.SetAuthURLParam "nonce" (drawn (src 0%nat))]
  else [oauth2.AccessTypeOffline].

(** The reads of a run return: the one for the nonce, in nonce mode, and
    the one for the state. *)
Definition readsReturn (conf : config) (src : rand.source) : bool :=
  (negb (OIDCNonce conf) || returns (src 0%nat))
  && returns (src (stateDraw conf)).

(** ** Sample inputs *)

(** Two random sources: one delivers 32 zero bytes at every read, the
    other 32 bytes of value one. *)
Definition zeros : rand.source :=
  fun _ => {| rand.delivered := repeat x00 32; rand.err := "";
              rand.crash := true |}.

(** A random source whose reads fail without a byte, with a
    [crypto/rand] for which this is fatal. *)
Definition failingSource : rand.source :=
  fun _ => {| rand.delivered := []; rand.err := "read error";
              rand.crash := true |}.

(** A defaults file that sets both endpoints. *)
Definition bothEndpoints : fileValues :=
  {| json_interface := None; json_port := None; json_callback := None;
     json_client_id := Some "id"; json_client_secret := Some "secret";
     json_auth_url := Some "https://provider/auth";
     json_token_url := Some "https://provider/token";
     json_code_param := None; json_scopes := None;
     json_nonce := None; json_verbose := None |}.

(** The command lines of the two ways to give scopes. *)
Definition repeatedScopes : list string :=
  ["-id"; "id"; "-secret"; "secret"; "-auth"; "https://provider/auth";
   "-token"; "https://provider/token"; "-scope"; "read"; "-scope"; "write"].
Definition commaScopes : list string :=
  ["-id"; "id"; "-secret"; "secret"; "-auth"; "https://provider/auth";
   "-token"; "https://provider/token"; "-scope"; "read,write"].

(** ** The ways [loadConfig] ends *)

Definition unreadableOrMalformed (file : defaultsFile) : bool :=
  match file with
  | OpenError _ | DecodeError _ => true
  | NotExist | Decoded _ => false
  end.

Definition requiredEmpty (conf : config) : bool :=
  String.eqb (AuthURL conf) "" || String.eqb (TokenURL conf) ""
  || String.eqb (ClientID conf) "" || String.eqb (ClientSecret conf) "".



(** ** Readings of a trace *)

(** The status of the response: that of the first [http.Error], or 200
    when the body is written first. *)
Fixpoint status (tr : list event) : option Z :=
  match tr with
  | [] => None
  | http_Error _ code :: _ => Some code
  | w_Write _ :: _ => Some 200%Z
  | _ :: rest => status rest
  end.

(** The codes that the token exchanger was called with. *)
Fixpoint exchanges (tr : list event) : list string :=
  match tr with
  | [] => []
  | config_Exchange code :: rest => code :: exchanges rest
  | _ :: rest => exchanges rest
  end.

(** The number of [wg.Done()] calls. *)
Fixpoint dones (tr : list event) : nat :=
  match tr with
  | [] => O
  | wg_Done :: rest => S (dones rest)
  | _ :: rest => dones rest
  end.

(** Whether the token was serialized, or a body written. *)
Definition serialized (tr : list event) : bool :=
  existsb (fun e => match e with json_MarshalIndent => true | _ => false end)
          tr.
Definition written (tr : list event) : bool :=
  existsb (fun e => match e with w_Write _ => true | _ => false end) tr.

(** No call on the wait group. *)
Definition quiet (tr : list event) : bool :=
  forallb (fun e => match e with
                    | wg_Add _ | wg_Done | wg_Wait => false
                    | _ => true
                    end) tr.

(** The trace of [verbose]. *)
Definition verboseLog (conf : config) (r : Request) : list event :=
  if Verbose conf
  then [log_Printf ("Got callback: " ++ RequestURI r ++ "
"); set_DefaultTransport]
  else [].

(** The calls of [main] between [wg.Add(1)] and the first request. *)
Definition started (conf : config) (u : url.URL) : list event :=
  [wg_Add 1; http_HandleFunc (url.Path u);
   server_ListenAndServe (Interface conf ++ ":" ++ strconv.Itoa (Port conf))].

(** ** Sample collaborators and inputs *)

(** A token whose extra field [id_token] is the string [s]. *)
Definition tokenWith (s : string) : oauth2.Token :=
  {| oauth2.AccessToken := "access"; oauth2.TokenType := "Bearer";
     oauth2.RefreshToken := "refresh";
     oauth2.Extra := fun key => if String.eqb key "id_token"
                                then oauth2.str s else oauth2.nil |}.


(** The message of the index expression [splitToken[1]] on a slice of
    length one. *)
Definition indexOutOfRange : string :=
  "runtime error: index out of range [1] with length 1".

(** An authority parser that takes the whole authority as the host. *)
Definition plainAuthority (authority : string)
  : string + (option url.Userinfo * string) :=
  inr (None, authority).

(** A request that carries the code ["c0de"] and the state [state]. *)
Definition sampleRequest (state : string) : Request :=
  {| RequestURI := "/oauth/callback?code=c0de&state=" ++ url.QueryEscape state;
     Query := [("code", ["c0de"]); ("state", [state])] |}.

(** An ID token with header [{}], a payload whose nonce is ["x"], and
    the signature ["sig"]. *)
Definition sampleIDToken : string := "e30.eyJub25jZSI6IngifQ.c2ln".

Definition sampleQuote (s : string) : string := s.
Definition sampleExchange (cfg : oauth2.Config) (code : string)
  : string + oauth2.Token := inr (tokenWith sampleIDToken).
Definition sampleMarshalIndent (token : oauth2.Token) : string + string :=
  inr "{}".
Definition sampleUnmarshal (payload : list byte) : string + string :=
  inr "x".

Definition sampleServer : server :=
  {| listenErr := None; shutdownErr := None |}.

(** A mux that accepts every pattern but the empty one, and dispatches
    the requests whose path is the pattern. *)
Definition lenientMux (pattern : string) : option string := None.
Definition exactPath (pattern : string) (r : Request) : bool :=
  String.eqb (fst (fst (strings.Cut (RequestURI r) "?"))) pattern.

(** * Auxiliary definitions, continued *)

(** ** Readings of a trace, continued *)

(** The number of responses: calls of [http.Error] and of [w.Write]. *)
Fixpoint responses (tr : list event) : nat :=
  match tr with
  | [] => O
  | http_Error _ _ :: rest => S (responses rest)
  | w_Write _ :: rest => S (responses rest)
  | _ :: rest => responses rest
  end.

(** Only calls of the logger. *)
Definition logsOnly (tr : list event) : bool :=
  forallb (fun e => match e with log_Printf _ => true | _ => false end) tr.

(** The nonce check of the handler: [checkNonce] when the nonce is not
    empty. *)
Definition nonceCheck (Quote : string -> string)
           (Unmarshal : list byte -> string + string)
           (nonce : string) (token : oauth2.Token)
  : io (option nonceError) :=
  if negb (String.eqb nonce "")
  then checkNonce Quote Unmarshal nonce token
  else ret None.

(** The text of the result line of the log. *)
Definition resultLog (tokenJSON : string) : event :=
  log_Printf ("result:
" ++ tokenJSON ++ "
").

(** Whether the query has the key. *)
Definition hasKey (v : url.Values) (key : string) : bool :=
  existsb (fun kv => String.eqb (fst kv) key) v.

(** An ID token of three parts, and one without signature. *)
Definition jwt (header payload signature : string) : string :=
  header ++ "." ++ payload ++ "." ++ signature.
Definition unsignedJwt (header payload : string) : string :=
  header ++ "." ++ payload.

(** The line that [main] prints for the operator. *)
Definition visitLog (cfg : oauth2.Config) (state : string)
           (opts : list oauth2.AuthCodeOption) : event :=
  log_Printf ("Visit this URL in your browser:
" ++ oauth2.AuthCodeURL cfg state opts ++ "

").

(** A command line with a callback that does not parse. *)
Definition badCallback : list string :=
  ["-id"; "id"; "-secret"; "secret"; "-auth"; "https://provider/auth";
   "-token"; "https://provider/token"; "-callback"; ":8081/oauth/callback"].

(** ** The logging transport: log lines and samples *)

(** The log lines of the transport. *)
Definition responseLog (duration : string) (res : transport.Response)
  : event :=
  log_Printf ("response: " ++ strconv.Itoa (transport.StatusCode res)
              ++ " in " ++ duration ++ "
body:
" ++ transport.unread (transport.ResBody res) ++ "
").
Definition errorLog (duration err : string) : event :=
  log_Printf ("error: " ++ err ++ " in " ++ duration ++ "
").

(** A token request, and transports that answer it, fail, or answer
    with a body that cannot be read. *)
Definition tokenRequest : transport.Request :=
  {| transport.Method := "POST";
     transport.URL := url.set_Host "provider"
                        (url.set_Scheme "https"
                           {| url.Scheme := ""; url.Opaque := "";
                              url.User := None; url.Host := "";
                              url.Path := "/token"; url.RawPath := "";
                              url.OmitHost := false; url.ForceQuery := false;
                              url.RawQuery := ""; url.Fragment := "";
                              url.RawFragment := "" |});
     transport.Header := [("Content-Type",
                           ["application/x-www-form-urlencoded"])];
     transport.Body_ := Some (transport.NewReader "code=c0de") |}.
Definition brokenRequest : transport.Request :=
  {| transport.Method := "POST"; transport.URL := transport.URL tokenRequest;
     transport.Header := [];
     transport.Body_ := Some {| transport.unread := "code=";
                                transport.readErr := Some "unexpected EOF" |} |}.
Definition bodylessRequest : transport.Request :=
  {| transport.Method := "GET"; transport.URL := transport.URL tokenRequest;
     transport.Header := []; transport.Body_ := None |}.
Definition tokenResponse : transport.Response :=
  {| transport.StatusCode := 200;
     transport.ResBody := transport.NewReader "{}" |}.
Definition truncatedResponse : transport.Response :=
  {| transport.StatusCode := 200;
     transport.ResBody := {| transport.unread := "{";
                             transport.readErr := Some "unexpected EOF" |} |}.
Definition answering (res : transport.Response) : transport.loggingTransport :=
  {| transport.Transport := fun _ => ret (Some res, None) |}.
Definition failing (err : string) : transport.loggingTransport :=
  {| transport.Transport := fun _ => ret (None, Some err) |}.

(** ** Command-line arguments by kind *)

(** What [parseOne] takes an argument for: no flag, the terminator
    ["--"], a flag with bad syntax, or the flag [name], with the value
    after its equals sign when it has one. *)
Inductive argClass : Type :=
| NonFlag
| Terminator
| BadSyntax
| FlagArg (name value : string) (hasValue : bool).

Definition classify (s : string) : argClass :=
  match s with
  | String "-" (String _ _) =>
      if String.eqb s "--" then Terminator
      else
        let name := flag.flagName s in
        match name with
        | EmptyString | String "-" _ | String "=" _ => BadSyntax
        | _ =>
            let '(name, value, hasValue) := flag.splitValue name in
            FlagArg name value hasValue
        end
  | _ => NonFlag
  end.

(** The flags of the two variants of [loadConfig]. *)
Definition configFlags : list (flag.Flag config) :=
  [ {| flag.Name := "interface"; flag.Val := flag.stringValue set_Interface |};
    {| flag.Name := "port"; flag.Val := flag.intValue set_Port |};
    {| flag.Name := "callback"; flag.Val := flag.stringValue set_Callback |};
    {| flag.Name := "id"; flag.Val := flag.stringValue set_ClientID |};
    {| flag.Name := "secret";
       flag.Val := flag.stringValue set_ClientSecret |};
    {| flag.Name := "auth"; flag.Val := flag.stringValue set_AuthURL |};
    {| flag.Name := "token"; flag.Val := flag.stringValue set_TokenURL |};
    {| flag.Name := "code"; flag.Val := flag.stringValue set_CodeParam |};
    {| flag.Name := "scope"; flag.Val := flag.stringValue set_Scope |};
    {| flag.Name := "oidc-nonce"; flag.Val := flag.boolValue set_OIDCNonce |};
    {| flag.Name := "verbose"; flag.Val := flag.boolValue set_Verbose |} ].

Definition plainFlags : list (flag.Flag plain.config) :=
  [ {| flag.Name := "interface";
       flag.Val := flag.stringValue plain.set_Interface |};
    {| flag.Name := "port"; flag.Val := flag.intValue plain.set_Port |};
    {| flag.Name := "callback";
       flag.Val := flag.stringValue plain.set_Callback |};
    {| flag.Name := "id"; flag.Val := flag.stringValue plain.set_ClientID |};
    {| flag.Name := "secret";
       flag.Val := flag.stringValue plain.set_ClientSecret |};
    {| flag.Name := "auth"; flag.Val := flag.stringValue plain.set_AuthURL |};
    {| flag.Name := "token";
       flag.Val := flag.stringValue plain.set_TokenURL |};
    {| flag.Name := "scope"; flag.Val := flag.stringValue plain.set_Scope |};
    {| flag.Name := "verbose";
       flag.Val := flag.boolValue plain.set_Verbose |} ].

(** The configuration after the defaults file, before the flags. *)
Definition fileDefaults (file : defaultsFile) : config :=
  match file with
  | Decoded v => Decode v builtin
  | _ => builtin
  end.

(** A field keeps its value unless its flag is among the flags set. *)
Definition keptUnless (name : string) (act : list string) {A : Type}
           (field : config -> A) (c0 c : config) : Prop :=
  In name act \/ field c = field c0.

(** Every field whose flag is not among [act] is as in [c0]. *)
Definition kept (act : list string) (c0 c : config) : Prop :=
  keptUnless "interface" act Interface c0 c
  /\ keptUnless "port" act Port c0 c
  /\ keptUnless "callback" act Callback c0 c
  /\ keptUnless "id" act ClientID c0 c
  /\ keptUnless "secret" act ClientSecret c0 c
  /\ keptUnless "auth" act AuthURL c0 c
  /\ keptUnless "token" act TokenURL c0 c
  /\ keptUnless "code" act CodeParam c0 c
  /\ keptUnless "scope" act Scope c0 c
  /\ keptUnless "oidc-nonce" act OIDCNonce c0 c
  /\ keptUnless "verbose" act Verbose c0 c.

(** The flags that a command line sets, when it parses. *)
Definition flagsGiven (file : defaultsFile) (arguments : list string)
  : list string :=
  match flag.parseArgs configFlags arguments
          (flag.vars (defineFlags (fileDefaults file))) [] with
  | inr (_, act, _) => act
  | inl _ => []
  end.

(** ** The merge of the specification, and what [loadConfig] builds *)








(** A configuration of the variant as one of the full program, with the
    code parameter and the nonce mode given. *)
Definition embed (codeParam : string) (nonce : bool) (p : plain.config)
  : config :=
  {| Interface := plain.Interface p; Port := plain.Port p;
     Callback := plain.Callback p; ClientID := plain.ClientID p;
     ClientSecret := plain.ClientSecret p; AuthURL := plain.AuthURL p;
     TokenURL := plain.TokenURL p; CodeParam := codeParam;
     Scope := plain.Scope p; OIDCNonce := nonce;
     Verbose := plain.Verbose p |}.

Definition plainDefaults (file : defaultsFile) : plain.config :=
  match file with
  | Decoded v => plain.Decode v plain.builtin
  | _ => plain.builtin
  end.

(** The values of the nine keys that the two variants of [config]
    share. *)
Definition shared (v : fileValues)
  : option string * option Z * option string * option string
    * option string * option string * option string * option string
    * option bool :=
  (json_interface v, json_port v, json_callback v, json_client_id v,
   json_client_secret v, json_auth_url v, json_token_url v, json_scopes v,
   json_verbose v).

(** The defaults file as the two programs find it, when the decoder of
    the full program does not fail on it.  Both open the same path.  The
    decoder of the variant has no field for the keys [code_param] and
    [nonce] and skips their values, so that it finds the same values of
    the nine other keys.  A file that the full program cannot decode,
    the variant may decode (when the values of these two keys alone have
    the wrong type); on such a file the two are not compared. *)
Definition sameFile (full variant : defaultsFile) : Prop :=
  match full, variant with
  | NotExist, NotExist => True
  | OpenError err, OpenError err' => err = err'
  | Decoded v, Decoded v' => shared v = shared v'
  | _, _ => False
  end.

(** The file [bothEndpoints] with the two keys that only the full
    program reads. *)
Definition withExtras : fileValues :=
  {| json_interface := None; json_port := None; json_callback := None;
     json_client_id := Some "id"; json_client_secret := Some "secret";
     json_auth_url := Some "https://provider/auth";
     json_token_url := Some "https://provider/token";
     json_code_param := Some "authorization_code"; json_scopes := None;
     json_nonce := Some true; json_verbose := None |}.

(** The errors about the flags that only the full program defines. *)
Definition onlyFull (e : flag.Error) : Prop :=
  e = flag.ErrNotDefined "code" \/ e = flag.ErrNotDefined "oidc-nonce".

(** A command line with one scope. *)
Definition oneScope : list string := ["-scope"; "read"].

(** The spellings of the help flag. *)
Definition helpFlags : list string := ["-h"; "--h"; "-help"; "--help"].

(** A command line that gives the four required flags. *)
Definition requiredFlags (id secret auth token : string) : list string :=
  ["-id"; id; "-secret"; secret; "-auth"; auth; "-token"; token].

(** ** More sample collaborators and inputs *)

Definition exchangeOf (token : oauth2.Token) (cfg : oauth2.Config)
           (code : string) : string + oauth2.Token := inr token.
Definition failingExchange (cfg : oauth2.Config) (code : string)
  : string + oauth2.Token := inl "invalid_grant".
Definition failingMarshalIndent (token : oauth2.Token) : string + string :=
  inl "unsupported type".
(** A token without ID token. *)
Definition bearerToken : oauth2.Token :=
  {| oauth2.AccessToken := "access"; oauth2.TokenType := "Bearer";
     oauth2.RefreshToken := ""; oauth2.Extra := fun _ => oauth2.nil |}.
(** Requests without state, and without code. *)
Definition statelessRequest : Request :=
  {| RequestURI := "/oauth/callback?code=c0de";
     Query := [("code", ["c0de"])] |}.
Definition codelessRequest (state : string) : Request :=
  {| RequestURI := "/oauth/callback?state=" ++ url.QueryEscape state;
     Query := [("state", [state])] |}.
(** The configuration that the file [bothEndpoints] gives without flags. *)
Definition bothEndpointsConf : config :=
  set_TokenURL "https://provider/auth" (Decode bothEndpoints builtin).

(** The configurations of the command lines [commaScopes] and
    [badCallback], and the parsed callback ["/oauth/callback"]. *)
Definition commaScopesConf : config :=
  set_Scope "read,write"
    (set_TokenURL "https://provider/token"
       (set_AuthURL "https://provider/auth"
          (set_ClientSecret "secret" (set_ClientID "id" builtin)))).
Definition badCallbackConf : config :=
  set_Callback ":8081/oauth/callback"
    (set_TokenURL "https://provider/token"
       (set_AuthURL "https://provider/auth"
          (set_ClientSecret "secret" (set_ClientID "id" builtin)))).
(** A command line whose callback has no path, its configuration and
    its callback URL; a request for another path than the callback's. *)
Definition noPath : list string :=
  ["-id"; "id"; "-secret"; "secret"; "-auth"; "https://provider/auth";
   "-token"; "https://provider/token"; "-callback"; "http://example.com"].
Definition noPathConf : config :=
  set_Callback "http://example.com"
    (set_TokenURL "https://provider/token"
       (set_AuthURL "https://provider/auth"
          (set_ClientSecret "secret" (set_ClientID "id" builtin)))).
Definition noPathURL : url.URL :=
  {| url.Scheme := "http"; url.Opaque := ""; url.User := None;
     url.Host := "example.com"; url.Path := ""; url.RawPath := "";
     url.OmitHost := false; url.ForceQuery := false; url.RawQuery := "";
     url.Fragment := ""; url.RawFragment := "" |}.
Definition strayRequest : Request :=
  {| RequestURI := "/favicon.ico"; Query := [] |}.
Definition callbackPath : url.URL :=
  {| url.Scheme := ""; url.Opaque := ""; url.User := None; url.Host := "";
     url.Path := "/oauth/callback"; url.RawPath := ""; url.OmitHost := false;
     url.ForceQuery := false; url.RawQuery := ""; url.Fragment := "";
     url.RawFragment := "" |}.


(** ** Callback values by shape *)






(** * Properties *)

(** ** Lists in steps of three *)

Lemma list_ind3 {A : Type} (P : list A -> Prop) :
  P [] ->
  (forall a, P [a]) ->
  (forall a b, P [a; b]) ->
  (forall a b c l, P l -> P (a :: b :: c :: l)) ->
  forall l, P l.
Proof.
  intros H0 H1 H2 H3.
  assert (H : forall l, P l /\ (forall a, P (a :: l))
                        /\ (forall a b, P (a :: b :: l))).
  { induction l as [|x l [IH0 [IH1 IH2]]].
    - auto.
    - repeat split; auto. }
  intros l. apply H.
Qed.

(** ** Facts on [base64] *)

Module base64_facts.

Import base64.
Local Open Scope N_scope.


Lemma Encode_3 enc b0 b1 b2 rest :
  EncodeToString enc (b0 :: b1 :: b2 :: rest) =
  String (sextet enc (val3 b0 b1 b2) 18)
    (String (sextet enc (val3 b0 b1 b2) 12)
       (String (sextet enc (val3 b0 b1 b2) 6)
          (String (sextet enc (val3 b0 b1 b2) 0)
             (EncodeToString enc rest)))).
Proof. reflexivity. Qed.



(** Every full quantum adds four characters; the padded remainder does
    too. *)
Lemma Std_length (src : list byte) :
  String.length (EncodeToString StdEncoding src) =
  (4 * ((List.length src + 2) / 3))%nat.
Proof.
  induction src as [| a | a b | a b c l IH] using list_ind3.
  - reflexivity.
  - reflexivity.
  - reflexivity.
  - rewrite Encode_3. cbn [String.length List.length]. rewrite IH.
    replace (S (S (S (List.length l))) + 2)%nat
      with (1 * 3 + (List.length l + 2))%nat by lia.
    rewrite Nat.div_add_l by lia. lia.
Qed.

(** *** Bits and arithmetic *)










(** *** The alphabet *)














End base64_facts.

(** ** Facts on [randString] *)

Lemma ReadFull_length (r : rand.reading) (buf : list byte) :
  List.length (fst (rand.ReadFull r buf)) = List.length buf.
Proof.
  unfold rand.ReadFull.
  destruct (List.length buf <=? List.length (rand.delivered r))%nat eqn:E;
    cbn [fst].
  - apply Nat.leb_le in E. rewrite length_firstn. lia.
  - apply Nat.leb_gt in E. rewrite length_app, length_skipn. lia.
Qed.


Lemma ReadFull_error (r : rand.reading) (buf : list byte) :
  snd (rand.ReadFull r buf)
  = if (List.length buf <=? List.length (rand.delivered r))%nat
    then None else Some (rand.err r).
Proof.
  unfold rand.ReadFull.
  destruct (List.length buf <=? List.length (rand.delivered r))%nat;
    reflexivity.
Qed.

Lemma drawn_length (r : rand.reading) : String.length (drawn r) = 44%nat.
Proof.
  unfold drawn.
  rewrite base64_facts.Std_length, ReadFull_length, repeat_length.
  reflexivity.
Qed.

Lemma drawn_not_empty (r : rand.reading) : String.eqb (drawn r) "" = false.
Proof.
  pose proof (drawn_length r) as H.
  destruct (drawn r); [discriminate H | reflexivity].
Qed.


(** [randString] returns unless the read fails and the failure is
    fatal; then the process exits. *)
Lemma randString_returns (src : rand.source) (n : nat) :
  returns (src n) = true ->
  randString src n = Return (drawn (src n), S n).
Proof.
  unfold returns, randString, rand.Read, drawn.
  pose proof (ReadFull_error (src n) (repeat x00 32)) as E.
  rewrite repeat_length in E.
  destruct (rand.ReadFull (src n) (repeat x00 32)) as [buf e].
  cbn [snd fst] in *. subst e.
  destruct (32 <=? List.length (rand.delivered (src n)))%nat;
    [reflexivity|].
  rewrite orb_false_r. intros H. apply negb_true_iff in H. rewrite H.
  reflexivity.
Qed.

Lemma randString_crashes (src : rand.source) (n : nat) :
  returns (src n) = false ->
  randString src n = Exit 2 (RandomReadFailed (rand.err (src n))).
Proof.
  unfold returns, randString, rand.Read.
  pose proof (ReadFull_error (src n) (repeat x00 32)) as E.
  rewrite repeat_length in E.
  destruct (rand.ReadFull (src n) (repeat x00 32)) as [buf e].
  cbn [snd] in *. subst e.
  intros H. apply orb_false_elim in H as [H1 H2].
  apply negb_false_iff in H1. rewrite H2, H1. reflexivity.
Qed.

Lemma randString_Return (src : rand.source) (n : nat) (x : string * nat) :
  randString src n = Return x ->
  returns (src n) = true /\ x = (drawn (src n), S n).
Proof.
  destruct (returns (src n)) eqn:R.
  - rewrite (randString_returns src n R). intros E. injection E as <-.
    split; reflexivity.
  - rewrite (randString_crashes src n R). discriminate.
Qed.

Lemma stateOf_eq (conf : config) (src : rand.source) :
  stateOf conf src = drawn (src (stateDraw conf)).
Proof. reflexivity. Qed.

Lemma nonceOf_eq (conf : config) (src : rand.source) :
  nonceOf conf src = if OIDCNonce conf then drawn (src 0%nat) else "".
Proof. reflexivity. Qed.

(** The nonce, the options and the state of [main] are those of
    [nonceOf], [optsOf] and [stateOf]. *)
Lemma secrets_eq (conf : config) (src : rand.source) :
  readsReturn conf src = true ->
  secrets conf src
  = Return (nonceOf conf src, optsOf conf src, stateOf conf src).
Proof.
  unfold readsReturn, secrets, nonceOf, optsOf, stateOf, stateDraw.
  destruct (OIDCNonce conf); cbn [negb orb andb].
  - intros H. apply andb_prop in H as [H0 H1].
    rewrite (randString_returns src 0 H0). cbn [bind].
    rewrite (randString_returns src 1 H1). reflexivity.
  - intros H. cbv beta iota delta [bind].
    rewrite (randString_returns src 0 H). reflexivity.
Qed.

(** When a read of the run is fatal, so is the run: the first read that
    does not return ends the process. *)
Lemma secrets_crashes (conf : config) (src : rand.source) :
  readsReturn conf src = false ->
  exists n,
    (n <= stateDraw conf)%nat
    /\ returns (src n) = false
    /\ secrets conf src = Exit 2 (RandomReadFailed (rand.err (src n))).
Proof.
  unfold readsReturn, secrets, stateDraw.
  destruct (OIDCNonce conf); cbn [negb orb andb]; intros R.
  - destruct (returns (src 0%nat)) eqn:R0; cbn [andb] in R.
    + exists 1%nat. split; [lia|]. split; [exact R|].
      rewrite (randString_returns src 0 R0). cbn [bind].
      rewrite (randString_crashes src 1 R). reflexivity.
    + exists 0%nat. split; [lia|]. split; [exact R0|].
      rewrite (randString_crashes src 0 R0). reflexivity.
  - exists 0%nat. split; [lia|]. split; [exact R|].
    cbv beta iota delta [bind].
    rewrite (randString_crashes src 0 R). reflexivity.
Qed.




(** C10, as stated, fails: when the [crypto/rand] of the Go release
    treats a failed read as fatal, a read that fails ends the process
    inside [rand.Read], and [randString] returns nothing. *)
Lemma randString_ends_process :
  randString failingSource 0 = Exit 2 (RandomReadFailed "read error")
  /\ forall x : string * nat, randString failingSource 0 <> Return x.
Proof. split; [reflexivity | discriminate]. Qed.

(** C10, amended.  [randString] has no way to report failure.  Whenever
    it returns, the result is the standard base64 text of the 32-byte
    buffer, 44 characters long, and the read counts as made.  It returns
    unless the read fails and the Go release treats this as fatal; then
    the process exits with status 2.  When the error of a failed read is
    returned by [rand.Read] it does not reach the result: the text of
    the buffer with the bytes delivered so far is returned, which for a
    read that delivers no byte is the text of 32 zero bytes. *)
Theorem randString_drops_error (src : rand.source) (n : nat)
        (data : list byte) (e e' : string) :
  let buf := fst (rand.ReadFull (src n) (repeat x00 32)) in
  (forall x : string * nat,
      randString src n = Return x ->
      x = (base64.EncodeToString base64.StdEncoding buf, S n)
      /\ List.length buf = 32%nat
      /\ String.length (fst x) = 44%nat)
  /\ (returns (src n) = true ->
      randString src n
      = Return (base64.EncodeToString base64.StdEncoding buf, S n))
  /\ (returns (src n) = false ->
      randString src n = Exit 2 (RandomReadFailed (rand.err (src n))))
  /\ randString (fun _ => {| rand.delivered := data; rand.err := e;
                             rand.crash := false |}) n
     = randString (fun _ => {| rand.delivered := data; rand.err := e';
                               rand.crash := false |}) n
  /\ randString (fun _ => {| rand.delivered := []; rand.err := e;
                             rand.crash := false |}) n
     = Return ("AAAAAAAAAAAAAAAAAAAAAAAAAAAAAAAAAAAAAAAAAAA=", S n).
Proof.
  cbv zeta. split; [|split; [|split; [|split]]].
  - intros x E. apply randString_Return in E as [_ ->].
    split; [reflexivity|]. split.
    + rewrite ReadFull_length. apply repeat_length.
    + apply drawn_length.
  - apply randString_returns.
  - apply randString_crashes.
  - rewrite !randString_returns by reflexivity.
    unfold drawn, rand.ReadFull. cbn [rand.delivered].
    destruct (List.length (repeat x00 32) <=? List.length data)%nat;
      reflexivity.
  - reflexivity.
Qed.

(** ** Facts on [url.Values] *)

Lemma Get_Set_same (key value : string) (v : url.Values) :
  url.Get (url.Set_ key value v) key = value.
Proof.
  induction v as [|[k vs] rest IH]; cbn [url.Set_ url.Get].
  - rewrite String.eqb_refl. reflexivity.
  - destruct (String.eqb k key) eqn:E.
    + cbn [url.Get]. rewrite String.eqb_refl. reflexivity.
    + destruct (String.ltb key k); cbn [url.Get].
      * rewrite String.eqb_refl. reflexivity.
      * rewrite E. exact IH.
Qed.

Lemma Get_Set_other (key key' value : string) (v : url.Values) :
  String.eqb key key' = false ->
  url.Get (url.Set_ key value v) key' = url.Get v key'.
Proof.
  intros Hne.
  induction v as [|[k vs] rest IH]; cbn [url.Set_ url.Get].
  - rewrite Hne. reflexivity.
  - destruct (String.eqb k key) eqn:E.
    + cbn [url.Get]. rewrite Hne.
      apply String.eqb_eq in E. subst k. rewrite Hne. reflexivity.
    + destruct (String.ltb key k); cbn [url.Get].
      * rewrite Hne. reflexivity.
      * destruct (String.eqb k key'); [reflexivity | exact IH].
Qed.

Lemma optsOf_eq (conf : config) (src : rand.source) :
  optsOf conf src =
  if OIDCNonce conf
  then [oauth2.AccessTypeOffline;
        oauth2.SetAuthURLParam "nonce" (drawn (src 0%nat))]
  else [oauth2.AccessTypeOffline].
Proof. reflexivity. Qed.

(** The scope of the authorization request is [conf.Scope] as it is. *)
Lemma scope_forwarded (conf : config) (u : url.URL) (src : rand.source) :
  url.Get (oauth2.authValues (oauthConfig conf u) (stateOf conf src)
             (optsOf conf src)) "scope"
  = Scope conf.
Proof.
  rewrite optsOf_eq. unfold oauth2.authValues.
  cbn [oauthConfig oauth2.Scopes oauth2.ClientID oauth2.RedirectURL
       strings.Join].
  set (v0 := url.Set_ "client_id" (ClientID conf)
               (url.Set_ "response_type" "code" [])).
  set (v1 := if String.eqb (url.String_ u) "" then v0
             else url.Set_ "redirect_uri" (url.String_ u) v0).
  assert (E : forall v,
             url.Get
               (if String.eqb (stateOf conf src) ""
                then url.Set_ "scope" (Scope conf) v
                else url.Set_ "state" (stateOf conf src)
                       (url.Set_ "scope" (Scope conf) v)) "scope"
             = Scope conf).
  { intros v. destruct (String.eqb (stateOf conf src) "").
    - apply Get_Set_same.
    - rewrite Get_Set_other by reflexivity. apply Get_Set_same. }
  destruct (OIDCNonce conf);
    cbn [fold_left fst snd oauth2.AccessTypeOffline oauth2.SetAuthURLParam];
    rewrite ?Get_Set_other by reflexivity; apply E.
Qed.

(** ** Facts on [loadConfig] *)

(** Defining the flags stores every default back into its own field,
    except for the ["token"] flag, which stores [conf.AuthURL] into
    [conf.TokenURL]. *)
Lemma defineFlags_vars (conf : config) :
  flag.vars (defineFlags conf) = set_TokenURL (AuthURL conf) conf.
Proof. destruct conf. reflexivity. Qed.

Lemma Parse_total (arguments : list string) (f : flag.FlagSet config) :
  (exists f', flag.Parse arguments f = Return f')
  \/ (exists status e, flag.Parse arguments f = Exit status e).
Proof.
  unfold flag.Parse.
  destruct (flag.parseArgs (flag.formal f) arguments (flag.vars f)
              (flag.actual f)) as [e | [[c act] rest]].
  - right. destruct e; eauto.
  - left. eauto.
Qed.

Lemma plain_defineFlags_vars (conf : plain.config) :
  flag.vars (plain.defineFlags conf)
  = plain.set_TokenURL (plain.AuthURL conf) conf.
Proof. destruct conf. reflexivity. Qed.

(** C1.  The token URL of the defaults file does not survive the
    definition of the flags: with no flag on the command line,
    [loadConfig] returns the authorization URL of the file as the token
    URL, in both variants of the program.  For every configuration,
    defining the flags leaves the other fields alone and replaces
    [TokenURL] by [AuthURL]. *)
Theorem loadConfig_token_url_of_file_lost :
  (forall conf : config,
      flag.vars (defineFlags conf) = set_TokenURL (AuthURL conf) conf)
  /\ (forall conf : plain.config,
      flag.vars (plain.defineFlags conf)
      = plain.set_TokenURL (plain.AuthURL conf) conf)
  /\ json_token_url bothEndpoints = Some "https://provider/token"
  /\ (exists conf : config,
      loadConfig (Decoded bothEndpoints) [] = Return conf
      /\ AuthURL conf = "https://provider/auth"
      /\ TokenURL conf = "https://provider/auth")
  /\ (exists conf : plain.config,
      plain.loadConfig (Decoded bothEndpoints) [] = Return conf
      /\ plain.AuthURL conf = "https://provider/auth"
      /\ plain.TokenURL conf = "https://provider/auth").
Proof.
  split; [exact defineFlags_vars|].
  split; [exact plain_defineFlags_vars|].
  split; [reflexivity|].
  split; (eexists; split; [vm_compute; reflexivity|]; split; reflexivity).
Qed.

(** C2.  A comma-separated scope reaches the authorization request as
    it was given; of two [-scope] flags only the last one does: the
    second [Set] of the flag overwrites [conf.Scope], so that the scope
    ["read"] is neither in the [oauth2.Config] nor in the query values
    of the authorization URL. *)
Theorem repeated_scope_keeps_last_only :
  (exists conf : config,
      loadConfig NotExist commaScopes = Return conf
      /\ forall u src,
          oauth2.Scopes (oauthConfig conf u) = ["read,write"]
          /\ url.Get (oauth2.authValues (oauthConfig conf u)
                        (stateOf conf src) (optsOf conf src)) "scope"
             = "read,write")
  /\ (exists conf : config,
      loadConfig NotExist repeatedScopes = Return conf
      /\ forall u src,
          oauth2.Scopes (oauthConfig conf u) = ["write"]
          /\ url.Get (oauth2.authValues (oauthConfig conf u)
                        (stateOf conf src) (optsOf conf src)) "scope"
             = "write").
Proof.
  split; (eexists; split; [vm_compute; reflexivity|]); intros u src;
    (split; [reflexivity | rewrite scope_forwarded; reflexivity]).
Qed.

Lemma checkRequired_eq (conf : config) :
  (requiredEmpty conf = true /\ exists name, checkRequired conf = Exit 1 (RequiredFlag name))
  \/ (requiredEmpty conf = false /\ checkRequired conf = Return tt).
Proof.
  unfold requiredEmpty, checkRequired, required.
  destruct (String.eqb (AuthURL conf) ""); cbn [bind orb]; [left; eauto|].
  destruct (String.eqb (TokenURL conf) ""); cbn [bind orb]; [left; eauto|].
  destruct (String.eqb (ClientID conf) ""); cbn [bind orb]; [left; eauto|].
  destruct (String.eqb (ClientSecret conf) ""); cbn [bind orb]; [left; eauto|].
  right. auto.
Qed.

(** ** Facts on [strings.SplitN] *)

Lemma Cut_found (s : string) (c : ascii) :
  snd (strings.Cut s c) = strings.ContainsByte s c.
Proof.
  unfold strings.ContainsByte.
  induction s as [|a s IH]; [reflexivity|].
  cbn [strings.Cut strings.IndexByte].
  destruct (Ascii.eqb a c); [reflexivity|].
  destruct (strings.Cut s c) as [[before after] found].
  cbn [snd] in *. rewrite IH.
  destruct (strings.IndexByte s c); reflexivity.
Qed.

Lemma Cut_not_found (s : string) (c : ascii) :
  strings.ContainsByte s c = false -> strings.Cut s c = (s, "", false).
Proof.
  unfold strings.ContainsByte.
  induction s as [|a s IH]; [reflexivity|].
  cbn [strings.Cut strings.IndexByte].
  destruct (Ascii.eqb a c); [discriminate|].
  destruct (strings.IndexByte s c); [discriminate|].
  intros _. rewrite IH; reflexivity.
Qed.

(** The split of an ID token has a second element exactly when the token
    has a dot. *)
Lemma SplitN_second (s : string) :
  (strings.ContainsByte s "." = false /\ strings.SplitN s "." 3 = [s])
  \/ (strings.ContainsByte s "." = true
      /\ exists header segment rest,
          strings.SplitN s "." 3 = header :: segment :: rest).
Proof.
  destruct (strings.ContainsByte s ".") eqn:E.
  - right. split; [reflexivity|].
    pose proof (Cut_found s ".") as F. rewrite E in F.
    cbn [strings.SplitN].
    destruct (strings.Cut s ".") as [[before after] found].
    cbn [snd] in F. subst found.
    destruct (strings.Cut after ".") as [[b2 a2] [|]]; eauto.
  - left. split; [reflexivity|].
    cbn [strings.SplitN]. rewrite Cut_not_found by exact E. reflexivity.
Qed.

(** ** The callback handler *)

Section Handler.

Variable Quote : string -> string.
Variable Exchange : oauth2.Config -> string -> string + oauth2.Token.
Variable MarshalIndent : oauth2.Token -> string + string.
Variable Unmarshal : list byte -> string + string.
Variable rejected : string -> option string.
Variable dispatched : string -> Request -> bool.

Lemma verbose_eq (conf : config) (r : Request) :
  verbose conf r = (verboseLog conf r, Return tt).
Proof. unfold verbose, verboseLog. destruct (Verbose conf); reflexivity. Qed.

Lemma verboseLog_quiet (conf : config) (r : Request) :
  quiet (verboseLog conf r) = true.
Proof. unfold verboseLog. destruct (Verbose conf); reflexivity. Qed.

Lemma status_verboseLog (conf : config) (r : Request) (tr : list event) :
  status (verboseLog conf r ++ tr) = status tr.
Proof. unfold verboseLog. destruct (Verbose conf); reflexivity. Qed.

Lemma exchanges_verboseLog (conf : config) (r : Request) (tr : list event) :
  exchanges (verboseLog conf r ++ tr) = exchanges tr.
Proof. unfold verboseLog. destruct (Verbose conf); reflexivity. Qed.

Lemma serialized_verboseLog (conf : config) (r : Request) (tr : list event) :
  serialized (verboseLog conf r ++ tr) = serialized tr.
Proof. unfold verboseLog. destruct (Verbose conf); reflexivity. Qed.

Lemma written_verboseLog (conf : config) (r : Request) (tr : list event) :
  written (verboseLog conf r ++ tr) = written tr.
Proof. unfold verboseLog. destruct (Verbose conf); reflexivity. Qed.

(** [checkNonce] logs at most one line, and returns or panics. *)
Lemma checkNonce_ends (nonce : string) (token : oauth2.Token) :
  exists tr res,
    checkNonce Quote Unmarshal nonce token = (tr, res)
    /\ quiet tr = true
    /\ ((exists e, res = Return e) \/ (exists msg, res = Panic msg)).
Proof.
  unfold checkNonce.
  destruct (oauth2.Extra token "id_token") as [| idToken |];
    try (eexists _, _; split; [reflexivity|]; split; [reflexivity|];
         left; eauto).
  destruct (nth_error (strings.SplitN idToken "." 3) 1) as [segment|].
  - destruct (base64.DecodeString base64.RawURLEncoding segment)
      as [e | payload].
    + eexists _, _; split; [reflexivity|]; split; [reflexivity|]; left; eauto.
    + destruct (Unmarshal payload) as [e | decoded].
      * eexists _, _; split; [reflexivity|]; split; [reflexivity|];
          left; eauto.
      * destruct (negb (String.eqb decoded nonce));
          eexists _, _; (split; [reflexivity|]); (split; [reflexivity|]);
          left; eauto.
  - eexists _, _; split; [reflexivity|]; split; [reflexivity|]; right; eauto.
Qed.

Lemma quiet_app (tr tr' : list event) :
  quiet (tr ++ tr') = quiet tr && quiet tr'.
Proof. apply forallb_app. Qed.

(** The body of the handler makes no call on the wait group, and returns
    or panics. *)
Lemma handlerBody_ends (conf : config) (cfg : oauth2.Config)
      (state nonce : string) (r : Request) :
  exists tr res,
    handlerBody Quote Exchange MarshalIndent Unmarshal conf cfg state nonce r
      = (tr, res)
    /\ quiet tr = true
    /\ (res = Return tt \/ exists msg, res = Panic msg).
Proof.
  unfold handlerBody. rewrite verbose_eq.
  pose proof (verboseLog_quiet conf r) as Q.
  destruct (negb (String.eqb (url.Get (Query r) "state") state)).
  - eexists _, _. split; [reflexivity|]. split; [|left; reflexivity].
    rewrite quiet_app, Q. reflexivity.
  - destruct (Exchange cfg (url.Get (Query r) (CodeParam conf)))
      as [err | token].
    + eexists _, _. split; [reflexivity|]. split; [|left; reflexivity].
      rewrite quiet_app, Q. reflexivity.
    + assert (C : exists tr res,
                 (if negb (String.eqb nonce "")
                  then checkNonce Quote Unmarshal nonce token
                  else ret None) = (tr, res)
                 /\ quiet tr = true
                 /\ ((exists e, res = Return e) \/ (exists msg, res = Panic msg))).
      { destruct (negb (String.eqb nonce "")).
        - apply checkNonce_ends.
        - eexists _, _. split; [reflexivity|]. split; [reflexivity|].
          left; eauto. }
      destruct C as (tr & res & -> & Qc & [[e ->] | [msg ->]]).
      * destruct e as [err|].
        -- eexists _, _. split; [reflexivity|]. split; [|left; reflexivity].
           rewrite !quiet_app, Q, Qc. reflexivity.
        -- destruct (MarshalIndent token) as [err | tokenJSON];
             (eexists _, _; split; [reflexivity|]; split; [|left; reflexivity]);
             rewrite !quiet_app, Q, Qc; reflexivity.
      * eexists _, _. split; [reflexivity|]. split; [|right; eauto].
        rewrite !quiet_app, Q, Qc. reflexivity.
Qed.

Lemma dones_quiet (tr : list event) : quiet tr = true -> dones tr = O.
Proof.
  induction tr as [|e tr IH]; [reflexivity|].
  cbn [quiet forallb]. intros H. apply andb_prop in H as [He Ht].
  destruct e; try discriminate He; cbn [dones]; apply IH; exact Ht.
Qed.

Lemma dones_app (tr tr' : list event) :
  dones (tr ++ tr') = (dones tr + dones tr')%nat.
Proof.
  induction tr as [|e tr IH]; [reflexivity|].
  destruct e; cbn [dones app]; rewrite ?IH; reflexivity.
Qed.

Lemma wg_counter_app (tr tr' : list event) :
  wg_counter (tr ++ tr')
  = fold_left (fun n e => match e with
                          | wg_Add delta => (n + delta)%Z
                          | wg_Done => (n - 1)%Z
                          | _ => n
                          end) tr' (wg_counter tr).
Proof. unfold wg_counter. apply fold_left_app. Qed.

Lemma wg_counter_quiet (tr : list event) (n : Z) :
  quiet tr = true ->
  fold_left (fun n e => match e with
                        | wg_Add delta => (n + delta)%Z
                        | wg_Done => (n - 1)%Z
                        | _ => n
                        end) tr n = n.
Proof.
  revert n. induction tr as [|e tr IH]; intros n; [reflexivity|].
  cbn [quiet forallb]. intros H. apply andb_prop in H as [He Ht].
  destruct e; try discriminate He; cbn [fold_left]; apply IH; exact Ht.
Qed.

(** C3.  A request whose [state] parameter differs from the state of
    the flow is answered with status 401: the handler writes the error,
    signals the wait group and returns, and the token exchanger is not
    called. *)
Theorem state_mismatch_rejected (conf : config) (cfg : oauth2.Config)
        (state nonce : string) (r : Request) :
  url.Get (Query r) "state" <> state ->
  handler Quote Exchange MarshalIndent Unmarshal conf cfg state nonce r
    = ((verboseLog conf r
        ++ [http_Error ("Invalid state: " ++ url.Get (Query r) "state")
                       401;
            wg_Done])%list,
       Return tt)
  /\ status (fst (handler Quote Exchange MarshalIndent Unmarshal
                    conf cfg state nonce r)) = Some 401%Z
  /\ exchanges (fst (handler Quote Exchange MarshalIndent Unmarshal
                       conf cfg state nonce r)) = [].
Proof.
  intros Hne.
  assert (H : handler Quote Exchange MarshalIndent Unmarshal
                conf cfg state nonce r
              = ((verboseLog conf r
                  ++ [http_Error
                        ("Invalid state: " ++ url.Get (Query r) "state") 401;
                      wg_Done])%list, Return tt)).
  { unfold handler, handlerBody. rewrite verbose_eq.
    apply String.eqb_neq in Hne. rewrite Hne.
    cbn [negb io_bind emit defer]. rewrite <- app_assoc. reflexivity. }
  rewrite H. cbn [fst].
  rewrite status_verboseLog, exchanges_verboseLog.
  repeat split.
Qed.

(** C4.  [checkNonce] is not total: on an ID token without a dot,
    [strings.SplitN] returns a slice of length one and the index
    expression [splitToken[1]] panics before anything is decoded; it
    panics so exactly when the ID token has no dot. *)
Theorem checkNonce_panics_without_dot (nonce s : string) :
  checkNonce Quote Unmarshal nonce (tokenWith "abc")
    = ([], Panic indexOutOfRange)
  /\ (checkNonce Quote Unmarshal nonce (tokenWith s)
        = ([], Panic indexOutOfRange)
      <-> strings.ContainsByte s "." = false).
Proof.
  split; [reflexivity|].
  assert (X : oauth2.Extra (tokenWith s) "id_token" = oauth2.str s)
    by reflexivity.
  unfold checkNonce. rewrite X. clear X.
  destruct (SplitN_second s) as [[E ->] | [E (h & seg & rest & ->)]];
    rewrite E.
  - split; [reflexivity|]. intros _. reflexivity.
  - cbn [nth_error]. split; [|discriminate].
    unfold io_bind, emit.
    destruct (base64.DecodeString base64.RawURLEncoding seg);
      [discriminate|].
    destruct (Unmarshal l); [discriminate|].
    destruct (negb (String.eqb s0 nonce)); discriminate.
Qed.

(** C6.  In nonce mode the nonce is a [randString], hence not empty,
    and [checkNonce] runs after a successful exchange.  When the payload
    of the ID token decodes to a nonce other than that of the flow, the
    handler answers with status 401 and returns: the token is neither
    serialized nor written. *)
Theorem nonce_mismatch_rejected (conf : config) (cfg : oauth2.Config)
        (src : rand.source) (r : Request) (token : oauth2.Token)
        (idToken header segment : string) (rest : list string)
        (payload : list byte) (decoded : string) :
  OIDCNonce conf = true ->
  url.Get (Query r) "state" = stateOf conf src ->
  Exchange cfg (url.Get (Query r) (CodeParam conf)) = inr token ->
  oauth2.Extra token "id_token" = oauth2.str idToken ->
  strings.SplitN idToken "." 3 = header :: segment :: rest ->
  base64.DecodeString base64.RawURLEncoding segment = inr payload ->
  Unmarshal payload = inr decoded ->
  decoded <> nonceOf conf src ->
  let run := handler Quote Exchange MarshalIndent Unmarshal conf cfg
               (stateOf conf src) (nonceOf conf src) r in
  run = ((verboseLog conf r
          ++ [config_Exchange (url.Get (Query r) (CodeParam conf));
              log_Printf (Quote segment);
              http_Error ("OIDC nonce error: " ++ Quote decoded ++ " != "
                          ++ Quote (nonceOf conf src)) 401;
              wg_Done])%list,
         Return tt)
  /\ status (fst run) = Some 401%Z
  /\ serialized (fst run) = false
  /\ written (fst run) = false.
Proof.
  intros Hmode Hstate Hex Hid Hsplit Hdec Hjson Hne run.
  assert (Hn : String.eqb (nonceOf conf src) "" = false).
  { rewrite nonceOf_eq, Hmode. apply drawn_not_empty. }
  assert (H : run = ((verboseLog conf r
          ++ [config_Exchange (url.Get (Query r) (CodeParam conf));
              log_Printf (Quote segment);
              http_Error ("OIDC nonce error: " ++ Quote decoded ++ " != "
                          ++ Quote (nonceOf conf src)) 401;
              wg_Done])%list,
         Return tt)).
  { unfold run, handler, handlerBody. rewrite verbose_eq.
    rewrite Hstate, String.eqb_refl, Hex, Hn.
    unfold checkNonce. rewrite Hid, Hsplit. cbn [nth_error].
    rewrite Hdec, Hjson.
    apply String.eqb_neq in Hne. rewrite Hne.
    cbn [negb io_bind emit ret defer nonceError_Error app].
    rewrite <- app_assoc. reflexivity. }
  rewrite H. cbn [fst].
  rewrite status_verboseLog, serialized_verboseLog, written_verboseLog.
  repeat split.
Qed.

(** C9.  On every path the handler calls [wg.Done()] exactly once, as
    its last call, whether it returns or panics; with the [wg.Add(1)] of
    [main] the counter is then zero.  So, when the handler was
    registered, the server listens and the request is dispatched to the
    handler, [wg.Wait()] returns after it and [server.Shutdown] is
    called next, whatever the outcome of the handler. *)
Theorem handler_signals_once (srv : server) (conf : config)
        (cfg : oauth2.Config) (u : url.URL) (state nonce : string)
        (r : Request) :
  exists tr res,
    handler Quote Exchange MarshalIndent Unmarshal conf cfg state nonce r
      = ((tr ++ [wg_Done])%list, res)
    /\ (res = Return tt \/ exists msg, res = Panic msg)
    /\ dones (tr ++ [wg_Done]) = 1%nat
    /\ wg_counter (started conf u ++ tr ++ [wg_Done]) = 0%Z
    /\ (HandleFunc rejected (url.Path u) = None ->
        listenErr srv = None ->
        dispatched (url.Path u) r = true ->
        serve Quote Exchange MarshalIndent Unmarshal rejected dispatched
          srv conf cfg u state nonce r
        = ((started conf u ++ (tr ++ [wg_Done])
            ++ [wg_Wait; server_Shutdown])%list,
           match shutdownErr srv with
           | Some err => Exit 1 (ShutdownFailed err)
           | None => Return tt
           end)).
Proof.
  destruct (handlerBody_ends conf cfg state nonce r)
    as (tr & res & B & Q & R).
  assert (H : handler Quote Exchange MarshalIndent Unmarshal conf cfg
                state nonce r = ((tr ++ [wg_Done])%list, res)).
  { unfold handler. rewrite B.
    destruct R as [-> | [msg ->]]; reflexivity. }
  assert (W : wg_counter (started conf u ++ tr ++ [wg_Done]) = 0%Z).
  { rewrite app_assoc, wg_counter_app. cbn [fold_left].
    rewrite wg_counter_app. rewrite wg_counter_quiet by exact Q.
    reflexivity. }
  exists tr, res. split; [exact H|]. split; [exact R|].
  split; [|split; [exact W|]].
  - rewrite dones_app, (dones_quiet tr Q). reflexivity.
  - intros P L D. unfold serve. rewrite P, L, D, H. fold (started conf u).
    assert (S : served ((tr ++ [wg_Done])%list, res)
                = ((tr ++ [wg_Done])%list, Return tt)).
    { destruct R as [-> | [msg ->]]; reflexivity. }
    rewrite S. unfold Wait. rewrite W. cbn [Z.eqb].
    destruct (shutdownErr srv); cbn; rewrite ?app_nil_r, <- ?app_assoc;
      reflexivity.
Qed.

End Handler.

Lemma state_mismatch_rejected_witness :
  url.Get (Query (sampleRequest "forged")) "state" <> "expected"
  /\ status (fst (handler sampleQuote sampleExchange sampleMarshalIndent
                    sampleUnmarshal builtin (oauthConfig builtin url.empty)
                    "expected" "" (sampleRequest "forged")))
     = Some 401%Z.
Proof.
  assert (H : url.Get (Query (sampleRequest "forged")) "state" <> "expected")
    by discriminate.
  split; [exact H|].
  exact (proj1 (proj2 (state_mismatch_rejected sampleQuote sampleExchange
                         sampleMarshalIndent sampleUnmarshal builtin
                         (oauthConfig builtin url.empty)
                         "expected" "" (sampleRequest "forged") H))).
Defined.

Lemma nonce_mismatch_rejected_witness :
  let conf := set_OIDCNonce true builtin in
  status (fst (handler sampleQuote sampleExchange sampleMarshalIndent
                 sampleUnmarshal conf (oauthConfig conf url.empty)
                 (stateOf conf zeros) (nonceOf conf zeros)
                 (sampleRequest (stateOf conf zeros))))
  = Some 401%Z.
Proof.
  intros conf.
  refine (proj1 (proj2 (nonce_mismatch_rejected sampleQuote sampleExchange
                          sampleMarshalIndent sampleUnmarshal conf
                          (oauthConfig conf url.empty) zeros
                          (sampleRequest (stateOf conf zeros))
                          (tokenWith sampleIDToken) sampleIDToken
                          "e30" "eyJub25jZSI6IngifQ" ["c2ln"]
                          _ "x" _ _ _ _ _ _ _ _)));
    try (vm_compute; reflexivity).
  vm_compute. discriminate.
Defined.

Lemma handler_signals_once_witness :
  exists tr res,
    handler sampleQuote sampleExchange sampleMarshalIndent sampleUnmarshal
      builtin (oauthConfig builtin callbackPath) "expected" ""
      (sampleRequest "expected")
    = ((tr ++ [wg_Done])%list, res)
    /\ dones (tr ++ [wg_Done]) = 1%nat
    /\ serve sampleQuote sampleExchange sampleMarshalIndent sampleUnmarshal
         lenientMux exactPath sampleServer builtin
         (oauthConfig builtin callbackPath) callbackPath "expected" ""
         (sampleRequest "expected")
       = ((started builtin callbackPath ++ (tr ++ [wg_Done])
           ++ [wg_Wait; server_Shutdown])%list,
          Return tt).
Proof.
  destruct (handler_signals_once sampleQuote sampleExchange
              sampleMarshalIndent sampleUnmarshal lenientMux exactPath
              sampleServer builtin
              (oauthConfig builtin callbackPath) callbackPath "expected" ""
              (sampleRequest "expected"))
    as (tr & res & H & _ & D & _ & S).
  exists tr, res. split; [exact H|]. split; [exact D|].
  apply S; reflexivity.
Defined.

(** ** Facts on strings and on [net/url] *)

Lemma not_empty (s : string) : s <> "" -> String.eqb s "" = false.
Proof. intros H. apply String.eqb_neq. exact H. Qed.

Lemma append_assoc (a b c : string) : (a ++ b) ++ c = a ++ b ++ c.
Proof. induction a as [|x a IH]; [reflexivity|]. cbn [append]. rewrite IH. reflexivity. Qed.

































(** ** The redirect URL *)

Section Redirect.
Variable parseAuthority : string -> string + (option url.Userinfo * string).






Lemma Path_defaults (conf : config) (u : url.URL) :
  url.Path (defaultHost conf (defaultScheme u)) = url.Path u.
Proof.
  unfold defaultHost, defaultScheme.
  destruct (String.eqb (url.Scheme u) "");
    [change (url.Host (url.set_Scheme "http" u)) with (url.Host u)|];
    destruct (String.eqb (url.Host u) ""); reflexivity.
Qed.



End Redirect.



(** * Further properties *)

(** ** Readings of concatenated traces *)

Lemma status_app (a b : list event) :
  status (a ++ b) = match status a with Some c => Some c | None => status b end.
Proof.
  induction a as [|e a IH]; [reflexivity|].
  destruct e; cbn [app status]; try exact IH; reflexivity.
Qed.

Lemma responses_app (a b : list event) :
  responses (a ++ b) = (responses a + responses b)%nat.
Proof.
  induction a as [|e a IH]; [reflexivity|].
  destruct e; cbn [app responses]; rewrite ?IH; reflexivity.
Qed.

Lemma exchanges_app (a b : list event) :
  exchanges (a ++ b) = (exchanges a ++ exchanges b)%list.
Proof.
  induction a as [|e a IH]; [reflexivity|].
  destruct e; cbn [app exchanges]; rewrite ?IH; reflexivity.
Qed.

Lemma serialized_app (a b : list event) :
  serialized (a ++ b) = serialized a || serialized b.
Proof. apply existsb_app. Qed.

Lemma written_app (a b : list event) :
  written (a ++ b) = written a || written b.
Proof. apply existsb_app. Qed.

Lemma serialized_cons (e : event) (tr : list event) :
  serialized (e :: tr)
  = (match e with json_MarshalIndent => true | _ => false end)
    || serialized tr.
Proof. reflexivity. Qed.

Lemma written_cons (e : event) (tr : list event) :
  written (e :: tr)
  = (match e with w_Write _ => true | _ => false end) || written tr.
Proof. reflexivity. Qed.

(** What a trace of log lines reads as. *)
Lemma logsOnly_readings (logs : list event) :
  logsOnly logs = true ->
  status logs = None /\ responses logs = O /\ exchanges logs = []
  /\ serialized logs = false /\ written logs = false /\ dones logs = O.
Proof.
  induction logs as [|e logs IH]; [repeat split|].
  cbn [logsOnly forallb]. intros H. apply andb_prop in H as [He Hl].
  destruct e; try discriminate He.
  rewrite serialized_cons, written_cons. cbn [status responses exchanges dones orb].
  apply IH, Hl.
Qed.

Lemma verboseLog_readings (conf : config) (r : Request) :
  status (verboseLog conf r) = None /\ responses (verboseLog conf r) = O
  /\ exchanges (verboseLog conf r) = []
  /\ serialized (verboseLog conf r) = false
  /\ written (verboseLog conf r) = false /\ dones (verboseLog conf r) = O.
Proof. unfold verboseLog. destruct (Verbose conf); repeat split. Qed.

(** Reads a trace made of the verbose log, log lines and given calls. *)
Ltac readings :=
  cbn [fst snd];
  repeat (progress
            (rewrite ?status_app, ?responses_app, ?exchanges_app, ?dones_app,
               ?serialized_app, ?written_app, ?serialized_cons, ?written_cons;
             cbn [status responses exchanges dones orb app Nat.add]));
  repeat match goal with
         | H : logsOnly ?l = true |- _ =>
             destruct (logsOnly_readings l H) as (? & ? & ? & ? & ? & ?);
             clear H
         end;
  repeat match goal with
         | |- context [verboseLog ?c ?r] =>
             let V := fresh in
             pose proof (verboseLog_readings c r) as V;
             destruct V as (? & ? & ? & ? & ? & ?);
             generalize dependent (verboseLog c r); intros
         end;
  repeat match goal with
         | H : _ = _ |- _ => rewrite H
         end;
  cbn [orb app Nat.add].

Section HandlerPaths.

Variable Quote : string -> string.
Variable Exchange : oauth2.Config -> string -> string + oauth2.Token.
Variable MarshalIndent : oauth2.Token -> string + string.
Variable Unmarshal : list byte -> string + string.

Ltac norm_trace :=
  cbn [io_bind emit ret defer app];
  repeat (rewrite <- app_assoc || rewrite <- app_comm_cons);
  cbn [app].

(** The handler from the exchange on, when the state matches. *)
Lemma handler_state_ok (conf : config) (cfg : oauth2.Config)
      (state nonce : string) (r : Request) :
  url.Get (Query r) "state" = state ->
  handler Quote Exchange MarshalIndent Unmarshal conf cfg state nonce r
  = defer [wg_Done]
      (io_bind (verbose conf r) (fun _ =>
       io_bind (emit (config_Exchange (url.Get (Query r) (CodeParam conf))))
         (fun _ =>
          match Exchange cfg (url.Get (Query r) (CodeParam conf)) with
          | inl err =>
              emit (http_Error ("Exchange error: " ++ err)
                      StatusServiceUnavailable)
          | inr token =>
              io_bind (nonceCheck Quote Unmarshal nonce token) (fun failed =>
              match failed with
              | Some err =>
                  emit (http_Error
                          ("OIDC nonce error: " ++ nonceError_Error Quote err)
                          StatusUnauthorized)
              | None =>
                  io_bind (emit json_MarshalIndent) (fun _ =>
                  match MarshalIndent token with
                  | inl err =>
                      emit (http_Error ("Token parse error: " ++ err)
                              StatusServiceUnavailable)
                  | inr tokenJSON =>
                      io_bind (emit (resultLog tokenJSON))
                        (fun _ => emit (w_Write tokenJSON))
                  end)
              end)
          end))).
Proof.
  intros H. unfold handler, handlerBody. rewrite H, String.eqb_refl.
  reflexivity.
Qed.

Lemma checkNonce_logsOnly (nonce : string) (token : oauth2.Token) :
  logsOnly (fst (checkNonce Quote Unmarshal nonce token)) = true.
Proof.
  unfold checkNonce.
  destruct (oauth2.Extra token "id_token") as [| idToken |];
    try reflexivity.
  destruct (nth_error (strings.SplitN idToken "." 3) 1) as [segment|];
    [|reflexivity].
  destruct (base64.DecodeString base64.RawURLEncoding segment)
    as [e | payload]; [reflexivity|].
  destruct (Unmarshal payload) as [e | decoded]; [reflexivity|].
  destruct (negb (String.eqb decoded nonce)); reflexivity.
Qed.

Lemma nonceCheck_logsOnly (nonce : string) (token : oauth2.Token)
      (logs : list event) (res : outcome fatal (option nonceError)) :
  nonceCheck Quote Unmarshal nonce token = (logs, res) ->
  logsOnly logs = true.
Proof.
  intros H. change logs with (fst (logs, res)). rewrite <- H.
  unfold nonceCheck. destruct (negb (String.eqb nonce ""));
    [apply checkNonce_logsOnly | reflexivity].
Qed.

(** X1.  When the exchange fails the handler answers with status 503; the
    nonce is not checked and nothing is serialized or written. *)
Theorem exchange_error_unavailable (conf : config) (cfg : oauth2.Config)
        (state nonce : string) (r : Request) (err : string) :
  url.Get (Query r) "state" = state ->
  Exchange cfg (url.Get (Query r) (CodeParam conf)) = inl err ->
  let run := handler Quote Exchange MarshalIndent Unmarshal conf cfg
               state nonce r in
  run = ((verboseLog conf r
          ++ [config_Exchange (url.Get (Query r) (CodeParam conf));
              http_Error ("Exchange error: " ++ err) 503; wg_Done])%list,
         Return tt)
  /\ status (fst run) = Some 503%Z
  /\ serialized (fst run) = false
  /\ written (fst run) = false.
Proof.
  intros Hs He run.
  assert (H : run = ((verboseLog conf r
          ++ [config_Exchange (url.Get (Query r) (CodeParam conf));
              http_Error ("Exchange error: " ++ err) 503; wg_Done])%list,
         Return tt)).
  { unfold run. rewrite handler_state_ok by exact Hs.
    rewrite verbose_eq, He. norm_trace. reflexivity. }
  rewrite H. split; [reflexivity|]. clear.
  readings. repeat split.
Qed.

(** X2.  Any error of the nonce check is answered with status 401, and the
    token is neither serialized nor written. *)
Theorem nonce_check_error_unauthorized (conf : config) (cfg : oauth2.Config)
        (state nonce : string) (r : Request) (token : oauth2.Token)
        (logs : list event) (err : nonceError) :
  url.Get (Query r) "state" = state ->
  Exchange cfg (url.Get (Query r) (CodeParam conf)) = inr token ->
  nonceCheck Quote Unmarshal nonce token = (logs, Return (Some err)) ->
  let run := handler Quote Exchange MarshalIndent Unmarshal conf cfg
               state nonce r in
  run = ((verboseLog conf r
          ++ config_Exchange (url.Get (Query r) (CodeParam conf)) :: logs
          ++ [http_Error
                ("OIDC nonce error: " ++ nonceError_Error Quote err) 401;
              wg_Done])%list,
         Return tt)
  /\ status (fst run) = Some 401%Z
  /\ serialized (fst run) = false
  /\ written (fst run) = false.
Proof.
  intros Hs He Hc run.
  pose proof (nonceCheck_logsOnly _ _ _ _ Hc) as L.
  assert (H : run = ((verboseLog conf r
          ++ config_Exchange (url.Get (Query r) (CodeParam conf)) :: logs
          ++ [http_Error
                ("OIDC nonce error: " ++ nonceError_Error Quote err) 401;
              wg_Done])%list,
         Return tt)).
  { unfold run. rewrite handler_state_ok by exact Hs.
    rewrite verbose_eq, He, Hc. norm_trace. reflexivity. }
  rewrite H. split; [reflexivity|]. clear - L.
  readings. repeat split.
Qed.

(** X3.  When the state matches, the exchange succeeds, the nonce check
    passes and the token serializes, the handler logs the JSON and
    writes it as the only response. *)
Theorem token_written_once (conf : config) (cfg : oauth2.Config)
        (state nonce : string) (r : Request) (token : oauth2.Token)
        (logs : list event) (tokenJSON : string) :
  url.Get (Query r) "state" = state ->
  Exchange cfg (url.Get (Query r) (CodeParam conf)) = inr token ->
  nonceCheck Quote Unmarshal nonce token = (logs, Return None) ->
  MarshalIndent token = inr tokenJSON ->
  let run := handler Quote Exchange MarshalIndent Unmarshal conf cfg
               state nonce r in
  run = ((verboseLog conf r
          ++ config_Exchange (url.Get (Query r) (CodeParam conf)) :: logs
          ++ [json_MarshalIndent; resultLog tokenJSON; w_Write tokenJSON;
              wg_Done])%list,
         Return tt)
  /\ status (fst run) = Some 200%Z
  /\ responses (fst run) = 1%nat.
Proof.
  intros Hs He Hc Hm run.
  pose proof (nonceCheck_logsOnly _ _ _ _ Hc) as L.
  assert (H : run = ((verboseLog conf r
          ++ config_Exchange (url.Get (Query r) (CodeParam conf)) :: logs
          ++ [json_MarshalIndent; resultLog tokenJSON; w_Write tokenJSON;
              wg_Done])%list,
         Return tt)).
  { unfold run. rewrite handler_state_ok by exact Hs.
    rewrite verbose_eq, He, Hc, Hm. norm_trace. reflexivity. }
  rewrite H. split; [reflexivity|]. clear - L.
  readings. repeat split.
Qed.

(** X4.  When the token does not serialize the handler answers with status
    503 and writes no body. *)
Theorem marshal_error_unavailable (conf : config) (cfg : oauth2.Config)
        (state nonce : string) (r : Request) (token : oauth2.Token)
        (logs : list event) (err : string) :
  url.Get (Query r) "state" = state ->
  Exchange cfg (url.Get (Query r) (CodeParam conf)) = inr token ->
  nonceCheck Quote Unmarshal nonce token = (logs, Return None) ->
  MarshalIndent token = inl err ->
  let run := handler Quote Exchange MarshalIndent Unmarshal conf cfg
               state nonce r in
  run = ((verboseLog conf r
          ++ config_Exchange (url.Get (Query r) (CodeParam conf)) :: logs
          ++ [json_MarshalIndent;
              http_Error ("Token parse error: " ++ err) 503; wg_Done])%list,
         Return tt)
  /\ status (fst run) = Some 503%Z
  /\ written (fst run) = false.
Proof.
  intros Hs He Hc Hm run.
  pose proof (nonceCheck_logsOnly _ _ _ _ Hc) as L.
  assert (H : run = ((verboseLog conf r
          ++ config_Exchange (url.Get (Query r) (CodeParam conf)) :: logs
          ++ [json_MarshalIndent;
              http_Error ("Token parse error: " ++ err) 503; wg_Done])%list,
         Return tt)).
  { unfold run. rewrite handler_state_ok by exact Hs.
    rewrite verbose_eq, He, Hc, Hm. norm_trace. reflexivity. }
  rewrite H. split; [reflexivity|]. clear - L.
  readings. repeat split.
Qed.

(** X5.  A panic of the nonce check goes through the handler: the wait group
    is signalled, and the request gets no response from the handler. *)
Theorem nonce_check_panic_unanswered (conf : config) (cfg : oauth2.Config)
        (state nonce : string) (r : Request) (token : oauth2.Token)
        (logs : list event) (msg : string) :
  url.Get (Query r) "state" = state ->
  Exchange cfg (url.Get (Query r) (CodeParam conf)) = inr token ->
  nonceCheck Quote Unmarshal nonce token = (logs, Panic msg) ->
  let run := handler Quote Exchange MarshalIndent Unmarshal conf cfg
               state nonce r in
  run = ((verboseLog conf r
          ++ config_Exchange (url.Get (Query r) (CodeParam conf)) :: logs
          ++ [wg_Done])%list,
         Panic msg)
  /\ status (fst run) = None
  /\ responses (fst run) = 0%nat
  /\ dones (fst run) = 1%nat.
Proof.
  intros Hs He Hc run.
  pose proof (nonceCheck_logsOnly _ _ _ _ Hc) as L.
  assert (H : run = ((verboseLog conf r
          ++ config_Exchange (url.Get (Query r) (CodeParam conf)) :: logs
          ++ [wg_Done])%list,
         Panic msg)).
  { unfold run. rewrite handler_state_ok by exact Hs.
    rewrite verbose_eq, He, Hc. norm_trace. reflexivity. }
  rewrite H. split; [reflexivity|]. clear - L.
  readings. repeat split.
Qed.

Lemma handler_state_bad (conf : config) (cfg : oauth2.Config)
      (state nonce : string) (r : Request) :
  String.eqb (url.Get (Query r) "state") state = false ->
  handler Quote Exchange MarshalIndent Unmarshal conf cfg state nonce r
  = ((verboseLog conf r
      ++ [http_Error ("Invalid state: " ++ url.Get (Query r) "state") 401;
          wg_Done])%list,
     Return tt).
Proof.
  intros H. unfold handler, handlerBody. rewrite verbose_eq, H.
  cbn [negb]. norm_trace. reflexivity.
Qed.

Lemma nonceCheck_ends (nonce : string) (token : oauth2.Token) :
  exists logs,
    logsOnly logs = true
    /\ ((exists failed,
           nonceCheck Quote Unmarshal nonce token = (logs, Return failed))
        \/ (exists msg,
           nonceCheck Quote Unmarshal nonce token = (logs, Panic msg))).
Proof.
  destruct (nonceCheck Quote Unmarshal nonce token) as [logs res] eqn:E.
  exists logs. split; [exact (nonceCheck_logsOnly _ _ _ _ E)|].
  revert E. unfold nonceCheck, checkNonce.
  destruct (negb (String.eqb nonce ""));
    [|intros E; injection E as <- <-; left; eauto].
  destruct (oauth2.Extra token "id_token") as [| idToken |];
    try (intros E; injection E as <- <-; left; eauto).
  destruct (nth_error (strings.SplitN idToken "." 3) 1) as [segment|];
    [|intros E; injection E as <- <-; right; eauto].
  destruct (base64.DecodeString base64.RawURLEncoding segment)
    as [e | payload]; [intros E; injection E as <- <-; left; eauto|].
  destruct (Unmarshal payload) as [e | decoded];
    [intros E; injection E as <- <-; left; eauto|].
  destruct (negb (String.eqb decoded nonce));
    intros E; injection E as <- <-; left; eauto.
Qed.

(** X6.  Whatever the request and the collaborators do, the handler answers
    exactly once when it returns, with status 200, 401 or 503, and not
    at all when it panics; it calls the exchanger at most once and
    signals the wait group once. *)
Theorem handler_responds_once (conf : config) (cfg : oauth2.Config)
        (state nonce : string) (r : Request) :
  let run := handler Quote Exchange MarshalIndent Unmarshal conf cfg
               state nonce r in
  ((snd run = Return tt /\ responses (fst run) = 1%nat
    /\ (status (fst run) = Some 200%Z \/ status (fst run) = Some 401%Z
        \/ status (fst run) = Some 503%Z))
   \/ (exists msg, snd run = Panic msg) /\ responses (fst run) = 0%nat
      /\ status (fst run) = None)
  /\ (List.length (exchanges (fst run)) <= 1)%nat
  /\ dones (fst run) = 1%nat.
Proof.
  intros run. unfold run.
  destruct (String.eqb (url.Get (Query r) "state") state) eqn:Es.
  - apply String.eqb_eq in Es.
    rewrite handler_state_ok by exact Es. rewrite verbose_eq.
    destruct (Exchange cfg (url.Get (Query r) (CodeParam conf)))
      as [err | token].
    + norm_trace. readings. split; [left|]; auto.
    + destruct (nonceCheck_ends nonce token)
        as (logs & L & [[failed E] | [msg E]]); rewrite E.
      * destruct failed as [err|].
        -- norm_trace. readings. split; [left|]; auto.
        -- destruct (MarshalIndent token) as [err | tokenJSON];
             norm_trace; readings; (split; [left|]; auto).
      * norm_trace. readings. split; [right|]; eauto.
  - rewrite handler_state_bad by exact Es.
    readings. split; [left|]; auto.
Qed.

Lemma Get_absent (v : url.Values) (key : string) :
  hasKey v key = false -> url.Get v key = "".
Proof.
  induction v as [|[k vs] rest IH]; [reflexivity|].
  cbn [hasKey existsb fst url.Get]. intros H.
  apply orb_false_elim in H as [Hk Hr]. rewrite Hk. apply IH, Hr.
Qed.

(** X8.  A callback without [state] parameter is rejected whatever the run:
    the state of the flow is never empty. *)
Theorem callback_without_state_rejected (conf : config)
        (cfg : oauth2.Config) (src : rand.source) (nonce : string)
        (r : Request) :
  hasKey (Query r) "state" = false ->
  let run := handler Quote Exchange MarshalIndent Unmarshal conf cfg
               (stateOf conf src) nonce r in
  run = ((verboseLog conf r
          ++ [http_Error "Invalid state: " 401; wg_Done])%list, Return tt)
  /\ status (fst run) = Some 401%Z
  /\ exchanges (fst run) = [].
Proof.
  intros Hk run.
  assert (H : run = ((verboseLog conf r
          ++ [http_Error "Invalid state: " 401; wg_Done])%list, Return tt)).
  { unfold run. rewrite handler_state_bad.
    - rewrite (Get_absent _ _ Hk). reflexivity.
    - rewrite (Get_absent _ _ Hk), stateOf_eq.
      pose proof (drawn_not_empty (src (stateDraw conf))) as N.
      destruct (drawn (src (stateDraw conf)));
        [discriminate N | reflexivity]. }
  rewrite H. split; [reflexivity|]. clear.
  readings. repeat split.
Qed.

(** X9.  When the state matches, the exchanger is called exactly once, with
    the value of the configured code parameter; a callback without that
    parameter is exchanged with the empty code. *)
Theorem exchange_called_with_code_param (conf : config)
        (cfg : oauth2.Config) (state nonce : string) (r : Request) :
  url.Get (Query r) "state" = state ->
  let run := handler Quote Exchange MarshalIndent Unmarshal conf cfg
               state nonce r in
  exchanges (fst run) = [url.Get (Query r) (CodeParam conf)]
  /\ (hasKey (Query r) (CodeParam conf) = false ->
      exchanges (fst run) = [""]).
Proof.
  intros Hs run.
  assert (H : exchanges (fst run) = [url.Get (Query r) (CodeParam conf)]).
  { unfold run. rewrite handler_state_ok by exact Hs. rewrite verbose_eq.
    destruct (Exchange cfg (url.Get (Query r) (CodeParam conf)))
      as [err | token].
    - norm_trace. readings. reflexivity.
    - destruct (nonceCheck_ends nonce token)
        as (logs & L & [[failed E] | [msg E]]); rewrite E.
      + destruct failed as [err|].
        * norm_trace. readings. reflexivity.
        * destruct (MarshalIndent token) as [err | tokenJSON];
            norm_trace; readings; reflexivity.
      + norm_trace. readings. reflexivity. }
  split; [exact H|]. intros Hk. rewrite H, (Get_absent _ _ Hk). reflexivity.
Qed.

(** ** [checkNonce] *)

(** X10.  [checkNonce] returns [nil] exactly when the ID token is a string
    with a second segment that decodes to a payload whose nonce is the
    nonce of the flow. *)
Theorem checkNonce_accepts_iff (nonce : string) (token : oauth2.Token) :
  snd (checkNonce Quote Unmarshal nonce token) = Return None
  <-> exists idToken header segment rest payload,
      oauth2.Extra token "id_token" = oauth2.str idToken
      /\ strings.SplitN idToken "." 3 = header :: segment :: rest
      /\ base64.DecodeString base64.RawURLEncoding segment = inr payload
      /\ Unmarshal payload = inr nonce.
Proof.
  unfold checkNonce. split.
  - destruct (oauth2.Extra token "id_token") as [| idToken |];
      try discriminate.
    destruct (strings.SplitN idToken "." 3) as [|header [|segment rest]]
      eqn:ES; try discriminate.
    cbn [nth_error].
    destruct (base64.DecodeString base64.RawURLEncoding segment)
      as [e | payload] eqn:ED; [discriminate|].
    destruct (Unmarshal payload) as [e | decoded] eqn:EU; [discriminate|].
    destruct (String.eqb decoded nonce) eqn:EN; [|discriminate].
    apply String.eqb_eq in EN. subst decoded. intros _.
    exists idToken, header, segment, rest, payload. auto.
  - intros (idToken & header & segment & rest & payload
            & -> & -> & HD & HU).
    cbn [nth_error]. rewrite HD, HU, String.eqb_refl. reflexivity.
Qed.

(** X11.  Whenever the ID token has a second segment, [checkNonce] writes it
    to the log before decoding it, whether the check then passes or
    not, and whether verbose mode is on or not. *)
Theorem checkNonce_logs_payload_segment (nonce : string)
        (token : oauth2.Token) (idToken header segment : string)
        (rest : list string) :
  oauth2.Extra token "id_token" = oauth2.str idToken ->
  strings.SplitN idToken "." 3 = header :: segment :: rest ->
  fst (checkNonce Quote Unmarshal nonce token) = [log_Printf (Quote segment)].
Proof.
  intros HE HS. unfold checkNonce. rewrite HE, HS. cbn [nth_error].
  destruct (base64.DecodeString base64.RawURLEncoding segment)
    as [e | payload]; [reflexivity|].
  destruct (Unmarshal payload) as [e | decoded]; [reflexivity|].
  destruct (negb (String.eqb decoded nonce)); reflexivity.
Qed.

Lemma Cut_app (h rest : string) (c : ascii) :
  strings.ContainsByte h c = false ->
  strings.Cut (h ++ String c rest) c = (h, rest, true).
Proof.
  unfold strings.ContainsByte.
  induction h as [|a h IH]; cbn [append strings.Cut strings.IndexByte].
  - rewrite Ascii.eqb_refl. reflexivity.
  - destruct (Ascii.eqb a c); [discriminate|].
    destruct (strings.IndexByte h c); [discriminate|].
    intros _. rewrite IH; reflexivity.
Qed.

Lemma SplitN_jwt (header payload signature : string) :
  strings.ContainsByte header "." = false ->
  strings.ContainsByte payload "." = false ->
  strings.SplitN (jwt header payload signature) "." 3
  = [header; payload; signature].
Proof.
  intros Hh Hp. unfold jwt. cbn [strings.SplitN].
  change (header ++ "." ++ payload ++ "." ++ signature)
    with (header ++ String "." (payload ++ String "." signature)).
  rewrite (Cut_app _ _ _ Hh), (Cut_app _ _ _ Hp). reflexivity.
Qed.

Lemma SplitN_unsignedJwt (header payload : string) :
  strings.ContainsByte header "." = false ->
  strings.ContainsByte payload "." = false ->
  strings.SplitN (unsignedJwt header payload) "." 3 = [header; payload].
Proof.
  intros Hh Hp. unfold unsignedJwt. cbn [strings.SplitN].
  change (header ++ "." ++ payload) with (header ++ String "." payload).
  rewrite (Cut_app _ _ _ Hh), (Cut_not_found _ _ Hp). reflexivity.
Qed.

(** X12.  Only the payload segment of the ID token counts: the header and the
    signature are not looked at, and a token without signature is
    checked like a signed one. *)
Theorem checkNonce_ignores_header_and_signature
        (nonce header header' payload signature signature' : string) :
  strings.ContainsByte header "." = false ->
  strings.ContainsByte header' "." = false ->
  strings.ContainsByte payload "." = false ->
  checkNonce Quote Unmarshal nonce (tokenWith (jwt header payload signature))
  = checkNonce Quote Unmarshal nonce
      (tokenWith (jwt header' payload signature'))
  /\ checkNonce Quote Unmarshal nonce
       (tokenWith (jwt header payload signature))
     = checkNonce Quote Unmarshal nonce
         (tokenWith (unsignedJwt header' payload)).
Proof.
  intros Hh Hh' Hp.
  assert (X : forall s, oauth2.Extra (tokenWith s) "id_token" = oauth2.str s)
    by reflexivity.
  unfold checkNonce. rewrite !X.
  rewrite !SplitN_jwt, SplitN_unsignedJwt by assumption.
  split; reflexivity.
Qed.

End HandlerPaths.

Lemma hasKey_Set (key key' value : string) (v : url.Values) :
  hasKey (url.Set_ key value v) key'
  = (String.eqb key key' || hasKey v key').
Proof.
  induction v as [|[k vs] rest IH]; cbn [url.Set_ hasKey existsb fst].
  - reflexivity.
  - destruct (String.eqb k key) eqn:E.
    + cbn [hasKey existsb fst]. apply String.eqb_eq in E. subst k.
      destruct (String.eqb key key'); reflexivity.
    + destruct (String.ltb key k); cbn [hasKey existsb fst].
      * reflexivity.
      * fold (hasKey (url.Set_ key value rest) key'). rewrite IH.
        fold (hasKey rest key').
        destruct (String.eqb k key'), (String.eqb key key'); reflexivity.
Qed.

Lemma io_bind_ret {A B : Type} (a : A) (k : A -> io B) :
  io_bind (ret a) k = k a.
Proof. unfold io_bind, ret. destruct (k a). reflexivity. Qed.

Section Main.

Variable parseAuthority : string -> string + (option url.Userinfo * string).
Variable Quote : string -> string.
Variable Exchange : oauth2.Config -> string -> string + oauth2.Token.
Variable MarshalIndent : oauth2.Token -> string + string.
Variable Unmarshal : list byte -> string + string.
Variable rejected : string -> option string.
Variable dispatched : string -> Request -> bool.

(** [main] up to the line that it prints. *)
Lemma main_prints (file : defaultsFile) (arguments : list string)
      (src : rand.source) (srv : server) (r : Request)
      (conf : config) (u : url.URL) :
  loadConfig file arguments = Return conf ->
  url.Parse parseAuthority (Callback conf) = inr u ->
  readsReturn conf src = true ->
  let u' := defaultHost conf (defaultScheme u) in
  let cfg := oauthConfig conf u' in
  main parseAuthority Quote Exchange MarshalIndent Unmarshal
    rejected dispatched file arguments src srv r
  = io_bind (emit (visitLog cfg (stateOf conf src) (optsOf conf src)))
      (fun _ => serve Quote Exchange MarshalIndent Unmarshal
                  rejected dispatched srv conf cfg u'
                  (stateOf conf src) (nonceOf conf src) r).
Proof.
  intros HL HP HR u' cfg.
  unfold main. rewrite HL.
  change (lift (Return conf)) with (ret conf). rewrite io_bind_ret.
  unfold callbackURL. rewrite HP.
  change (lift (Return (defaultHost conf (defaultScheme u))))
    with (ret u'). rewrite io_bind_ret.
  rewrite (secrets_eq conf src HR).
  change (lift (Return (nonceOf conf src, optsOf conf src,
                        stateOf conf src)))
    with (ret (nonceOf conf src, optsOf conf src, stateOf conf src)).
  rewrite io_bind_ret. reflexivity.
Qed.

(** [serve] when the handler is registered, the server listens and the
    request is dispatched. *)
Lemma serve_listening (srv : server) (conf : config) (cfg : oauth2.Config)
      (u : url.URL) (state nonce : string) (r : Request) :
  HandleFunc rejected (url.Path u) = None ->
  listenErr srv = None ->
  dispatched (url.Path u) r = true ->
  serve Quote Exchange MarshalIndent Unmarshal rejected dispatched
    srv conf cfg u state nonce r
  = ((started conf u
      ++ fst (handler Quote Exchange MarshalIndent Unmarshal conf cfg
                state nonce r)
      ++ [wg_Wait; server_Shutdown])%list,
     match shutdownErr srv with
     | Some err => Exit 1 (ShutdownFailed err)
     | None => Return tt
     end).
Proof.
  intros P L D.
  destruct (handlerBody_ends Quote Exchange MarshalIndent Unmarshal
              conf cfg state nonce r) as (tr & res & B & Q & R).
  assert (H : handler Quote Exchange MarshalIndent Unmarshal conf cfg
                state nonce r = ((tr ++ [wg_Done])%list, res)).
  { unfold handler. rewrite B.
    destruct R as [-> | [msg ->]]; reflexivity. }
  assert (W : wg_counter (started conf u ++ tr ++ [wg_Done]) = 0%Z).
  { rewrite app_assoc, wg_counter_app. cbn [fold_left].
    rewrite wg_counter_app. rewrite wg_counter_quiet by exact Q.
    reflexivity. }
  unfold serve. rewrite P, L, D, H. fold (started conf u).
  assert (S : served ((tr ++ [wg_Done])%list, res)
              = ((tr ++ [wg_Done])%list, Return tt)).
  { destruct R as [-> | [msg ->]]; reflexivity. }
  rewrite S. unfold Wait. rewrite W. cbn [Z.eqb fst].
  destruct (shutdownErr srv); cbn; rewrite ?app_nil_r, <- ?app_assoc;
    reflexivity.
Qed.

(** X13.  A run of [main] from the configuration to the shutdown, when
    the reads of the random source return, the mux accepts the path of
    the callback URL as a pattern and dispatches the request to the
    handler: the URL is printed, the wait group armed, the handler
    registered and the server started; the one request is handled,
    whatever its outcome; then the wait returns and the server is shut
    down. *)
Theorem main_serves_one_request (file : defaultsFile)
        (arguments : list string) (src : rand.source) (srv : server)
        (r : Request) (conf : config) (u : url.URL) :
  loadConfig file arguments = Return conf ->
  url.Parse parseAuthority (Callback conf) = inr u ->
  readsReturn conf src = true ->
  HandleFunc rejected (url.Path u) = None ->
  listenErr srv = None ->
  dispatched (url.Path u) r = true ->
  shutdownErr srv = None ->
  let u' := defaultHost conf (defaultScheme u) in
  let cfg := oauthConfig conf u' in
  main parseAuthority Quote Exchange MarshalIndent Unmarshal
    rejected dispatched file arguments src srv r
  = ((visitLog cfg (stateOf conf src) (optsOf conf src)
      :: started conf u'
      ++ fst (handler Quote Exchange MarshalIndent Unmarshal conf cfg
                (stateOf conf src) (nonceOf conf src) r)
      ++ [wg_Wait; server_Shutdown])%list,
     Return tt).
Proof.
  intros HL HP HR HH Hl HD Hs u' cfg.
  rewrite (main_prints file arguments src srv r conf u HL HP HR).
  fold u'. fold cfg.
  rewrite serve_listening;
    [| unfold u'; rewrite Path_defaults; assumption
     | exact Hl
     | unfold u'; rewrite Path_defaults; assumption ].
  rewrite Hs. reflexivity.
Qed.

(** X14.  When the callback value does not parse, [main] exits with status 1
    before it prints the URL or starts the server. *)
Theorem main_bad_callback_exits (file : defaultsFile)
        (arguments : list string) (src : rand.source) (srv : server)
        (r : Request) (conf : config) (e : url.Error) :
  loadConfig file arguments = Return conf ->
  url.Parse parseAuthority (Callback conf) = inl e ->
  main parseAuthority Quote Exchange MarshalIndent Unmarshal
    rejected dispatched file arguments src srv r
  = ([], Exit 1 (BadCallback e)).
Proof.
  intros HL HP. unfold main, lift. rewrite HL. cbn [io_bind].
  unfold callbackURL. rewrite HP. reflexivity.
Qed.

(** X29.  When the mux does not accept the path of the callback URL as a
    pattern, [main] panics in [http.HandleFunc], after it has printed
    the URL and before the server is started; so it does for every
    callback URL without path. *)
Theorem main_panics_without_pattern (file : defaultsFile)
        (arguments : list string) (src : rand.source) (srv : server)
        (r : Request) (conf : config) (u : url.URL) :
  loadConfig file arguments = Return conf ->
  url.Parse parseAuthority (Callback conf) = inr u ->
  readsReturn conf src = true ->
  let u' := defaultHost conf (defaultScheme u) in
  let cfg := oauthConfig conf u' in
  (forall msg,
      HandleFunc rejected (url.Path u) = Some msg ->
      main parseAuthority Quote Exchange MarshalIndent Unmarshal
        rejected dispatched file arguments src srv r
      = ([visitLog cfg (stateOf conf src) (optsOf conf src);
          wg_Add 1; http_HandleFunc (url.Path u)],
         Panic msg))
  /\ (url.Path u = "" ->
      main parseAuthority Quote Exchange MarshalIndent Unmarshal
        rejected dispatched file arguments src srv r
      = ([visitLog cfg (stateOf conf src) (optsOf conf src);
          wg_Add 1; http_HandleFunc ""],
         Panic "http: invalid pattern")).
Proof.
  intros HL HP HR u' cfg.
  assert (G : forall msg,
             HandleFunc rejected (url.Path u) = Some msg ->
             main parseAuthority Quote Exchange MarshalIndent Unmarshal
               rejected dispatched file arguments src srv r
             = ([visitLog cfg (stateOf conf src) (optsOf conf src);
                 wg_Add 1; http_HandleFunc (url.Path u)],
                Panic msg)).
  { intros msg HH.
    rewrite (main_prints file arguments src srv r conf u HL HP HR).
    fold u'. fold cfg. unfold serve.
    unfold u' at 1 2. rewrite Path_defaults, HH. reflexivity. }
  split; [exact G|].
  intros E. rewrite (G "http: invalid pattern").
  - rewrite E. reflexivity.
  - unfold HandleFunc. rewrite E. reflexivity.
Qed.

(** X30.  When the mux does not dispatch the request to the handler, the
    handler does not run and [main] goes on waiting: the server is not
    shut down. *)
Theorem main_waits_for_its_callback (file : defaultsFile)
        (arguments : list string) (src : rand.source) (srv : server)
        (r : Request) (conf : config) (u : url.URL) :
  loadConfig file arguments = Return conf ->
  url.Parse parseAuthority (Callback conf) = inr u ->
  readsReturn conf src = true ->
  HandleFunc rejected (url.Path u) = None ->
  listenErr srv = None ->
  dispatched (url.Path u) r = false ->
  let u' := defaultHost conf (defaultScheme u) in
  let cfg := oauthConfig conf u' in
  main parseAuthority Quote Exchange MarshalIndent Unmarshal
    rejected dispatched file arguments src srv r
  = ((visitLog cfg (stateOf conf src) (optsOf conf src)
      :: started conf u')%list,
     Blocked).
Proof.
  intros HL HP HR HH Hl HD u' cfg.
  rewrite (main_prints file arguments src srv r conf u HL HP HR).
  fold u'. fold cfg. unfold serve, started.
  unfold u'. rewrite !Path_defaults, HH, Hl, HD. reflexivity.
Qed.

(** X31.  When a read of the random source fails and the Go release
    treats this as fatal, [main] ends with status 2 before it prints the
    URL, with the error of the first such read: no state is made up. *)
Theorem main_exits_on_failed_read (file : defaultsFile)
        (arguments : list string) (src : rand.source) (srv : server)
        (r : Request) (conf : config) (u : url.URL) :
  loadConfig file arguments = Return conf ->
  url.Parse parseAuthority (Callback conf) = inr u ->
  readsReturn conf src = false ->
  exists n,
    (n <= stateDraw conf)%nat
    /\ returns (src n) = false
    /\ main parseAuthority Quote Exchange MarshalIndent Unmarshal
         rejected dispatched file arguments src srv r
       = ([], Exit 2 (RandomReadFailed (rand.err (src n)))).
Proof.
  intros HL HP HR.
  destruct (secrets_crashes conf src HR) as (n & Hn & Rn & E).
  exists n. split; [exact Hn|]. split; [exact Rn|].
  unfold main. rewrite HL.
  change (lift (Return conf)) with (ret conf). rewrite io_bind_ret.
  unfold callbackURL. rewrite HP.
  change (lift (Return (defaultHost conf (defaultScheme u))))
    with (ret (defaultHost conf (defaultScheme u))).
  rewrite io_bind_ret, E. reflexivity.
Qed.

End Main.

Lemma eqb_append_l (a b : string) :
  String.eqb a "" = false -> String.eqb (a ++ b) "" = false.
Proof. destruct a; [discriminate | reflexivity]. Qed.

Lemma String_not_empty (u : url.URL) :
  url.Scheme u <> "" -> String.eqb (url.String_ u) "" = false.
Proof.
  intros N. unfold url.String_.
  assert (B : String.eqb (url.Scheme u ++ ":") "" = false).
  { destruct (url.Scheme u); reflexivity. }
  rewrite (proj2 (String.eqb_neq _ _) N).
  repeat match goal with
         | |- context [if ?b then _ else _] => destruct b
         | |- context [match ?x with _ => _ end] => destruct x
         end;
    repeat (apply eqb_append_l); apply String.eqb_neq; exact N.
Qed.

Lemma Scheme_defaults (conf : config) (u : url.URL) :
  url.Scheme (defaultHost conf (defaultScheme u)) <> "".
Proof.
  unfold defaultHost, defaultScheme.
  destruct (String.eqb (url.Scheme u) "") eqn:E.
  - change (url.Host (url.set_Scheme "http" u)) with (url.Host u).
    destruct (String.eqb (url.Host u) ""); discriminate.
  - apply String.eqb_neq in E.
    destruct (String.eqb (url.Host u) ""); exact E.
Qed.

(** X15.  The authorization URL that [main] prints: the authorization URL
    of the provider, a question mark, or an ampersand when it has a
    query already, and the parameters in the order of their names, each
    value query-escaped: offline access, the client, the nonce of the
    flow exactly in nonce mode, the redirect URL, the response type
    [code], the scope as one value, and the state of the flow. *)
Theorem authorization_url_values (conf : config) (u : url.URL)
        (src : rand.source) :
  let u' := defaultHost conf (defaultScheme u) in
  let cfg := oauthConfig conf u' in
  oauth2.AuthCodeURL cfg (stateOf conf src) (optsOf conf src)
  = AuthURL conf
    ++ (if strings.ContainsByte (AuthURL conf) "?" then "&" else "?")
    ++ "access_type=offline"
    ++ "&client_id=" ++ url.QueryEscape (ClientID conf)
    ++ (if OIDCNonce conf
        then "&nonce=" ++ url.QueryEscape (nonceOf conf src) else "")
    ++ "&redirect_uri=" ++ url.QueryEscape (url.String_ u')
    ++ "&response_type=code"
    ++ "&scope=" ++ url.QueryEscape (Scope conf)
    ++ "&state=" ++ url.QueryEscape (stateOf conf src).
Proof.
  intros u' cfg. unfold oauth2.AuthCodeURL.
  change (oauth2.AuthURL (oauth2.Endpoint_ cfg)) with (AuthURL conf).
  f_equal. f_equal.
  unfold oauth2.authValues, cfg.
  cbn [oauthConfig oauth2.Scopes oauth2.ClientID oauth2.RedirectURL
       strings.Join].
  rewrite (drawn_not_empty _ : String.eqb (stateOf conf src) "" = false).
  rewrite (String_not_empty u' (Scheme_defaults conf u)).
  unfold optsOf, nonceOf.
  generalize (url.String_ u'), (stateOf conf src), (drawn (src 0%nat)),
    (ClientID conf), (Scope conf).
  intros redirect state nonce id scope.
  destruct (OIDCNonce conf);
    cbn [fold_left fst snd oauth2.AccessTypeOffline oauth2.SetAuthURLParam];
    unfold url.Encode, url.QueryEscape;
    cbn -[url.escape append];
    repeat match goal with
           | |- context [url.escape (String ?c ?s) url.encodeQueryComponent] =>
               let v := eval vm_compute in
                 (url.escape (String c s) url.encodeQueryComponent) in
               change (url.escape (String c s) url.encodeQueryComponent)
                 with v
           end;
    rewrite !append_assoc; reflexivity.
Qed.


(** ** The logging transport *)

Section RoundTrip.

Variable duration : string.
Variable requestLine : transport.Request -> string -> string.

Lemma rebuffered (r : transport.Request) (b : transport.Body) :
  transport.Body_ r = Some b -> transport.readErr b = None ->
  transport.set_Body (transport.NewReader (transport.unread b)) r = r.
Proof.
  destruct r as [m u h ob], b as [data e]. cbn. intros -> ->. reflexivity.
Qed.

Lemma rebuffered_response (res : transport.Response) :
  transport.readErr (transport.ResBody res) = None ->
  transport.set_ResBody
    (transport.NewReader (transport.unread (transport.ResBody res))) res
  = res.
Proof.
  destruct res as [c [data e]]. cbn. intros ->. reflexivity.
Qed.

(** X16.  The logging transport is transparent: when both bodies can be read,
    it hands the request on with its body unread again, returns the
    response of the inner transport with its body unread again, and adds
    one log line before and one after the calls of the inner transport. *)
Theorem RoundTrip_transparent (l : transport.loggingTransport)
        (r : transport.Request) (b : transport.Body)
        (tr : list event) (res : transport.Response) :
  transport.Body_ r = Some b ->
  transport.readErr b = None ->
  transport.Transport l r = (tr, Return (Some res, None)) ->
  transport.readErr (transport.ResBody res) = None ->
  transport.roundTrip duration requestLine l r
  = ((log_Printf (requestLine r (transport.unread b)) :: tr
      ++ [responseLog duration res])%list,
     Return (Some res, None)).
Proof.
  intros Hb He Ht Hr. unfold transport.roundTrip.
  rewrite Hb. unfold transport.ReadAll. rewrite He.
  rewrite (rebuffered r b Hb He), Ht.
  cbn [io_bind emit ret app]. rewrite Hr.
  rewrite (rebuffered_response res Hr).
  cbn [io_bind emit ret app]. rewrite ?app_nil_r, <- ?app_assoc. reflexivity.
Qed.

(** X17.  When the request body cannot be read, the error is returned at
    once: nothing is logged and the inner transport is not called. *)
Theorem RoundTrip_unreadable_request (l : transport.loggingTransport)
        (r : transport.Request) (b : transport.Body) (e : string) :
  transport.Body_ r = Some b ->
  transport.readErr b = Some e ->
  transport.roundTrip duration requestLine l r = ([], Return (None, Some e)).
Proof.
  intros Hb He. unfold transport.roundTrip.
  rewrite Hb. unfold transport.ReadAll. rewrite He. reflexivity.
Qed.

(** X18.  An error of the inner transport is logged and returned as it is,
    with the response that came with it. *)
Theorem RoundTrip_inner_error (l : transport.loggingTransport)
        (r : transport.Request) (b : transport.Body)
        (tr : list event) (res : option transport.Response) (e : string) :
  transport.Body_ r = Some b ->
  transport.readErr b = None ->
  transport.Transport l r = (tr, Return (res, Some e)) ->
  transport.roundTrip duration requestLine l r
  = ((log_Printf (requestLine r (transport.unread b)) :: tr
      ++ [errorLog duration e])%list,
     Return (res, Some e)).
Proof.
  intros Hb He Ht. unfold transport.roundTrip.
  rewrite Hb. unfold transport.ReadAll. rewrite He.
  rewrite (rebuffered r b Hb He), Ht.
  destruct res; cbn [io_bind emit ret app];
    rewrite ?app_nil_r, <- ?app_assoc; reflexivity.
Qed.

(** X19.  When the body of the response cannot be read, the round trip that
    succeeded is reported as failed: the response is dropped and no
    response line is logged. *)
Theorem RoundTrip_unreadable_response (l : transport.loggingTransport)
        (r : transport.Request) (b : transport.Body)
        (tr : list event) (res : transport.Response) (e : string) :
  transport.Body_ r = Some b ->
  transport.readErr b = None ->
  transport.Transport l r = (tr, Return (Some res, None)) ->
  transport.readErr (transport.ResBody res) = Some e ->
  transport.roundTrip duration requestLine l r
  = ((log_Printf (requestLine r (transport.unread b)) :: tr)%list,
     Return (None, Some e)).
Proof.
  intros Hb He Ht Hr. unfold transport.roundTrip.
  rewrite Hb. unfold transport.ReadAll. rewrite He.
  rewrite (rebuffered r b Hb He), Ht.
  cbn [io_bind emit ret app]. rewrite Hr.
  cbn [io_bind emit ret app]. rewrite ?app_nil_r, <- ?app_assoc. reflexivity.
Qed.

(** X20.  A request without body makes the transport panic before it logs or
    sends anything. *)
Theorem RoundTrip_nil_body_panics (l : transport.loggingTransport)
        (r : transport.Request) :
  transport.Body_ r = None ->
  transport.roundTrip duration requestLine l r
  = ([], Panic transport.nilDereference).
Proof.
  intros Hb. unfold transport.roundTrip. rewrite Hb. reflexivity.
Qed.

End RoundTrip.

Lemma RoundTrip_transparent_witness :
  transport.RoundTripWithHeaders "12ms" (answering tokenResponse) tokenRequest
  = ([log_Printf (transport.requestTextWithHeaders tokenRequest "code=c0de");
      responseLog "12ms" tokenResponse],
     Return (Some tokenResponse, None)).
Proof.
  exact (RoundTrip_transparent "12ms" transport.requestTextWithHeaders
           (answering tokenResponse) tokenRequest
           (transport.NewReader "code=c0de") [] tokenResponse
           eq_refl eq_refl eq_refl eq_refl).
Defined.

Lemma RoundTrip_unreadable_request_witness :
  transport.RoundTrip "12ms" (answering tokenResponse) brokenRequest
  = ([], Return (None, Some "unexpected EOF")).
Proof.
  exact (RoundTrip_unreadable_request "12ms" transport.requestText
           (answering tokenResponse) brokenRequest _ "unexpected EOF"
           eq_refl eq_refl).
Defined.

Lemma RoundTrip_inner_error_witness :
  transport.RoundTrip "12ms" (failing "connection refused") tokenRequest
  = ([log_Printf (transport.requestText tokenRequest "code=c0de");
      errorLog "12ms" "connection refused"],
     Return (None, Some "connection refused")).
Proof.
  exact (RoundTrip_inner_error "12ms" transport.requestText
           (failing "connection refused") tokenRequest
           (transport.NewReader "code=c0de") [] None "connection refused"
           eq_refl eq_refl eq_refl).
Defined.

Lemma RoundTrip_unreadable_response_witness :
  transport.RoundTrip "12ms" (answering truncatedResponse) tokenRequest
  = ([log_Printf (transport.requestText tokenRequest "code=c0de")],
     Return (None, Some "unexpected EOF")).
Proof.
  exact (RoundTrip_unreadable_response "12ms" transport.requestText
           (answering truncatedResponse) tokenRequest
           (transport.NewReader "code=c0de") [] truncatedResponse
           "unexpected EOF" eq_refl eq_refl eq_refl eq_refl).
Defined.

Lemma RoundTrip_nil_body_panics_witness :
  transport.RoundTrip "12ms" (answering tokenResponse) bodylessRequest
  = ([], Panic transport.nilDereference).
Proof.
  exact (RoundTrip_nil_body_panics "12ms" transport.requestText
           (answering tokenResponse) bodylessRequest eq_refl).
Defined.

(** ** The loop of [flag.Parse] *)

Section Step.

Context {C : Type}.

(** One round of the loop of [f.Parse]. *)
Lemma parseArgs_cons (fl : list (flag.Flag C)) (s : string)
      (rest : list string) (c : C) (act : list string) :
  flag.parseArgs fl (s :: rest) c act
  = match classify s with
    | NonFlag => inr (c, act, s :: rest)
    | Terminator => inr (c, act, rest)
    | BadSyntax => inl (flag.ErrBadSyntax s)
    | FlagArg name value hasValue =>
        match flag.lookup name fl with
        | None =>
            if String.eqb name "help" || String.eqb name "h"
            then inl flag.ErrHelp
            else inl (flag.ErrNotDefined name)
        | Some fg =>
            if flag.IsBoolFlag (flag.Val fg) then
              match flag.Set_ (flag.Val fg)
                      (if hasValue then value else "true") c with
              | None => inl (flag.ErrInvalidBoolean value name)
              | Some c' => flag.parseArgs fl rest c' (act ++ [name])%list
              end
            else if hasValue then
              match flag.Set_ (flag.Val fg) value c with
              | None => inl (flag.ErrInvalidValue value name)
              | Some c' => flag.parseArgs fl rest c' (act ++ [name])%list
              end
            else
              match rest with
              | [] => inl (flag.ErrNeedsArgument name)
              | value :: rest' =>
                  match flag.Set_ (flag.Val fg) value c with
                  | None => inl (flag.ErrInvalidValue value name)
                  | Some c' =>
                      flag.parseArgs fl rest' c' (act ++ [name])%list
                  end
              end
        end
    end.
Proof.
  unfold classify. cbn [flag.parseArgs].
  repeat match goal with
         | |- context [match ?x with _ => _ end] =>
             is_var x; destruct x
         end; try reflexivity.
  all: cbv zeta.
  all: destruct (String.eqb _ "--"); [reflexivity|].
  all: repeat match goal with
         | |- context [match flag.flagName ?x with _ => _ end] =>
             destruct (flag.flagName x)
         | |- context [match ?x with _ => _ end] =>
             is_var x; destruct x
         end; try reflexivity.
  all: destruct (flag.splitValue _) as [[name value] hasValue]; reflexivity.
Qed.

End Step.

(** ** [loadConfig] and the command line *)

Lemma formal_defineFlags (conf : config) :
  flag.formal (defineFlags conf) = configFlags.
Proof. reflexivity. Qed.

Lemma actual_defineFlags (conf : config) :
  flag.actual (defineFlags conf) = [].
Proof. reflexivity. Qed.

Lemma readDefaults_fileDefaults (file : defaultsFile) :
  unreadableOrMalformed file = false ->
  readDefaults file builtin = Return (fileDefaults file).
Proof. destruct file; try discriminate; reflexivity. Qed.

(** [loadConfig] in terms of the loop of [flag.Parse]. *)
Lemma loadConfig_parseArgs (file : defaultsFile) (arguments : list string) :
  unreadableOrMalformed file = false ->
  loadConfig file arguments
  = match flag.parseArgs configFlags arguments
            (set_TokenURL (AuthURL (fileDefaults file)) (fileDefaults file))
            [] with
    | inl flag.ErrHelp => Exit 0 (FlagError flag.ErrHelp)
    | inl e => Exit 2 (FlagError e)
    | inr (conf, _, _) => bind (checkRequired conf) (fun _ => Return conf)
    end.
Proof.
  intros H. unfold loadConfig. rewrite (readDefaults_fileDefaults file H).
  cbn [bind]. unfold parseFlags, flag.Parse.
  rewrite formal_defineFlags, actual_defineFlags, defineFlags_vars.
  destruct (flag.parseArgs configFlags arguments _ [])
    as [e | [[c act] rest]]; [destruct e|]; reflexivity.
Qed.

Lemma classify_NonFlag (x : string) :
  strings.HasPrefix x "-" = false \/ x = "-" -> classify x = NonFlag.
Proof.
  intros [H | ->]; [|reflexivity].
  destruct x as [|a x]; [reflexivity|].
  unfold strings.HasPrefix in H. cbn [String.prefix] in H.
  destruct (ascii_dec "-" a) as [<- | Hne].
  - destruct x; discriminate H.
  - destruct a as [[] [] [] [] [] [] [] []]; try reflexivity.
    exfalso. apply Hne. reflexivity.
Qed.

(** Arguments after the flags: an argument that is no flag, or the
    terminator, stops the loop of [flag.Parse], unless the flag before it
    takes it as its value. *)
Lemma parseArgs_cut {C : Type} (fl : list (flag.Flag C)) (x : string)
      (rest : list string) (n : nat) :
  classify x = NonFlag \/ classify x = Terminator ->
  forall (pre : list string) (c : C) (act : list string),
    (List.length pre <= n)%nat ->
    match flag.parseArgs fl pre c act with
    | inl (flag.ErrNeedsArgument _) => True
    | inl e => flag.parseArgs fl (pre ++ x :: rest) c act = inl e
    | inr (c', act', _) =>
        exists rest',
          flag.parseArgs fl (pre ++ x :: rest) c act = inr (c', act', rest')
    end.
Proof.
  intros Hx. induction n as [|n IH]; intros pre c act Hn.
  - destruct pre; [|cbn in Hn; lia].
    cbn [app]. rewrite parseArgs_cons.
    destruct Hx as [-> | ->]; cbn [flag.parseArgs]; eauto.
  - destruct pre as [|s tl].
    { cbn [app]. rewrite parseArgs_cons.
      destruct Hx as [-> | ->]; cbn [flag.parseArgs]; eauto. }
    cbn [List.length] in Hn. rewrite <- app_comm_cons, !parseArgs_cons.
    destruct (classify s) as [| | | name value hasValue]; eauto.
    destruct (flag.lookup name fl) as [fg|].
    + destruct (flag.IsBoolFlag (flag.Val fg)).
      { destruct (flag.Set_ (flag.Val fg) _ c) as [c2|];
          [apply IH; lia | reflexivity]. }
      destruct hasValue.
      { destruct (flag.Set_ (flag.Val fg) value c) as [c2|];
          [apply IH; lia | reflexivity]. }
      destruct tl as [|v tl']; [exact I|].
      rewrite <- app_comm_cons.
      destruct (flag.Set_ (flag.Val fg) v c) as [c2|];
        [apply IH; cbn [List.length] in Hn; lia | reflexivity].
    + destruct (String.eqb name "help" || String.eqb name "h");
        reflexivity.
Qed.

Lemma classify_positional (x : string) :
  strings.HasPrefix x "-" = false \/ x = "-" \/ x = "--" ->
  classify x = NonFlag \/ classify x = Terminator.
Proof.
  intros [H | [H | ->]].
  - left. apply classify_NonFlag. left. exact H.
  - left. apply classify_NonFlag. right. exact H.
  - right. reflexivity.
Qed.

(** X21.  The first argument that is no flag ends the flags, wherever it
    stands: it and all that follows are ignored, flags included; so
    does the terminator ["--"].  The arguments before it must not end in
    a flag that lacks its value, which would take the argument as its
    value. *)
Theorem positional_argument_ends_flags (file : defaultsFile)
        (pre : list string) (x : string) (rest : list string) :
  strings.HasPrefix x "-" = false \/ x = "-" \/ x = "--" ->
  (forall name,
      loadConfig file pre
      <> Exit 2 (FlagError (flag.ErrNeedsArgument name))) ->
  loadConfig file (pre ++ x :: rest) = loadConfig file pre
  /\ loadConfig file (x :: rest) = loadConfig file [].
Proof.
  intros H N.
  destruct (unreadableOrMalformed file) eqn:F.
  { destruct file; try discriminate F; split; reflexivity. }
  rewrite !loadConfig_parseArgs in * by exact F.
  apply classify_positional in H.
  split.
  - pose proof (parseArgs_cut configFlags x rest (List.length pre) H pre
                  (set_TokenURL (AuthURL (fileDefaults file))
                     (fileDefaults file)) [] (le_n _)) as P.
    destruct (flag.parseArgs configFlags pre _ [])
      as [e | [[c act] rest0]].
    + destruct e; try (rewrite P; reflexivity).
      exfalso. exact (N name eq_refl).
    + destruct P as [rest' ->]. reflexivity.
  - rewrite parseArgs_cons. destruct H as [-> | ->]; reflexivity.
Qed.

(** X22.  A help flag in front ends the process with status 0, whatever
    follows and whether or not the required flags are given. *)
Theorem help_flag_exits_with_status_0 (file : defaultsFile)
        (h : string) (rest : list string) :
  unreadableOrMalformed file = false ->
  In h helpFlags ->
  loadConfig file (h :: rest) = Exit 0 (FlagError flag.ErrHelp).
Proof.
  intros F H. rewrite loadConfig_parseArgs by exact F.
  rewrite parseArgs_cons.
  destruct H as [<- | [<- | [<- | [<- | []]]]]; reflexivity.
Qed.

(** X23.  With no argument on the command line, every field is the value of
    the defaults file when the file has the key and the built-in default
    otherwise, except for the token URL, which is the authorization
    URL. *)
Theorem loadConfig_without_flags (v : fileValues) (conf : config) :
  loadConfig (Decoded v) [] = Return conf ->
  Interface conf = orElse (json_interface v) "127.0.0.1"
  /\ Port conf = orElse (json_port v) 8081%Z
  /\ Callback conf = orElse (json_callback v) "/oauth/callback"
  /\ ClientID conf = orElse (json_client_id v) ""
  /\ ClientSecret conf = orElse (json_client_secret v) ""
  /\ AuthURL conf = orElse (json_auth_url v) ""
  /\ TokenURL conf = orElse (json_auth_url v) ""
  /\ CodeParam conf = orElse (json_code_param v) "code"
  /\ Scope conf = orElse (json_scopes v) ""
  /\ OIDCNonce conf = orElse (json_nonce v) false
  /\ Verbose conf = orElse (json_verbose v) false
  /\ ClientID conf <> "" /\ ClientSecret conf <> "" /\ AuthURL conf <> "".
Proof.
  rewrite loadConfig_parseArgs by reflexivity. cbn [flag.parseArgs].
  destruct (checkRequired_eq
              (set_TokenURL (AuthURL (fileDefaults (Decoded v)))
                 (fileDefaults (Decoded v)))) as [[R [name C]] | [R C]];
    rewrite C; cbn [bind]; [discriminate|].
  intros E. injection E as <-.
  unfold requiredEmpty in R.
  apply orb_false_elim in R as [R R4]. apply orb_false_elim in R as [R R3].
  apply orb_false_elim in R as [R1 R2].
  apply String.eqb_neq in R1, R3, R4.
  repeat split; assumption.
Qed.

(** X24.  The four required flags on the command line win over the defaults
    file: the configuration is that of the file, or the built-in one
    without file, with the four values of the command line. *)
Theorem required_flags_override_file (file : defaultsFile)
        (id secret auth token : string) :
  unreadableOrMalformed file = false ->
  id <> "" -> secret <> "" -> auth <> "" -> token <> "" ->
  loadConfig file (requiredFlags id secret auth token)
  = Return (set_TokenURL token
              (set_AuthURL auth
                 (set_ClientSecret secret
                    (set_ClientID id (fileDefaults file))))).
Proof.
  intros F Hi Hs Ha Ht. rewrite loadConfig_parseArgs by exact F.
  unfold requiredFlags.
  rewrite parseArgs_cons.
  change (classify "-id") with (FlagArg "id" "" false).
  cbv beta iota.
  rewrite (eq_refl : flag.lookup "id" configFlags
                     = Some {| flag.Name := "id";
                               flag.Val := flag.stringValue set_ClientID |}).
  cbn [flag.IsBoolFlag flag.Val flag.Set_].
  rewrite parseArgs_cons.
  change (classify "-secret") with (FlagArg "secret" "" false).
  cbv beta iota.
  rewrite (eq_refl : flag.lookup "secret" configFlags
                     = Some {| flag.Name := "secret";
                               flag.Val := flag.stringValue set_ClientSecret |}).
  cbn [flag.IsBoolFlag flag.Val flag.Set_].
  rewrite parseArgs_cons.
  change (classify "-auth") with (FlagArg "auth" "" false).
  cbv beta iota.
  rewrite (eq_refl : flag.lookup "auth" configFlags
                     = Some {| flag.Name := "auth";
                               flag.Val := flag.stringValue set_AuthURL |}).
  cbn [flag.IsBoolFlag flag.Val flag.Set_].
  rewrite parseArgs_cons.
  change (classify "-token") with (FlagArg "token" "" false).
  cbv beta iota.
  rewrite (eq_refl : flag.lookup "token" configFlags
                     = Some {| flag.Name := "token";
                               flag.Val := flag.stringValue set_TokenURL |}).
  cbn [flag.IsBoolFlag flag.Val flag.Set_ flag.parseArgs].
  unfold checkRequired, required.
  cbn [AuthURL TokenURL ClientID ClientSecret set_TokenURL set_AuthURL
       set_ClientSecret set_ClientID].
  rewrite (not_empty _ Hi), (not_empty _ Hs), (not_empty _ Ha),
    (not_empty _ Ht).
  cbn [bind]. destruct (fileDefaults file). reflexivity.
Qed.

(** ** How [loadConfig] ends *)

Lemma set_TokenURL_twice (a v : string) (c : config) :
  set_TokenURL v (set_TokenURL a c) = set_TokenURL v c.
Proof. reflexivity. Qed.










(** ** Flags and their fields *)

Lemma Set_kept (name value : string) (fg : flag.Flag config)
      (c c' c0 : config) (act : list string) :
  flag.lookup name configFlags = Some fg ->
  flag.Set_ (flag.Val fg) value c = Some c' ->
  kept act c0 c ->
  kept (act ++ [name]) c0 c'.
Proof.
  intros L S K. unfold configFlags in L. cbn [flag.lookup flag.Name] in L.
  unfold kept, keptUnless in *.
  destruct K as (K1 & K2 & K3 & K4 & K5 & K6 & K7 & K8 & K9 & K10 & K11).
  repeat match type of L with
         | (if String.eqb ?n name then _ else _) = _ =>
             let E := fresh "E" in
             destruct (String.eqb n name) eqn:E;
             [ apply String.eqb_eq in E; subst name; injection L as <-;
               cbn [flag.Val flag.Set_] in S;
               try (destruct (strconv.ParseInt value); [|discriminate S]);
               try (destruct (strconv.ParseBool value); [|discriminate S]);
               cbn [option_map] in S; injection S as <-;
               repeat split;
               first [ left; apply in_or_app; right; left; reflexivity
                     | match goal with
                       | H : _ \/ _ |- _ =>
                           destruct H as [H | H];
                           [ left; apply in_or_app; left; exact H
                           | right; exact H ]
                       end ]
             | ]
         end.
  discriminate L.
Qed.

Lemma parseArgs_kept (c0 : config) (n : nat) :
  forall (arguments : list string) (c : config) (act : list string)
         (c' : config) (act' rest : list string),
    (List.length arguments <= n)%nat ->
    flag.parseArgs configFlags arguments c act = inr (c', act', rest) ->
    kept act c0 c -> kept act' c0 c'.
Proof.
  induction n as [|n IH]; intros arguments c act c' act' rest Hn.
  - destruct arguments; [|cbn in Hn; lia].
    cbn [flag.parseArgs]. intros E K. injection E as <- <- <-. exact K.
  - destruct arguments as [|s tl].
    { cbn [flag.parseArgs]. intros E K. injection E as <- <- <-. exact K. }
    cbn [List.length] in Hn. rewrite parseArgs_cons.
    destruct (classify s) as [| | | name value hasValue].
    + intros E K. injection E as <- <- <-. exact K.
    + intros E K. injection E as <- <- <-. exact K.
    + discriminate.
    + destruct (flag.lookup name configFlags) as [fg|] eqn:L.
      * destruct (flag.IsBoolFlag (flag.Val fg)).
        { destruct (flag.Set_ (flag.Val fg) _ c) as [c2|] eqn:S;
            [|discriminate].
          intros E K. apply (IH tl c2 (act ++ [name])%list c' act' rest);
            [lia | exact E |].
          exact (Set_kept _ _ _ _ _ _ _ L S K). }
        destruct hasValue.
        { destruct (flag.Set_ (flag.Val fg) value c) as [c2|] eqn:S;
            [|discriminate].
          intros E K. apply (IH tl c2 (act ++ [name])%list c' act' rest);
            [lia | exact E |].
          exact (Set_kept _ _ _ _ _ _ _ L S K). }
        destruct tl as [|v tl']; [discriminate|].
        destruct (flag.Set_ (flag.Val fg) v c) as [c2|] eqn:S;
          [|discriminate].
        intros E K. cbn [List.length] in Hn.
        apply (IH tl' c2 (act ++ [name])%list c' act' rest);
          [lia | exact E |].
        exact (Set_kept _ _ _ _ _ _ _ L S K).
      * destruct (String.eqb name "help" || String.eqb name "h");
          discriminate.
Qed.

(** X25.  A flag writes its own field only: in the configuration that
    [loadConfig] returns, every field whose flag the command line does
    not set has the value it had when the flags were defined. *)
Theorem field_kept_without_its_flag (file : defaultsFile)
        (arguments : list string) (conf : config) :
  loadConfig file arguments = Return conf ->
  kept (flagsGiven file arguments)
       (flag.vars (defineFlags (fileDefaults file))) conf.
Proof.
  intros H.
  assert (F : unreadableOrMalformed file = false).
  { destruct file; try reflexivity; discriminate H. }
  rewrite loadConfig_parseArgs in H by exact F.
  unfold flagsGiven. rewrite defineFlags_vars.
  destruct (flag.parseArgs configFlags arguments _ [])
    as [e | [[c act] rest]] eqn:E.
  - destruct e; discriminate H.
  - assert (conf = c).
    { destruct (checkRequired c); cbn [bind] in H; try discriminate H.
      injection H as <-. reflexivity. }
    subst c.
    apply (parseArgs_kept _ (List.length arguments) arguments _ [] conf act
             rest (le_n _) E).
    unfold kept, keptUnless. repeat split; right; reflexivity.
Qed.

Lemma field_kept_without_its_flag_witness :
  kept ["scope"] (flag.vars (defineFlags (Decode bothEndpoints builtin)))
       (set_Scope "read"
          (flag.vars (defineFlags (Decode bothEndpoints builtin)))).
Proof.
  apply (field_kept_without_its_flag (Decoded bothEndpoints) oneScope).
  vm_compute. reflexivity.
Defined.

(** ** The two variants of the program *)

Lemma plain_formal (conf : plain.config) :
  flag.formal (plain.defineFlags conf) = plainFlags.
Proof. reflexivity. Qed.

Lemma plain_readDefaults (file : defaultsFile) :
  unreadableOrMalformed file = false ->
  plain.readDefaults file plain.builtin = Return (plainDefaults file).
Proof. destruct file; try discriminate; reflexivity. Qed.

Lemma plain_loadConfig_parseArgs (file : defaultsFile)
      (arguments : list string) :
  unreadableOrMalformed file = false ->
  plain.loadConfig file arguments
  = match flag.parseArgs plainFlags arguments
            (plain.set_TokenURL (plain.AuthURL (plainDefaults file))
               (plainDefaults file)) [] with
    | inl flag.ErrHelp => Exit 0 (FlagError flag.ErrHelp)
    | inl e => Exit 2 (FlagError e)
    | inr (conf, _, _) =>
        bind (plain.checkRequired conf) (fun _ => Return conf)
    end.
Proof.
  intros H. unfold plain.loadConfig. rewrite (plain_readDefaults file H).
  cbn [bind]. unfold plain.parseFlags, flag.Parse.
  rewrite plain_formal, plain_defineFlags_vars.
  change (flag.actual (plain.defineFlags (plainDefaults file))) with (@nil string).
  destruct (flag.parseArgs plainFlags arguments _ [])
    as [e | [[c act] rest]]; [destruct e|]; reflexivity.
Qed.

Section Embedding.

Variable codeParam : string.
Variable nonce : bool.

(** Every flag of the variant is a flag of the full program, of the same
    kind, that stores into the same field. *)
Lemma lookup_embed (name : string) (fg : flag.Flag plain.config) :
  flag.lookup name plainFlags = Some fg ->
  exists fg' : flag.Flag config,
    flag.lookup name configFlags = Some fg'
    /\ flag.IsBoolFlag (flag.Val fg') = flag.IsBoolFlag (flag.Val fg)
    /\ forall value p,
        flag.Set_ (flag.Val fg') value (embed codeParam nonce p)
        = option_map (embed codeParam nonce)
            (flag.Set_ (flag.Val fg) value p).
Proof.
  intros L. unfold plainFlags in L. cbn [flag.lookup flag.Name] in L.
  repeat match type of L with
         | (if String.eqb ?n name then _ else _) = _ =>
             let E := fresh "E" in
             destruct (String.eqb n name) eqn:E;
             [ apply String.eqb_eq in E; subst name; injection L as <-;
               eexists; split; [reflexivity|]; split; [reflexivity|];
               intros value p; cbn [flag.Val flag.Set_];
               try destruct (strconv.ParseInt value);
               try destruct (strconv.ParseBool value);
               reflexivity
             | ]
         end.
  discriminate L.
Qed.

Lemma parseArgs_embed (n : nat) :
  forall (arguments : list string) (p : plain.config) (act : list string)
         (p' : plain.config) (act' rest : list string),
    (List.length arguments <= n)%nat ->
    flag.parseArgs plainFlags arguments p act = inr (p', act', rest) ->
    flag.parseArgs configFlags arguments (embed codeParam nonce p) act
    = inr (embed codeParam nonce p', act', rest).
Proof.
  induction n as [|n IH]; intros arguments p act p' act' rest Hn.
  - destruct arguments; [|cbn in Hn; lia].
    cbn [flag.parseArgs]. intros E. injection E as <- <- <-. reflexivity.
  - destruct arguments as [|s tl].
    { cbn [flag.parseArgs]. intros E. injection E as <- <- <-. reflexivity. }
    cbn [List.length] in Hn. rewrite !parseArgs_cons.
    destruct (classify s) as [| | | name value hasValue].
    + intros E. injection E as <- <- <-. reflexivity.
    + intros E. injection E as <- <- <-. reflexivity.
    + discriminate.
    + destruct (flag.lookup name plainFlags) as [fg|] eqn:L.
      * destruct (lookup_embed name fg L) as (fg' & -> & -> & S).
        destruct (flag.IsBoolFlag (flag.Val fg)).
        { rewrite S.
          destruct (flag.Set_ (flag.Val fg) _ p) as [p2|]; [|discriminate].
          cbn [option_map]. apply IH. lia. }
        destruct hasValue.
        { rewrite S.
          destruct (flag.Set_ (flag.Val fg) value p) as [p2|];
            [|discriminate].
          cbn [option_map]. apply IH. lia. }
        destruct tl as [|v tl']; [discriminate|].
        rewrite S.
        destruct (flag.Set_ (flag.Val fg) v p) as [p2|]; [|discriminate].
        cbn [option_map]. apply IH. cbn [List.length] in Hn. lia.
      * destruct (String.eqb name "help" || String.eqb name "h");
          discriminate.
Qed.

End Embedding.

Lemma embed_defaults (full variant : defaultsFile) :
  sameFile full variant ->
  embed (CodeParam (fileDefaults full)) (OIDCNonce (fileDefaults full))
    (plain.set_TokenURL (plain.AuthURL (plainDefaults variant))
       (plainDefaults variant))
  = set_TokenURL (AuthURL (fileDefaults full)) (fileDefaults full).
Proof.
  destruct full as [| err | err | v], variant as [| err' | err' | v'];
    cbn [sameFile]; try contradiction; try reflexivity.
  unfold shared. intros E.
  injection E as E1 E2 E3 E4 E5 E6 E7 E8 E9.
  unfold embed, fileDefaults, plainDefaults, Decode, plain.Decode,
    set_TokenURL, plain.set_TokenURL.
  cbn [plain.Interface plain.Port plain.Callback plain.ClientID
       plain.ClientSecret plain.AuthURL plain.TokenURL plain.Scope
       plain.Verbose Interface Port Callback ClientID ClientSecret AuthURL
       TokenURL CodeParam Scope OIDCNonce Verbose builtin plain.builtin].
  rewrite E1, E2, E3, E4, E5, E6, E8, E9. reflexivity.
Qed.

Lemma checkRequired_embed (codeParam : string) (nonce : bool)
      (p : plain.config) :
  checkRequired (embed codeParam nonce p) = plain.checkRequired p.
Proof. reflexivity. Qed.

(** When the defaults file is none, or cannot be opened, the two
    programs find the same; when it can be read, both read it. *)
Lemma sameFile_readable (full variant : defaultsFile) :
  sameFile full variant ->
  unreadableOrMalformed variant = unreadableOrMalformed full
  /\ forall err, full <> DecodeError err.
Proof.
  destruct full, variant; cbn [sameFile]; try contradiction;
    (split; [reflexivity | discriminate]).
Qed.

Lemma loadConfig_of_plain (full variant : defaultsFile)
      (arguments : list string) (p : plain.config) :
  sameFile full variant ->
  plain.loadConfig variant arguments = Return p ->
  loadConfig full arguments
  = Return (embed (CodeParam (fileDefaults full))
                  (OIDCNonce (fileDefaults full)) p).
Proof.
  intros SF H.
  assert (F : unreadableOrMalformed variant = false).
  { destruct variant; try reflexivity; discriminate H. }
  assert (F' : unreadableOrMalformed full = false).
  { rewrite <- (proj1 (sameFile_readable _ _ SF)). exact F. }
  rewrite plain_loadConfig_parseArgs in H by exact F.
  rewrite loadConfig_parseArgs by exact F'.
  destruct (flag.parseArgs plainFlags arguments _ [])
    as [e | [[c act] rest]] eqn:E.
  - destruct e; discriminate H.
  - apply (parseArgs_embed (CodeParam (fileDefaults full))
             (OIDCNonce (fileDefaults full)) (List.length arguments)
             arguments _ [] c act rest (le_n _)) in E.
    rewrite (embed_defaults full variant SF) in E. rewrite E.
    rewrite checkRequired_embed.
    destruct (plain.checkRequired c); cbn [bind] in *; try discriminate H.
    injection H as <-. reflexivity.
Qed.

Section EmbeddingErrors.

Variable codeParam : string.
Variable nonce : bool.

Lemma lookup_embed_none (name : string) :
  flag.lookup name plainFlags = None ->
  flag.lookup name configFlags = None
  \/ name = "code" \/ name = "oidc-nonce".
Proof.
  unfold plainFlags, configFlags. cbn [flag.lookup flag.Name].
  repeat match goal with
         | |- context [if String.eqb ?n name then _ else _] =>
             let E := fresh "E" in
             destruct (String.eqb n name) eqn:E;
             [ apply String.eqb_eq in E; subst name;
               first [ discriminate
                     | intros _; right; left; reflexivity
                     | intros _; right; right; reflexivity ]
             | ]
         end.
  intros _. left. reflexivity.
Qed.

(** An error of the variant's flag parsing is the error of the full
    program's, unless it is about one of the two flags that only the
    full program defines. *)
Lemma parseArgs_embed_error (n : nat) :
  forall (arguments : list string) (p : plain.config) (act : list string)
         (e : flag.Error),
    (List.length arguments <= n)%nat ->
    flag.parseArgs plainFlags arguments p act = inl e ->
    flag.parseArgs configFlags arguments (embed codeParam nonce p) act
    = inl e
    \/ onlyFull e.
Proof.
  induction n as [|n IH]; intros arguments p act e Hn.
  - destruct arguments; [|cbn in Hn; lia]. discriminate.
  - destruct arguments as [|s tl]; [discriminate|].
    cbn [List.length] in Hn. rewrite !parseArgs_cons.
    destruct (classify s) as [| | | name value hasValue]; try discriminate.
    + intros E; injection E as <-; left; reflexivity.
    + destruct (flag.lookup name plainFlags) as [fg|] eqn:L.
      * destruct (lookup_embed codeParam nonce name fg L)
          as (fg' & -> & -> & S).
        destruct (flag.IsBoolFlag (flag.Val fg)).
        { rewrite S.
          destruct (flag.Set_ (flag.Val fg) _ p) as [p2|].
          - cbn [option_map]. apply IH. lia.
          - intros E; injection E as <-; left; reflexivity. }
        destruct hasValue.
        { rewrite S.
          destruct (flag.Set_ (flag.Val fg) value p) as [p2|].
          - cbn [option_map]. apply IH. lia.
          - intros E; injection E as <-; left; reflexivity. }
        destruct tl as [|v tl']; [intros E; injection E as <-; left; reflexivity|].
        rewrite S.
        destruct (flag.Set_ (flag.Val fg) v p) as [p2|].
        -- cbn [option_map]. apply IH. cbn [List.length] in Hn. lia.
        -- intros E; injection E as <-; left; reflexivity.
      * destruct (lookup_embed_none name L) as [-> | [-> | ->]].
        -- destruct (String.eqb name "help" || String.eqb name "h");
             intros E; injection E as <-; left; reflexivity.
        -- cbn [String.eqb Ascii.eqb Bool.eqb orb].
           intros E. injection E as <-. right. left. reflexivity.
        -- cbn [String.eqb Ascii.eqb Bool.eqb orb].
           intros E. injection E as <-. right. right. reflexivity.
Qed.

End EmbeddingErrors.

Lemma plain_checkRequired_cases (c : plain.config) :
  plain.checkRequired c = Return tt
  \/ exists name, plain.checkRequired c = Exit 1 (RequiredFlag name).
Proof.
  unfold plain.checkRequired, required.
  destruct (String.eqb (plain.AuthURL c) ""); cbn [bind]; [right; eauto|].
  destruct (String.eqb (plain.TokenURL c) ""); cbn [bind]; [right; eauto|].
  destruct (String.eqb (plain.ClientID c) ""); cbn [bind]; [right; eauto|].
  destruct (String.eqb (plain.ClientSecret c) ""); cbn [bind];
    [right; eauto | left; reflexivity].
Qed.

(** X26.  The full program extends the variant, on a defaults file that
    the full program can decode, or that is missing or cannot be opened.
    When [loadConfig] of the variant returns, that of the full program
    returns the same fields, with the code parameter and the nonce mode
    of the defaults file; when it exits, the full program exits with the
    same status and reason, unless the reason is that the flag [-code]
    or [-oidc-nonce] is not defined. *)
Theorem plain_loadConfig_embeds (full variant : defaultsFile)
        (arguments : list string) :
  sameFile full variant ->
  match plain.loadConfig variant arguments with
  | Return p =>
      loadConfig full arguments
      = Return (embed (CodeParam (fileDefaults full))
                      (OIDCNonce (fileDefaults full)) p)
  | Exit status (FlagError e) =>
      loadConfig full arguments = Exit status (FlagError e) \/ onlyFull e
  | Exit status reason => loadConfig full arguments = Exit status reason
  | Panic _ | Blocked => False
  end.
Proof.
  intros SF.
  destruct (unreadableOrMalformed full) eqn:F.
  { destruct full, variant; cbn [sameFile] in SF; try contradiction;
      try discriminate F; subst; reflexivity. }
  assert (F' : unreadableOrMalformed variant = false).
  { rewrite (proj1 (sameFile_readable _ _ SF)). exact F. }
  rewrite plain_loadConfig_parseArgs by exact F'.
  rewrite loadConfig_parseArgs by exact F.
  destruct (flag.parseArgs plainFlags arguments _ [])
    as [e | [[c act] rest]] eqn:E.
  - apply (parseArgs_embed_error (CodeParam (fileDefaults full))
             (OIDCNonce (fileDefaults full)) (List.length arguments)
             arguments _ [] e (le_n _)) in E.
    rewrite (embed_defaults full variant SF) in E.
    destruct E as [E | E].
    + rewrite E. destruct e; left; reflexivity.
    + destruct e; right; exact E.
  - apply (parseArgs_embed (CodeParam (fileDefaults full))
             (OIDCNonce (fileDefaults full)) (List.length arguments)
             arguments _ [] c act rest (le_n _)) in E.
    rewrite (embed_defaults full variant SF) in E.
    rewrite E, checkRequired_embed.
    destruct (plain_checkRequired_cases c) as [R | [name R]]; rewrite R;
      reflexivity.
Qed.

Lemma plain_loadConfig_embeds_witness :
  loadConfig (Decoded withExtras) oneScope
  = Return (embed "authorization_code" true
              (plain.set_Scope "read"
                 (plain.set_TokenURL "https://provider/auth"
                    (plain.Decode bothEndpoints plain.builtin)))).
Proof.
  exact (plain_loadConfig_embeds (Decoded withExtras)
           (Decoded bothEndpoints) oneScope eq_refl).
Defined.

Section Variants.

Variable parseAuthority : string -> string + (option url.Userinfo * string).
Variable Quote : string -> string.
Variable Exchange : oauth2.Config -> string -> string + oauth2.Token.
Variable MarshalIndent : oauth2.Token -> string + string.
Variable Unmarshal : list byte -> string + string.
Variable rejected : string -> option string.
Variable dispatched : string -> Request -> bool.

Lemma handlerBody_of_plain (p : plain.config)
      (cfg : oauth2.Config) (state : string) (r : Request)
      (nonceMode : bool) :
  plain_flow.handlerBody Exchange MarshalIndent p cfg state r
  = handlerBody Quote Exchange MarshalIndent Unmarshal
      (embed "code" nonceMode p) cfg state "" r.
Proof.
  unfold plain_flow.handlerBody, handlerBody.
  unfold plain_flow.verbose, verbose.
  cbn [embed Verbose CodeParam String.eqb negb].
  f_equal.
  destruct (negb (String.eqb (url.Get (Query r) "state") state));
    [reflexivity|].
  f_equal.
  destruct (Exchange cfg (url.Get (Query r) "code")); [reflexivity|].
  rewrite io_bind_ret. reflexivity.
Qed.

(** X27.  The handler of the variant is the handler of the full program with
    the code parameter ["code"] and without nonce: with an empty nonce
    the ID token is not looked at. *)
Theorem plain_handler_is_handler_without_nonce (p : plain.config)
        (cfg : oauth2.Config) (state : string) (r : Request)
        (nonceMode : bool) :
  plain_flow.handler Exchange MarshalIndent p cfg state r
  = handler Quote Exchange MarshalIndent Unmarshal
      (embed "code" nonceMode p) cfg state "" r.
Proof.
  unfold plain_flow.handler, handler.
  rewrite (handlerBody_of_plain p cfg state r nonceMode).
  reflexivity.
Qed.

Lemma callbackURL_of_plain (p : plain.config) (codeParam : string)
      (nonceMode : bool) :
  plain_flow.callbackURL parseAuthority p
  = callbackURL parseAuthority (embed codeParam nonceMode p).
Proof. reflexivity. Qed.

Lemma serve_of_plain (srv : server) (p : plain.config)
      (cfg : oauth2.Config) (u : url.URL) (state : string) (r : Request) :
  plain_flow.serve Exchange MarshalIndent rejected dispatched
    srv p cfg u state r
  = serve Quote Exchange MarshalIndent Unmarshal rejected dispatched srv
      (embed "code" false p) cfg u state "" r.
Proof.
  unfold plain_flow.serve, serve, plain_flow.handler, handler.
  rewrite (handlerBody_of_plain p cfg state r false). reflexivity.
Qed.

(** X28.  A run of the variant is a run of the full program: when the variant
    accepts the command line and the defaults file, which the full
    program can decode, asks for neither another code parameter nor the
    nonce, the two [main] make the same calls and end alike. *)
Theorem plain_main_is_main (full variant : defaultsFile)
        (arguments : list string)
        (src : rand.source) (srv : server) (r : Request)
        (p : plain.config) :
  sameFile full variant ->
  plain.loadConfig variant arguments = Return p ->
  CodeParam (fileDefaults full) = "code" ->
  OIDCNonce (fileDefaults full) = false ->
  plain_flow.main parseAuthority Exchange MarshalIndent rejected dispatched
    variant arguments src srv r
  = main parseAuthority Quote Exchange MarshalIndent Unmarshal
      rejected dispatched full arguments src srv r.
Proof.
  intros SF H Hc Hn. unfold plain_flow.main, main, lift.
  rewrite H, (loadConfig_of_plain full variant arguments p SF H), Hc, Hn.
  cbn [io_bind].
  rewrite (callbackURL_of_plain p "code" false).
  destruct (callbackURL parseAuthority (embed "code" false p))
    as [u | status e | msg |]; try reflexivity.
  cbn [io_bind]. unfold secrets. cbn [OIDCNonce embed].
  cbv beta iota delta [bind].
  destruct (randString src 0) as [[state n] | status e | msg |];
    try reflexivity.
  rewrite serve_of_plain. reflexivity.
Qed.

End Variants.

Lemma plain_main_is_main_witness :
  plain_flow.main plainAuthority sampleExchange sampleMarshalIndent
    lenientMux exactPath
    NotExist commaScopes zeros sampleServer
    (sampleRequest (stateOf builtin zeros))
  = main plainAuthority sampleQuote sampleExchange sampleMarshalIndent
      sampleUnmarshal lenientMux exactPath
      NotExist commaScopes zeros sampleServer
      (sampleRequest (stateOf builtin zeros)).
Proof.
  apply (plain_main_is_main plainAuthority sampleQuote sampleExchange
           sampleMarshalIndent sampleUnmarshal lenientMux exactPath
           NotExist NotExist commaScopes zeros
           sampleServer (sampleRequest (stateOf builtin zeros))
           (plain.set_Scope "read,write"
              (plain.set_TokenURL "https://provider/token"
                 (plain.set_AuthURL "https://provider/auth"
                    (plain.set_ClientSecret "secret"
                       (plain.set_ClientID "id" plain.builtin))))));
    vm_compute; reflexivity.
Defined.

(** ** Instances *)

Lemma exchange_error_unavailable_witness :
  status (fst (handler sampleQuote failingExchange sampleMarshalIndent
                 sampleUnmarshal builtin (oauthConfig builtin url.empty)
                 "expected" "" (sampleRequest "expected")))
  = Some 503%Z.
Proof.
  exact (proj1 (proj2 (exchange_error_unavailable sampleQuote failingExchange
                         sampleMarshalIndent sampleUnmarshal builtin
                         (oauthConfig builtin url.empty) "expected" ""
                         (sampleRequest "expected") "invalid_grant"
                         eq_refl eq_refl))).
Defined.

Lemma nonce_check_error_unauthorized_witness :
  status (fst (handler sampleQuote (exchangeOf bearerToken)
                 sampleMarshalIndent sampleUnmarshal builtin
                 (oauthConfig builtin url.empty)
                 "expected" "nonce" (sampleRequest "expected")))
  = Some 401%Z.
Proof.
  exact (proj1 (proj2 (nonce_check_error_unauthorized sampleQuote
                         (exchangeOf bearerToken)
                         sampleMarshalIndent sampleUnmarshal builtin
                         (oauthConfig builtin url.empty) "expected" "nonce"
                         (sampleRequest "expected") bearerToken
                         [] MissingIDToken eq_refl eq_refl eq_refl))).
Defined.

Lemma token_written_once_witness :
  status (fst (handler sampleQuote sampleExchange sampleMarshalIndent
                 sampleUnmarshal builtin (oauthConfig builtin url.empty)
                 "expected" "" (sampleRequest "expected")))
  = Some 200%Z.
Proof.
  exact (proj1 (proj2 (token_written_once sampleQuote sampleExchange
                         sampleMarshalIndent sampleUnmarshal builtin
                         (oauthConfig builtin url.empty) "expected" ""
                         (sampleRequest "expected") (tokenWith sampleIDToken)
                         [] "{}" eq_refl eq_refl eq_refl eq_refl))).
Defined.

Lemma marshal_error_unavailable_witness :
  status (fst (handler sampleQuote sampleExchange failingMarshalIndent
                 sampleUnmarshal builtin (oauthConfig builtin url.empty)
                 "expected" "" (sampleRequest "expected")))
  = Some 503%Z.
Proof.
  exact (proj1 (proj2 (marshal_error_unavailable sampleQuote sampleExchange
                         failingMarshalIndent sampleUnmarshal builtin
                         (oauthConfig builtin url.empty) "expected" ""
                         (sampleRequest "expected") (tokenWith sampleIDToken)
                         [] "unsupported type"
                         eq_refl eq_refl eq_refl eq_refl))).
Defined.

Lemma nonce_check_panic_unanswered_witness :
  status (fst (handler sampleQuote (exchangeOf (tokenWith "abc"))
                 sampleMarshalIndent sampleUnmarshal builtin
                 (oauthConfig builtin url.empty)
                 "expected" "nonce" (sampleRequest "expected")))
  = None.
Proof.
  exact (proj1 (proj2 (nonce_check_panic_unanswered sampleQuote
                         (exchangeOf (tokenWith "abc"))
                         sampleMarshalIndent sampleUnmarshal builtin
                         (oauthConfig builtin url.empty) "expected" "nonce"
                         (sampleRequest "expected") (tokenWith "abc")
                         [] indexOutOfRange eq_refl eq_refl eq_refl))).
Defined.

Lemma callback_without_state_rejected_witness :
  status (fst (handler sampleQuote sampleExchange sampleMarshalIndent
                 sampleUnmarshal builtin (oauthConfig builtin url.empty)
                 (stateOf builtin zeros) "" statelessRequest))
  = Some 401%Z.
Proof.
  exact (proj1 (proj2 (callback_without_state_rejected sampleQuote
                         sampleExchange sampleMarshalIndent sampleUnmarshal
                         builtin (oauthConfig builtin url.empty) zeros ""
                         statelessRequest eq_refl))).
Defined.

Lemma exchange_called_with_code_param_witness :
  exchanges (fst (handler sampleQuote sampleExchange sampleMarshalIndent
                    sampleUnmarshal builtin (oauthConfig builtin url.empty)
                    "expected" "" (codelessRequest "expected")))
  = [""].
Proof.
  exact (proj2 (exchange_called_with_code_param sampleQuote sampleExchange
                  sampleMarshalIndent sampleUnmarshal builtin
                  (oauthConfig builtin url.empty) "expected" ""
                  (codelessRequest "expected") eq_refl) eq_refl).
Defined.

Lemma checkNonce_logs_payload_segment_witness :
  fst (checkNonce sampleQuote sampleUnmarshal "nonce"
         (tokenWith sampleIDToken))
  = [log_Printf "eyJub25jZSI6IngifQ"].
Proof.
  exact (checkNonce_logs_payload_segment sampleQuote sampleUnmarshal "nonce"
           (tokenWith sampleIDToken) sampleIDToken "e30"
           "eyJub25jZSI6IngifQ" ["c2ln"] eq_refl eq_refl).
Defined.

Lemma checkNonce_ignores_header_and_signature_witness :
  checkNonce sampleQuote sampleUnmarshal "x"
    (tokenWith (jwt "e30" "eyJub25jZSI6IngifQ" "c2ln"))
  = checkNonce sampleQuote sampleUnmarshal "x"
      (tokenWith (unsignedJwt "" "eyJub25jZSI6IngifQ")).
Proof.
  exact (proj2 (checkNonce_ignores_header_and_signature sampleQuote
                  sampleUnmarshal "x" "e30" "" "eyJub25jZSI6IngifQ"
                  "c2ln" "" eq_refl eq_refl eq_refl)).
Defined.

Lemma main_serves_one_request_witness :
  let r := sampleRequest (stateOf commaScopesConf zeros) in
  let u' := defaultHost commaScopesConf (defaultScheme callbackPath) in
  let cfg := oauthConfig commaScopesConf u' in
  main plainAuthority sampleQuote sampleExchange sampleMarshalIndent
    sampleUnmarshal lenientMux exactPath
    NotExist commaScopes zeros sampleServer r
  = ((visitLog cfg (stateOf commaScopesConf zeros)
        (optsOf commaScopesConf zeros)
      :: started commaScopesConf u'
      ++ fst (handler sampleQuote sampleExchange sampleMarshalIndent
                sampleUnmarshal commaScopesConf cfg
                (stateOf commaScopesConf zeros)
                (nonceOf commaScopesConf zeros) r)
      ++ [wg_Wait; server_Shutdown])%list,
     Return tt).
Proof.
  intros r.
  refine (main_serves_one_request plainAuthority sampleQuote
            sampleExchange sampleMarshalIndent sampleUnmarshal
            lenientMux exactPath
            NotExist commaScopes zeros sampleServer r
            commaScopesConf callbackPath _ _ _ _ eq_refl _ eq_refl);
    vm_compute; reflexivity.
Defined.

Lemma main_bad_callback_exits_witness :
  main plainAuthority sampleQuote sampleExchange sampleMarshalIndent
    sampleUnmarshal lenientMux exactPath
    NotExist badCallback zeros sampleServer
    (sampleRequest "expected")
  = ([], Exit 1 (BadCallback url.ErrMissingScheme)).
Proof.
  refine (main_bad_callback_exits plainAuthority sampleQuote sampleExchange
            sampleMarshalIndent sampleUnmarshal lenientMux exactPath
            NotExist badCallback zeros
            sampleServer (sampleRequest "expected") badCallbackConf
            url.ErrMissingScheme _ _);
    vm_compute; reflexivity.
Defined.

Lemma main_panics_without_pattern_witness :
  let cfg := oauthConfig noPathConf noPathURL in
  main plainAuthority sampleQuote sampleExchange sampleMarshalIndent
    sampleUnmarshal lenientMux exactPath
    NotExist noPath zeros sampleServer (sampleRequest "expected")
  = ([visitLog cfg (stateOf noPathConf zeros) (optsOf noPathConf zeros);
      wg_Add 1; http_HandleFunc ""],
     Panic "http: invalid pattern").
Proof.
  intros cfg.
  refine (proj2 (main_panics_without_pattern plainAuthority sampleQuote
                   sampleExchange sampleMarshalIndent sampleUnmarshal
                   lenientMux exactPath
                   NotExist noPath zeros sampleServer
                   (sampleRequest "expected") noPathConf noPathURL
                   _ _ _) eq_refl);
    vm_compute; reflexivity.
Defined.

Lemma main_waits_for_its_callback_witness :
  let u' := defaultHost commaScopesConf (defaultScheme callbackPath) in
  let cfg := oauthConfig commaScopesConf u' in
  main plainAuthority sampleQuote sampleExchange sampleMarshalIndent
    sampleUnmarshal lenientMux exactPath
    NotExist commaScopes zeros sampleServer strayRequest
  = ((visitLog cfg (stateOf commaScopesConf zeros)
        (optsOf commaScopesConf zeros)
      :: started commaScopesConf u')%list,
     Blocked).
Proof.
  refine (main_waits_for_its_callback plainAuthority sampleQuote
            sampleExchange sampleMarshalIndent sampleUnmarshal
            lenientMux exactPath
            NotExist commaScopes zeros sampleServer strayRequest
            commaScopesConf callbackPath _ _ _ _ eq_refl _);
    vm_compute; reflexivity.
Defined.

Lemma main_exits_on_failed_read_witness :
  main plainAuthority sampleQuote sampleExchange sampleMarshalIndent
    sampleUnmarshal lenientMux exactPath
    NotExist commaScopes failingSource sampleServer
    (sampleRequest "expected")
  = ([], Exit 2 (RandomReadFailed "read error")).
Proof.
  destruct (main_exits_on_failed_read plainAuthority sampleQuote
              sampleExchange sampleMarshalIndent sampleUnmarshal
              lenientMux exactPath
              NotExist commaScopes failingSource sampleServer
              (sampleRequest "expected") commaScopesConf callbackPath)
    as (n & _ & _ & E); [vm_compute; reflexivity ..|].
  exact E.
Defined.

Lemma positional_argument_ends_flags_witness :
  loadConfig NotExist (commaScopes ++ "run" :: oneScope)
  = loadConfig NotExist commaScopes.
Proof.
  refine (proj1 (positional_argument_ends_flags NotExist commaScopes "run"
                   oneScope (or_introl eq_refl) _)).
  intros name. vm_compute. discriminate.
Defined.

Lemma help_flag_exits_with_status_0_witness :
  loadConfig NotExist ("-h" :: commaScopes) = Exit 0 (FlagError flag.ErrHelp).
Proof.
  exact (help_flag_exits_with_status_0 NotExist "-h" commaScopes eq_refl
           (or_introl eq_refl)).
Defined.

Lemma loadConfig_without_flags_witness :
  TokenURL bothEndpointsConf = orElse (json_auth_url bothEndpoints) "".
Proof.
  refine (proj1 (proj2 (proj2 (proj2 (proj2 (proj2 (proj2
            (loadConfig_without_flags bothEndpoints bothEndpointsConf _)))))))).
  vm_compute. reflexivity.
Defined.

Lemma required_flags_override_file_witness :
  loadConfig (Decoded bothEndpoints) (requiredFlags "i" "s" "a" "t")
  = Return (set_TokenURL "t"
              (set_AuthURL "a"
                 (set_ClientSecret "s"
                    (set_ClientID "i" (fileDefaults (Decoded bothEndpoints)))))).
Proof.
  apply (required_flags_override_file (Decoded bothEndpoints) "i" "s" "a" "t");
    [reflexivity | discriminate | discriminate | discriminate | discriminate].
Defined.
